(** * status-pin: the reconciliation engine of [handler.js]

    A shallow embedding of the hook that keeps one pinned Telegram message
    in step with a session log and the OpenRouter balance, and the
    properties of its publisher ([ensurePin]), usage extractor
    ([parseLastUsage]), update cycle ([runUpdate]), formatter
    ([formatStatusMessage]) and session discovery ([discoverSession]).

    JavaScript values are kept dynamically typed ([JValue]); the parts of the
    JavaScript runtime that the program only calls (IEEE numbers and their
    printing, [JSON.parse], [JSON.stringify], [parseInt]) are the fields of
    the class [JSRuntime]; the file system, the process environment and the
    module-level variables form the [World]; the clock and the remote
    services answer through an [Env]; every function of the program that
    touches them lives in the monad [M]. *)

From Stdlib Require Import ZArith QArith Qabs Qround Ascii String List Bool Lia.
From Stdlib Require Import DecimalString.
From stdpp Require Import base option list gmap strings.

(** ** Strings: the methods of [String.prototype] the program calls.
    A string is its UTF-8 byte sequence. *)

Module JSString.

Definition bytes (l : list nat) : string :=
  string_of_list_ascii (map ascii_of_nat l).

Definition LF : ascii := ascii_of_nat 10.

Definition strlen (s : string) : nat := String.length s.

Fixpoint drop (n : nat) (s : string) : string :=
  match n, s with
  | O, _ => s
  | S n', String _ r => drop n' r
  | S _, EmptyString => EmptyString
  end.

Fixpoint rev_onto (s acc : string) : string :=
  match s with
  | EmptyString => acc
  | String c r => rev_onto r (String c acc)
  end.

Definition rev (s : string) : string := rev_onto s EmptyString.

(** [s.startsWith(p)] *)
Definition startsWith (p s : string) : bool := String.prefix p s.

(** [s.includes(p)] *)
Fixpoint includes (p s : string) : bool :=
  String.prefix p s ||
  match s with
  | EmptyString => false
  | String _ r => includes p r
  end.

(** Case folding of a regular expression with the [i] flag and without the
    [u] flag: only ASCII letters fold onto ASCII letters. *)
Definition lower_ascii (c : ascii) : ascii :=
  let n := nat_of_ascii c in
  if (Nat.leb 65 n && Nat.leb n 90)%bool then ascii_of_nat (n + 32) else c.

Fixpoint lower (s : string) : string :=
  match s with
  | EmptyString => EmptyString
  | String c r => String (lower_ascii c) (lower r)
  end.

(** [/p/i.test(s)] for a pattern [p] of lower-case letters and spaces. *)
Definition test_ci (p s : string) : bool := includes p (lower s).

(** [s.split("\n")]: never the empty list. *)
Fixpoint split_nl (s : string) : list string :=
  match s with
  | EmptyString => [EmptyString]
  | String c r =>
      if Ascii.eqb c LF then EmptyString :: split_nl r
      else match split_nl r with
           | h :: t => String c h :: t
           | [] => [String c EmptyString]
           end
  end.

(** White space and line terminators of ECMAScript, in UTF-8:
    TAB, LF, VT, FF, CR, SP; U+00A0, U+1680, U+2000..U+200A, U+2028,
    U+2029, U+202F, U+205F, U+3000, U+FEFF. *)
Definition ws1 (c : ascii) : bool :=
  let n := nat_of_ascii c in
  (Nat.leb 9 n && Nat.leb n 13)%bool || Nat.eqb n 32.

Definition ws_multi : list string :=
  bytes [194; 160] :: bytes [225; 154; 128] ::
  map (fun k => bytes [226; 128; 128 + k]) (seq 0 11) ++
  [ bytes [226; 128; 168]; bytes [226; 128; 169]; bytes [226; 128; 175];
    bytes [226; 129; 159]; bytes [227; 128; 128]; bytes [239; 187; 191] ].

(** One leading white-space character removed, if there is one; [seqs] are
    the multi-byte ones, as they read from this end of the string. *)
Definition strip1 (seqs : list string) (s : string) : option string :=
  match s with
  | EmptyString => None
  | String c r =>
      if ws1 c then Some r
      else match List.find (fun q => String.prefix q s) seqs with
           | Some q => Some (drop (strlen q) s)
           | None => None
           end
  end.

Fixpoint strip (seqs : list string) (fuel : nat) (s : string) : string :=
  match fuel with
  | O => s
  | S f => match strip1 seqs s with
           | Some s' => strip seqs f s'
           | None => s
           end
  end.

Definition trimStart (s : string) : string := strip ws_multi (strlen s) s.

Definition trimEnd (s : string) : string :=
  rev (strip (map rev ws_multi) (strlen s) (rev s)).

(** [s.trim()] *)
Definition trim (s : string) : string := trimEnd (trimStart s).

(** [s.replace(/c/g, rep)] for a one-character pattern. *)
Fixpoint replaceAll (c : ascii) (rep : string) (s : string) : string :=
  match s with
  | EmptyString => EmptyString
  | String d r =>
      if Ascii.eqb d c then rep +:+ replaceAll c rep r
      else String d (replaceAll c rep r)
  end.

Fixpoint repeat0 (n : nat) : string :=
  match n with O => EmptyString | S k => String "0"%char (repeat0 k) end.

(** [s.padStart(n, "0")] *)
Definition padStart0 (n : nat) (s : string) : string :=
  repeat0 (n - strlen s) +:+ s.

(** [parts.join(sep)] *)
Definition join (sep : string) (parts : list string) : string :=
  String.concat sep parts.

(** [String(n)] for a non-negative integer below 2^53. *)
Definition of_nat (n : nat) : string :=
  NilEmpty.string_of_uint (Nat.to_uint n).

Fixpoint all_digits (s : string) : bool :=
  match s with
  | EmptyString => true
  | String c r =>
      let n := nat_of_ascii c in
      (Nat.leb 48 n && Nat.leb n 57)%bool && all_digits r
  end.

(** Each character replaced by a string. *)
Fixpoint flatMap (f : ascii -> string) (s : string) : string :=
  match s with
  | EmptyString => EmptyString
  | String c r => f c +:+ flatMap f r
  end.

(** The decimal digit [n]. *)
Definition digit (n : nat) : ascii := ascii_of_nat (48 + n).

End JSString.

(** ** Paths: [join] of [node:path], on POSIX *)

Module Path.

(** [path.split("/")] *)
Fixpoint segments (path : string) : list string :=
  match path with
  | EmptyString => [EmptyString]
  | String c r =>
      if Ascii.eqb c "/" then EmptyString :: segments r
      else
        match segments r with
        | seg :: rest => String c seg :: rest
        | [] => [String c EmptyString]
        end
  end.

(** [normalizeString]: the segments that are kept, the last one first. An
    empty segment and ["."] are dropped; [".."] takes the segment before it
    away, and stays only where there is none to take and the path is
    relative. *)
Fixpoint normalizeSegments (allowAboveRoot : bool) (segs kept : list string)
  : list string :=
  match segs with
  | [] => kept
  | seg :: rest =>
      if String.eqb seg "" || String.eqb seg "." then
        normalizeSegments allowAboveRoot rest kept
      else if String.eqb seg ".." then
        match kept with
        | last :: before =>
            if String.eqb last ".." then
              normalizeSegments allowAboveRoot rest
                (if allowAboveRoot then ".." :: kept else kept)
            else normalizeSegments allowAboveRoot rest before
        | [] =>
            normalizeSegments allowAboveRoot rest
              (if allowAboveRoot then [".."] else [])
        end
      else normalizeSegments allowAboveRoot rest (seg :: kept)
  end.

Definition normalize (path : string) : string :=
  if String.eqb path "" then "."
  else
    let isAbsolute := JSString.startsWith "/" path in
    let trailingSeparator := JSString.startsWith "/" (JSString.rev path) in
    let kept := normalizeSegments (negb isAbsolute) (segments path) [] in
    if match kept with [] => true | _ => false end then
      if isAbsolute then "/" else if trailingSeparator then "./" else "."
    else
      (if isAbsolute then "/" else "")
      +:+ JSString.join "/" (List.rev kept)
      +:+ (if trailingSeparator then "/" else "").

(** [join(...parts)] *)
Definition join (parts : list string) : string :=
  match List.filter (fun p => negb (String.eqb p "")) parts with
  | [] => "."
  | used => normalize (JSString.join "/" used)
  end.

End Path.

Local Open Scope Z_scope.

(** ** Values *)

(** What [JSON.parse] returns, and [undefined]. An object lists its
    properties in the order of [Object.entries]. *)
#[warnings="-register-all"]
Inductive JValue (number : Type) : Type :=
| JUndefined
| JNull
| JBool (b : bool)
| JNum (n : number)
| JStr (s : string)
| JArr (items : list (JValue number))
| JObj (props : list (string * JValue number)).

Arguments JUndefined {number}.
Arguments JNull {number}.
Arguments JBool {number} b.
Arguments JNum {number} n.
Arguments JStr {number} s.
Arguments JArr {number} items.
Arguments JObj {number} props.

(** The runtime under the program: IEEE-754 doubles with the operations the
    program applies to them, the JSON codec, and the directory the module
    was loaded from. *)
Class JSRuntime (number : Type) := {
  num_of_Z : Z -> number;                 (* an integer literal *)
  num_of_Q : Q -> number;                 (* a decimal literal such as 0.25 *)
  num_nan : number;
  num_falsy : number -> bool;             (* +0, -0, NaN *)
  num_eqb : number -> number -> bool;     (* x === y *)
  num_ltb : number -> number -> bool;     (* x < y *)
  num_leb : number -> number -> bool;     (* x <= y *)
  num_div : number -> number -> number;
  num_mul : number -> number -> number;
  Math_round : number -> number;
  Number_toFixed : number -> nat -> string;
  Number_toString : number -> string;
  StringToNumber : string -> number;
  parseInt10 : string -> number;          (* parseInt(s, 10) *)
  JSON_parse : string -> option (JValue number);   (* None: SyntaxError *)
  JSON_stringify : JValue number -> nat -> string; (* JSON.stringify(v, null, n) *)
  HOOK_DIR : string                       (* dirname(fileURLToPath(import.meta.url)) *)
}.

Reserved Notation "x <- m ;; k"
  (at level 100, m at next level, k at level 200, right associativity).
Reserved Notation "m ;; k"
  (at level 100, k at level 200, right associativity).

Declare Scope js_scope.
Delimit Scope js_scope with js.

Section Handler.

Context {number : Type} `{RT : JSRuntime number}.

(** ** The language: coercions, property access, exceptions *)

Abbreviation value := (JValue number).

(** An [Error] object: its [message] and its [code] property
    ([undefined] unless someone set it). *)
Record JsError := { err_message : string; err_code : value }.

Definition Error (msg : string) : JsError :=
  {| err_message := msg; err_code := JUndefined |}.

(** The [TypeError] of a property read on [null] or [undefined], of a call
    of something that is not a function, and the like. *)
Definition TypeError (msg : string) : JsError :=
  {| err_message := msg; err_code := JUndefined |}.

Inductive Result (A : Type) : Type :=
| Ok (a : A)
| Throw (e : JsError).

Arguments Ok {A} a.
Arguments Throw {A} e.

(** [ToBoolean] *)
Definition truthy (v : value) : bool :=
  match v with
  | JUndefined | JNull => false
  | JBool b => b
  | JNum n => negb (num_falsy n)
  | JStr s => negb (String.eqb s "")
  | JArr _ | JObj _ => true
  end.

(** [v == null] *)
Definition nullish (v : value) : bool :=
  match v with
  | JUndefined | JNull => true
  | _ => false
  end.

(** [a === b] where one side is a primitive known to the program (a string
    or number literal, a string variable): an object or array is never
    strictly equal to it. *)
Definition strict_eq (a b : value) : bool :=
  match a, b with
  | JUndefined, JUndefined => true
  | JNull, JNull => true
  | JBool x, JBool y => Bool.eqb x y
  | JNum x, JNum y => num_eqb x y
  | JStr x, JStr y => String.eqb x y
  | _, _ => false
  end.

(** [a || b] *)
Definition js_or (a b : value) : value := if truthy a then a else b.

Fixpoint assoc (k : string) (props : list (string * value)) : option value :=
  match props with
  | [] => None
  | (k', v) :: rest => if String.eqb k' k then Some v else assoc k rest
  end.

(** [v.k] on a value that is neither [null] nor [undefined], for a
    property name [k] that is not an array index or [length]: only an
    object can have it. *)
Definition prop (v : value) (k : string) : value :=
  match v with
  | JObj props => default JUndefined (assoc k props)
  | _ => JUndefined
  end.

(** [v?.k] *)
Definition optProp (v : value) (k : string) : value :=
  if nullish v then JUndefined else prop v k.

(** [v.k], which throws on [null] and [undefined]. *)
Definition getProp (v : value) (k : string) : Result value :=
  if nullish v
  then Throw (TypeError ("Cannot read properties of null or undefined (reading '" +:+ k +:+ "')"))
  else Ok (prop v k).

(** [ToString] and [ToNumber]; an array prints its elements joined by
    commas, [null] and [undefined] elements as the empty string. The
    conversion of a primitive value never throws. That of a parsed object
    throws when the object has a key [toString] of its own, which is not
    modelled: an object prints as one without such a key. *)
Fixpoint ToString (v : value) : string :=
  match v with
  | JUndefined => "undefined"
  | JNull => "null"
  | JBool true => "true"
  | JBool false => "false"
  | JNum n => Number_toString n
  | JStr s => s
  | JArr items =>
      JSString.join ","
        (map (fun e => match e with
                       | JUndefined | JNull => ""
                       | _ => ToString e
                       end) items)
  | JObj _ => "[object Object]"
  end.

Definition ToNumber (v : value) : number :=
  match v with
  | JUndefined => num_nan
  | JNull => num_of_Z 0
  | JBool true => num_of_Z 1
  | JBool false => num_of_Z 0
  | JNum n => n
  | JStr s => StringToNumber s
  | JArr _ | JObj _ => StringToNumber (ToString v)
  end.

(** [Object.entries(v)]: the own enumerable string-keyed properties. *)
Definition Object_entries (v : value) : Result (list (string * value)) :=
  match v with
  | JUndefined | JNull =>
      Throw (TypeError "Cannot convert undefined or null to object")
  | JObj props => Ok props
  | JArr items =>
      Ok (imap (fun i e => (JSString.of_nat i, e)) items)
  | JStr s =>
      Ok (imap (fun i c => (JSString.of_nat i, JStr (String c "")))
            (list_ascii_of_string s))
  | JBool _ | JNum _ => Ok []
  end.

(** ** The world outside the program, and the monad of its effects *)

(** A call of the global [fetch]: the service and what is sent to it. *)
Inductive Request : Type :=
| TelegramApi (token method : string) (body : value)
    (* POST https://api.telegram.org/bot<token>/<method>, body as JSON *)
| OpenRouterKey (apiKey : string)      (* GET https://openrouter.ai/api/v1/key *)
| OpenRouterModels (apiKey : string).  (* GET https://openrouter.ai/api/v1/models *)

(** A [Response]: [res.ok], [res.status], and what [await res.json()] gives. *)
Record Response := {
  res_ok : bool;
  res_status : number;
  res_json : Result value
}.

Inductive FetchOutcome : Type :=
| FetchRejects (e : JsError)     (* network failure *)
| FetchResolves (res : Response).

(** What [fetchBalance] returns. *)
Record Balance := {
  limit : value;           (* number | null *)
  limitRemaining : value;  (* number | null *)
  usage : value;           (* number *)
  usageDaily : value       (* number *)
}.

(** The file system, [process.env] and the module-level variables
    [lastUpdateTime], [cachedBalance] and [modelContextCache]. *)
Record World := {
  files : gmap string string;
  processEnv : gmap string string;
  lastUpdateTime : Z;
  cachedBalance : option Balance;
  modelContextCache : list (value * value)
}.

(** What one invocation observes of the outside: the clock and the
    answers of the remote services. *)
Record Env := {
  Date_now : Z;          (* Date.now(), milliseconds *)
  getHours : nat;        (* new Date().getHours() *)
  getMinutes : nat;      (* new Date().getMinutes() *)
  fetch : Request -> FetchOutcome
}.

Inductive LogLevel : Type := LogInfo | LogWarn | LogError.

(** What an invocation does to the outside, in order. *)
Inductive Event : Type :=
| EvExists (path : string)
| EvRead (path : string)
| EvWrite (path content : string)
| EvFetch (req : Request)
| EvLog (level : LogLevel) (args : list string).

Definition M (A : Type) : Type :=
  Env -> World -> Result A * World * list Event.

Definition ret {A} (a : A) : M A := fun _ w => (Ok a, w, []).

Definition throw {A} (e : JsError) : M A := fun _ w => (Throw e, w, []).

Definition bind {A B} (m : M A) (k : A -> M B) : M B :=
  fun env w =>
    match m env w with
    | (Ok a, w1, t1) =>
        let '(r, w2, t2) := k a env w1 in (r, w2, t1 ++ t2)
    | (Throw e, w1, t1) => (Throw e, w1, t1)
    end.

(** [try { m } catch (err) { handler }] *)
Definition tryCatch {A} (m : M A) (handler : JsError -> M A) : M A :=
  fun env w =>
    match m env w with
    | (Ok a, w1, t1) => (Ok a, w1, t1)
    | (Throw e, w1, t1) =>
        let '(r, w2, t2) := handler e env w1 in (r, w2, t1 ++ t2)
    end.

Definition liftR {A} (r : Result A) : M A := fun _ w => (r, w, []).

Definition ask {A} (f : Env -> A) : M A := fun env w => (Ok (f env), w, []).

Definition gets {A} (f : World -> A) : M A := fun _ w => (Ok (f w), w, []).

Definition modify (f : World -> World) : M unit := fun _ w => (Ok tt, f w, []).

Definition emit (e : Event) : M unit := fun _ w => (Ok tt, w, [e]).

Notation "x <- m ;; k" := (bind m (fun x => k)) : js_scope.
Notation "m ;; k" := (bind m (fun _ => k)) : js_scope.
Local Open Scope js_scope.

(** ** The program *)

(** *** Constants and records *)

Definition STATE_FILE : string := HOOK_DIR +:+ "/pin-state.json".
Definition TAG : string := "[status-pin]".
Definition DEFAULT_CONTEXT_WINDOW : Z := 131072.

(** What [resolveConfig] returns. [cooldownMs] is the result of a
    [parseInt]: an integer, or [NaN] ([None]). *)
Record Config := {
  agentId : string;
  cooldownMs : option Z;
  sessionsFile : string;
  botToken : string;
  openrouterKey : string
}.

(** What [discoverSession] returns. *)
Record Session := {
  sessionFile : value;
  model : value;
  chatId : string;
  contextWindow : value
}.

(** What [parseLastUsage] returns when it is not [null]. *)
Record Usage := {
  input : value;
  output : value;
  cacheRead : value
}.

Definition set_files (f : gmap string string) (w : World) : World :=
  {| files := f; processEnv := processEnv w;
     lastUpdateTime := lastUpdateTime w; cachedBalance := cachedBalance w;
     modelContextCache := modelContextCache w |}.

Definition set_lastUpdateTime (t : Z) (w : World) : World :=
  {| files := files w; processEnv := processEnv w;
     lastUpdateTime := t; cachedBalance := cachedBalance w;
     modelContextCache := modelContextCache w |}.

Definition set_cachedBalance (b : option Balance) (w : World) : World :=
  {| files := files w; processEnv := processEnv w;
     lastUpdateTime := lastUpdateTime w; cachedBalance := b;
     modelContextCache := modelContextCache w |}.

Definition set_modelContextCache (c : list (value * value)) (w : World) : World :=
  {| files := files w; processEnv := processEnv w;
     lastUpdateTime := lastUpdateTime w; cachedBalance := cachedBalance w;
     modelContextCache := c |}.

(** *** [node:fs], [console], [JSON], [fetch] *)

(** [existsSync(p)]: false for anything that is not a path. *)
Definition existsSync (p : value) : M bool :=
  match p with
  | JStr path =>
      emit (EvExists path) ;;
      gets (fun w => bool_decide (is_Some (files w !! path)))
  | _ => ret false
  end.

(** [readFileSync(path, "utf-8")]. The files of the world are regular,
    readable files: the read of a path that exists succeeds, and the one
    failure is [ENOENT]. *)
Definition readFileSync (path : string) : M string :=
  emit (EvRead path) ;;
  c <- gets (fun w => files w !! path) ;;
  match c with
  | Some content => ret content
  | None =>
      throw {| err_message := "ENOENT: no such file or directory, open '" +:+ path +:+ "'";
               err_code := JStr "ENOENT" |}
  end.

(** [writeFileSync(path, content)] *)
Definition writeFileSync (path content : string) : M unit :=
  emit (EvWrite path content) ;;
  modify (fun w => set_files (<[path := content]> (files w)) w).

Definition console (level : LogLevel) (args : list string) : M unit :=
  emit (EvLog level args).

Definition JSON_parseM (text : string) : M value :=
  match JSON_parse text with
  | Some v => ret v
  | None => throw (Error "SyntaxError: not valid JSON")
  end.

(** [await fetch(...)] *)
Definition fetchM (req : Request) : M Response :=
  emit (EvFetch req) ;;
  o <- ask (fun env => fetch env req) ;;
  match o with
  | FetchRejects e => throw e
  | FetchResolves res => ret res
  end.

(** *** Session discovery *)

(** [to.match(/^telegram:(\d+)$/)], giving the first group. *)
Definition matchTelegram (to : string) : option string :=
  if JSString.startsWith "telegram:" to then
    let rest := JSString.drop 9 to in
    if negb (String.eqb rest "") && JSString.all_digits rest
    then Some rest else None
  else None.

(** [!s] for [s] a string or [undefined]. *)
Definition falsyStr (s : option string) : bool :=
  match s with
  | Some s' => String.eqb s' ""
  | None => true
  end.

(** [modelContextCache.get(k)]; the keys come out of [JSON.parse]. *)
Fixpoint Map_get (cache : list (value * value)) (k : value) : value :=
  match cache with
  | [] => JUndefined
  | (k', v) :: rest => if strict_eq k' k then v else Map_get rest k
  end.

(** The body of the [for] loop of [discoverSession], at an entry whose key
    has the prefix: it returns or throws, and never goes on to the next. *)
Definition discoverEntry (key : string) (entry : value) : M Session :=
  sessionFile <- liftR (getProp entry "sessionFile") ;;
  model <- ret (js_or (prop entry "model") (JStr "unknown")) ;;
  envChat <- gets (fun w => processEnv w !! "STATUS_PIN_CHAT_ID") ;;
  let to := optProp (prop entry "deliveryContext") "to" in
  chatId <-
    (if falsyStr envChat && truthy to then
       match to with
       | JStr s =>
           match matchTelegram s with
           | Some digits => ret (Some digits)
           | None => ret envChat
           end
       | _ => throw (TypeError "entry.deliveryContext.to.match is not a function")
       end
     else ret envChat) ;;
  envWindow <- gets (fun w => processEnv w !! "STATUS_PIN_CONTEXT_WINDOW") ;;
  cache <- gets modelContextCache ;;
  let contextWindow :=
    js_or (js_or (JNum (parseInt10 (if falsyStr envWindow then "0"
                                    else default "0" envWindow)))
                 (Map_get cache model))
          JNull in
  match chatId with
  | Some c =>
      if String.eqb c "" then
        throw (Error "Could not determine Telegram chat ID from session or STATUS_PIN_CHAT_ID")
      else if negb (truthy sessionFile) then
        throw (Error ("No sessionFile found for " +:+ key))
      else
        ret {| sessionFile := sessionFile; model := model;
               chatId := c; contextWindow := contextWindow |}
  | None =>
      throw (Error "Could not determine Telegram chat ID from session or STATUS_PIN_CHAT_ID")
  end.

Fixpoint discoverLoop (config : Config) (entries : list (string * value))
  : M Session :=
  match entries with
  | [] =>
      throw (Error ("No session found matching agent:" +:+ agentId config +:+ ":*"))
  | (key, entry) :: rest =>
      if negb (JSString.startsWith ("agent:" +:+ agentId config +:+ ":") key)
      then discoverLoop config rest
      else discoverEntry key entry
  end.

Definition discoverSession (config : Config) : M Session :=
  raw <- readFileSync (sessionsFile config) ;;
  sessions <- JSON_parseM raw ;;
  entries <- liftR (Object_entries sessions) ;;
  discoverLoop config entries.

(** *** Configuration *)

(** What [resolveConfig] returns, as it leaves the function: [cooldownMs]
    is the number that [parseInt] gave, and a credential is a string when it
    comes from the environment, and whatever the event or the file holds
    under its name otherwise. *)
Record Resolved := {
  r_agentId : string;
  r_cooldownMs : number;
  r_sessionsFile : string;
  r_botToken : value;
  r_openrouterKey : value
}.

(** [process.env.NAME] as a value, and [process.env.NAME || fallback]. *)
Definition envValue (v : option string) : value :=
  match v with
  | Some s => JStr s
  | None => JUndefined
  end.

Definition envOr (v : option string) (fallback : string) : string :=
  if falsyStr v then fallback else default fallback v.

(** A line terminator, which [.] does not match and before which [$]
    matches under the [m] flag: LF, CR, U+2028, U+2029. *)
Definition lineTerminatorAt (s : string) : bool :=
  JSString.startsWith (JSString.bytes [10%nat]) s
  || JSString.startsWith (JSString.bytes [13%nat]) s
  || JSString.startsWith (JSString.bytes [226%nat; 128%nat; 168%nat]) s
  || JSString.startsWith (JSString.bytes [226%nat; 128%nat; 169%nat]) s.

(** [s.replace(/\/\/.*$/gm, "")], entered with [inComment = false]: inside
    a match, [inComment] is true. *)
Fixpoint lineComments (inComment : bool) (s : string) : string :=
  match s with
  | EmptyString => EmptyString
  | String c r =>
      if inComment then
        if lineTerminatorAt s then String c (lineComments false r)
        else lineComments true r
      else if JSString.startsWith "//" s then
        match r with
        | String _ r' => lineComments true r'
        | EmptyString => EmptyString
        end
      else String c (lineComments false r)
  end.

(** [s.replace(/\/\*[\s\S]*?\*\//g, "")], entered with
    [inComment = false]. An opening that nothing closes matches nothing,
    and neither does anything after it. *)
Fixpoint blockComments (inComment : bool) (s : string) : string :=
  match s with
  | EmptyString => EmptyString
  | String c r =>
      if inComment then
        if JSString.startsWith "*/" s then
          match r with
          | String _ r' => blockComments false r'
          | EmptyString => EmptyString
          end
        else blockComments true r
      else if JSString.startsWith "/*" s then
        match r with
        | String _ r' =>
            if JSString.includes "*/" r' then blockComments true r' else s
        | EmptyString => s
        end
      else String c (blockComments false r)
  end.

(** [Object.values(v)] *)
Definition Object_values (v : value) : Result (list value) :=
  match Object_entries v with
  | Ok entries => Ok (map snd entries)
  | Throw e => Throw e
  end.

(** [profiles.find((p) => p.provider === "openrouter" && p.key)];
    [None] is [undefined]. *)
Fixpoint findOpenrouter (profiles : list value) : Result (option value) :=
  match profiles with
  | [] => Ok None
  | p :: rest =>
      match getProp p "provider" with
      | Throw e => Throw e
      | Ok provider =>
          if strict_eq provider (JStr "openrouter") && truthy (prop p "key")
          then Ok (Some p)
          else findOpenrouter rest
      end
  end.

(** The [try] statement under "Telegram bot token", entered with a
    [botToken] that is falsy: [botToken] after it. *)
Definition tokenFromFile (openclawHome : string) (botToken : value) : M value :=
  tryCatch
    (cfgRaw <- readFileSync (Path.join [openclawHome; "openclaw.json"]) ;;
     let cfgClean := blockComments false (lineComments false cfgRaw) in
     cfg <- JSON_parseM cfgClean ;;
     channels <- liftR (getProp cfg "channels") ;;
     ret (optProp (optProp channels "telegram") "botToken"))
    (fun _ => ret botToken).

(** The [try] statement under "OpenRouter API key": [openrouterKey] after
    it. *)
Definition keyFromProfiles (openclawHome agentId : string) (openrouterKey : value)
  : M value :=
  tryCatch
    (raw <- readFileSync
              (Path.join [openclawHome; "agents"; agentId; "agent";
                          "auth-profiles.json"]) ;;
     authData <- JSON_parseM raw ;;
     listed <- liftR (getProp authData "profiles") ;;
     profiles <- liftR (Object_values (js_or listed authData)) ;;
     found <- liftR (findOpenrouter profiles) ;;
     match found with
     | Some p => ret (prop p "key")
     | None => ret openrouterKey
     end)
    (fun _ => ret openrouterKey).

(** [homedir] is what [os.homedir()] returns. *)
Definition resolveConfig (homedir : string) (event : value) : M Resolved :=
  envHome <- gets (fun w => processEnv w !! "OPENCLAW_HOME") ;;
  let openclawHome :=
    if falsyStr envHome then Path.join [homedir; ".openclaw"]
    else default "" envHome in
  envAgent <- gets (fun w => processEnv w !! "STATUS_PIN_AGENT_ID") ;;
  let agentId := envOr envAgent "main" in
  envCooldown <- gets (fun w => processEnv w !! "STATUS_PIN_COOLDOWN_MS") ;;
  let cooldownMs := parseInt10 (envOr envCooldown "3000") in
  let sessionsFile :=
    Path.join [openclawHome; "agents"; agentId; "sessions"; "sessions.json"] in
  (* Telegram bot token: env var -> event config -> openclaw.json file *)
  envToken <- gets (fun w => processEnv w !! "TELEGRAM_BOT_TOKEN") ;;
  let fromEvent :=
    optProp (optProp (optProp (optProp (optProp event "context") "cfg")
                        "channels") "telegram") "botToken" in
  let botToken1 :=
    if negb (truthy (envValue envToken)) && truthy fromEvent
    then fromEvent else envValue envToken in
  botToken <-
    (if negb (truthy botToken1) then tokenFromFile openclawHome botToken1
     else ret botToken1) ;;
  (* OpenRouter API key: env var -> auth profiles *)
  envKey <- gets (fun w => processEnv w !! "OPENROUTER_API_KEY") ;;
  openrouterKey <-
    (if negb (truthy (envValue envKey))
     then keyFromProfiles openclawHome agentId (envValue envKey)
     else ret (envValue envKey)) ;;
  if negb (truthy botToken) then
    throw (Error "TELEGRAM_BOT_TOKEN not found in environment or config")
  else if negb (truthy openrouterKey) then
    throw (Error "OPENROUTER_API_KEY not found in environment or auth profiles")
  else
    ret {| r_agentId := agentId; r_cooldownMs := cooldownMs;
           r_sessionsFile := sessionsFile; r_botToken := botToken;
           r_openrouterKey := openrouterKey |}.

(** *** JSONL parser: the last assistant message with usage *)

(** The body of the [try] in the loop of [parseLastUsage]: [Ok (Some u)]
    where the loop returns, [Ok None] where it goes on, [Throw] where the
    [catch] takes over. *)
Definition usageOfLine (line : string) : Result (option Usage) :=
  match JSON_parse line with
  | None => Throw (Error "SyntaxError: not valid JSON")
  | Some entry =>
      match getProp entry "message" with
      | Throw e => Throw e
      | Ok message =>
          if strict_eq (optProp message "role") (JStr "assistant")
             && truthy (optProp message "usage")
          then
            let u := prop message "usage" in
            Ok (Some {| input := js_or (prop u "input") (JNum (num_of_Z 0));
                        output := js_or (prop u "output") (JNum (num_of_Z 0));
                        cacheRead := js_or (prop u "cacheRead") (JNum (num_of_Z 0)) |})
          else Ok None
      end
  end.

(** [for (let i = lines.length - 1; i >= 0; i--)], entered with
    [n = i + 1]. *)
Fixpoint scanLines (lines : list string) (n : nat) : option Usage :=
  match n with
  | O => None
  | S i =>
      match usageOfLine (nth i lines "") with
      | Ok (Some u) => Some u
      | Ok None | Throw _ => scanLines lines i
      end
  end.

Definition parseLastUsage (sessionFile : value) : M (option Usage) :=
  present <- existsSync sessionFile ;;
  if negb present then ret None
  else
    match sessionFile with
    | JStr path =>
        raw <- readFileSync path ;;
        let lines := JSString.split_nl (JSString.trim raw) in
        ret (scanLines lines (length lines))
    | _ => throw (TypeError "The path argument must be of type string")
    end.

(** *** OpenRouter client *)

Definition fetchBalance (apiKey : string) : M Balance :=
  res <- fetchM (OpenRouterKey apiKey) ;;
  if negb (res_ok res) then
    throw (Error ("OpenRouter /api/v1/key returned " +:+ Number_toString (res_status res)))
  else
    body <- liftR (res_json res) ;;
    data <- liftR (getProp body "data") ;;
    l <- liftR (getProp data "limit") ;;
    ret {| limit := l;
           limitRemaining := prop data "limit_remaining";
           usage := prop data "usage";
           usageDaily := prop data "usage_daily" |}.

(** [modelContextCache.has(k)] and [modelContextCache.set(k, v)]. The
    keys are model ids out of [JSON.parse]: on them the equality of [Map]
    is [===], and a parsed object or array is a key of its own. A key that
    is present keeps its place. *)
Fixpoint Map_has (cache : list (value * value)) (k : value) : bool :=
  match cache with
  | [] => false
  | (k', _) :: rest => strict_eq k' k || Map_has rest k
  end.

Fixpoint Map_set (cache : list (value * value)) (k v : value)
  : list (value * value) :=
  match cache with
  | [] => [(k, v)]
  | (k', v') :: rest =>
      if strict_eq k' k then (k', v) :: rest else (k', v') :: Map_set rest k v
  end.

(** The body of [for (const m of data)] in [fetchContextWindow], over the
    elements of an array. *)
Fixpoint cacheModelsLoop (items : list value) : M unit :=
  match items with
  | [] => ret tt
  | m :: rest =>
      len <- liftR (getProp m "context_length") ;;
      (if truthy len then
         modify (fun w =>
                   set_modelContextCache
                     (Map_set (modelContextCache w) (prop m "id")
                        (prop m "context_length")) w)
       else ret tt) ;;
      cacheModelsLoop rest
  end.

(** [for (const m of data) ...]: an array gives its elements; a string
    gives its characters, strings without a [context_length]; nothing else
    that [res.json()] gives can be iterated. *)
Definition cacheModels (data : value) : M unit :=
  match data with
  | JArr items => cacheModelsLoop items
  | JStr _ => ret tt
  | _ => throw (TypeError "data is not iterable")
  end.

Definition fetchContextWindow (apiKey : string) (modelId : value) : M value :=
  cache <- gets modelContextCache ;;
  if Map_has cache modelId then ret (Map_get cache modelId)
  else
    res <- fetchM (OpenRouterModels apiKey) ;;
    if negb (res_ok res) then
      throw (Error ("OpenRouter /api/v1/models returned " +:+ Number_toString (res_status res)))
    else
      body <- liftR (res_json res) ;;
      data <- liftR (getProp body "data") ;;
      cacheModels data ;;
      cache' <- gets modelContextCache ;;
      ret (js_or (Map_get cache' modelId) (JNum (num_of_Z DEFAULT_CONTEXT_WINDOW))).

(** *** Telegram client *)

Definition tgCall (token method : string) (body : value) : M value :=
  res <- fetchM (TelegramApi token method body) ;;
  json <- liftR (res_json res) ;;
  ok <- liftR (getProp json "ok") ;;
  if negb (truthy ok) then
    throw {| err_message :=
               "Telegram " +:+ method +:+ ": " +:+
               ToString (js_or (prop json "description") (JNum (res_status res)));
             err_code := prop json "error_code" |}
  else ret (prop json "result").

Definition sendMessage (token chatId html : string) : M value :=
  tgCall token "sendMessage"
    (JObj [("chat_id", JStr chatId); ("text", JStr html);
           ("parse_mode", JStr "HTML"); ("disable_notification", JBool true)]).

Definition editMessageText (token chatId : string) (messageId : value)
    (html : string) : M value :=
  tgCall token "editMessageText"
    (JObj [("chat_id", JStr chatId); ("message_id", messageId);
           ("text", JStr html); ("parse_mode", JStr "HTML")]).

Definition pinChatMessage (token chatId : string) (messageId : value) : M value :=
  tgCall token "pinChatMessage"
    (JObj [("chat_id", JStr chatId); ("message_id", messageId);
           ("disable_notification", JBool true)]).

(** *** State persistence *)

Definition loadState : M value :=
  tryCatch (raw <- readFileSync STATE_FILE ;; JSON_parseM raw)
           (fun _ => ret JNull).

Definition saveState (state : value) : M unit :=
  writeFileSync STATE_FILE (JSON_stringify state 2 +:+ JSString.bytes [10%nat]).

(** *** Message formatting *)

Definition esc (s : value) : string :=
  JSString.replaceAll ">" "&gt;"
    (JSString.replaceAll "<" "&lt;"
       (JSString.replaceAll "&" "&amp;" (ToString s))).

Definition fmtTokens (n : value) : string :=
  if num_leb (num_of_Z 1000000) (ToNumber n) then
    Number_toFixed (num_div (ToNumber n) (num_of_Z 1000000)) 1 +:+ "M"
  else if num_leb (num_of_Z 1000) (ToNumber n) then
    Number_toFixed (num_div (ToNumber n) (num_of_Z 1000)) 1 +:+ "K"
  else ToString n.

(** [n.toFixed(decimals)] is a method of numbers only. *)
Definition fmtDollars (n : value) (decimals : nat) : Result string :=
  match n with
  | JNum x => Ok ("$" +:+ Number_toFixed x decimals)
  | _ => Throw (TypeError "n.toFixed is not a function")
  end.

Definition balanceIndicator (limit remaining : value) : string :=
  if nullish limit || strict_eq limit (JNum (num_of_Z 0)) then "⚪"
  else
    let pct := num_div (ToNumber remaining) (ToNumber limit) in
    if num_ltb (num_of_Q 0.25) pct then "🟢"
    else if num_ltb (num_of_Q 0.1) pct then "🟡"
    else "🔴".

Definition sep : string := " │ ".

(** Step 1 of [formatStatusMessage]: the context segment. *)
Definition ctxPart (session : Session) (u : option Usage) : string :=
  let ctxPct :=
    match u with
    | Some u =>
        Number_toString
          (Math_round
             (num_mul (num_div (ToNumber (input u))
                               (ToNumber (contextWindow session)))
                      (num_of_Z 100))) +:+ "%"
    | None => "–%"
    end in
  "📊 " +:+ ctxPct +:+ " ctx".

(** Step 2: the balance segment and today's spend. *)
Definition balanceParts (balance : option Balance) (staleBalance : bool)
  : Result (list string) :=
  match balance with
  | Some b =>
      let indicator := balanceIndicator (limit b) (limitRemaining b) in
      let staleTag := if staleBalance then "*" else "" in
      match
        (if negb (nullish (limit b)) then
           match fmtDollars (limitRemaining b) 2 with
           | Ok d => Ok (indicator +:+ " " +:+ d +:+ " left" +:+ staleTag)
           | Throw e => Throw e
           end
         else
           match fmtDollars (usage b) 2 with
           | Ok d => Ok (indicator +:+ " " +:+ d +:+ " used" +:+ staleTag)
           | Throw e => Throw e
           end)
      with
      | Throw e => Throw e
      | Ok first =>
          match fmtDollars (usageDaily b) 2 with
          | Ok d => Ok [first; "📅 " +:+ d +:+ " today"]
          | Throw e => Throw e
          end
      end
  | None => Ok []
  end.

(** Step 3: the model. *)
Definition modelPart (session : Session) : string :=
  "🤖 " +:+ esc (model session).

(** Step 4: output and cache tokens. *)
Definition tokenParts (u : option Usage) : list string :=
  match u with
  | Some u =>
      let tokenParts :=
        (if truthy (output u) then ["↗ " +:+ fmtTokens (output u) +:+ " out"] else [])
        ++ (if truthy (cacheRead u)
            then ["📦 " +:+ fmtTokens (cacheRead u) +:+ " cache"] else []) in
      match tokenParts with
      | [] => []
      | _ => [JSString.join " " tokenParts]
      end
  | None => []
  end.

(** Step 5: the timestamp. *)
Definition timePart (hours minutes : nat) : string :=
  "🕐 " +:+ JSString.padStart0 2 (JSString.of_nat hours) +:+ ":"
        +:+ JSString.padStart0 2 (JSString.of_nat minutes).

Definition formatStatusMessage (session : Session) (u : option Usage)
    (balance : option Balance) (staleBalance : bool) : M string :=
  bal <- liftR (balanceParts balance staleBalance) ;;
  hh <- ask getHours ;;
  mm <- ask getMinutes ;;
  ret (JSString.join sep
         ([ctxPart session u] ++ bal ++ [modelPart session]
          ++ tokenParts u ++ [timePart hh mm])).

(** *** Pin management *)

(** The statements of [ensurePin] from the comment "Create new pin" to
    its end. *)
Definition createPin (config : Config) (session : Session) (html : string)
  : M value :=
  msg <- sendMessage (botToken config) (chatId session) html ;;
  messageId <- liftR (getProp msg "message_id") ;;
  tryCatch
    (pinChatMessage (botToken config) (chatId session) messageId ;; ret tt)
    (fun err =>
       console LogWarn [TAG; "Pin failed (message still sent):"; err_message err]) ;;
  saveState (JObj [("messageId", messageId);
                   ("chatId", JStr (chatId session));
                   ("sessionFile", sessionFile session)]) ;;
  ret messageId.

Definition ensurePin (config : Config) (session : Session) (html : string)
  : M value :=
  state <- loadState ;;
  (* "Try to edit existing pin": [Some id] where the function returns from
     inside the [if], [None] where control leaves the [if]. *)
  returned <-
    (if truthy (optProp state "messageId")
        && strict_eq (prop state "chatId") (JStr (chatId session))
     then
       tryCatch
         (editMessageText (botToken config) (chatId session)
            (prop state "messageId") html ;;
          ret (Some (prop state "messageId")))
         (fun err =>
            if strict_eq (err_code err) (JNum (num_of_Z 400))
               && JSString.test_ci "not modified" (err_message err)
            then ret (Some (prop state "messageId"))
            else if negb (strict_eq (err_code err) (JNum (num_of_Z 400)))
            then
              console LogError [TAG; "Edit failed:"; err_message err] ;;
              ret (Some (prop state "messageId"))
            else
              console LogWarn [TAG; "Pinned message gone, creating new one"] ;;
              ret None)
     else ret None) ;;
  match returned with
  | Some messageId => ret messageId
  | None => createPin config session html
  end.

(** *** Update cycle *)

(** [now - lastUpdateTime < config.cooldownMs]; a comparison with [NaN]
    is false. *)
Definition withinCooldown (config : Config) (now last : Z) : bool :=
  match cooldownMs config with
  | Some c => now - last <? c
  | None => false
  end.

Definition runUpdate (config : Config) (session : Session) : M unit :=
  now <- ask Date_now ;;
  last <- gets lastUpdateTime ;;
  if withinCooldown config now last then ret tt
  else
    modify (set_lastUpdateTime now) ;;
    u <- parseLastUsage (sessionFile session) ;;
    staleBalance <-
      tryCatch
        (b <- fetchBalance (openrouterKey config) ;;
         modify (set_cachedBalance (Some b)) ;;
         ret false)
        (fun err =>
           console LogWarn [TAG; "Balance fetch failed, using cache:"; err_message err] ;;
           cached <- gets cachedBalance ;;
           ret (match cached with Some _ => true | None => false end)) ;;
    cached <- gets cachedBalance ;;
    html <- formatStatusMessage session u cached staleBalance ;;
    ensurePin config session html ;;
    ret tt.

(** *** The context window of a newly discovered session *)

Definition with_contextWindow (v : value) (s : Session) : Session :=
  {| sessionFile := sessionFile s; model := model s; chatId := chatId s;
     contextWindow := v |}.

(** The statement under "Resolve context window for new session" in the
    callback of [watchSessions]: [session.contextWindow] is assigned, and
    the session is what the statements after it go on with. *)
Definition resolveContextWindow (config : Config) (session : Session) : M Session :=
  if negb (truthy (contextWindow session)) then
    tryCatch
      (window <- fetchContextWindow (openrouterKey config) (model session) ;;
       ret (with_contextWindow window session))
      (fun _ =>
         ret (with_contextWindow (JNum (num_of_Z DEFAULT_CONTEXT_WINDOW)) session))
  else ret session.

(** *** Invocations in sequence *)

(** One invocation of [runUpdate], by a watcher or by [start]: the session
    it is given and what the outside answers during it. *)
Record Trigger := { trig_session : Session; trig_env : Env }.

Definition invoke (config : Config) (t : Trigger) (w : World)
  : Result unit * World * list Event :=
  runUpdate config (trig_session t) (trig_env t) w.

(** The world and everything done to the outside after the invocations
    [ts], one after the other; an invocation that throws is logged by its
    caller and the next one goes on from the world it left. *)
Fixpoint invokeAll (config : Config) (ts : list Trigger) (w : World)
  : World * list Event :=
  match ts with
  | [] => (w, [])
  | t :: rest =>
      let '(_, w1, t1) := invoke config t w in
      let '(w2, t2) := invokeAll config rest w1 in
      (w2, t1 ++ t2)
  end.

(** *** Observations on a trace *)

Definition isCall (method : string) (e : Event) : bool :=
  match e with
  | EvFetch (TelegramApi _ m _) => String.eqb m method
  | _ => false
  end.

(** The number of [sendMessage] calls issued. *)
Definition sends (t : list Event) : nat :=
  length (List.filter (isCall "sendMessage") t).

Definition isWrite (e : Event) : bool :=
  match e with
  | EvWrite _ _ => true
  | _ => false
  end.

(** ** Vocabulary of the properties *)

Definition resultOf {A} (x : Result A * World * list Event) : Result A := x.1.1.
Definition worldOf {A} (x : Result A * World * list Event) : World := x.1.2.
Definition traceOf {A} (x : Result A * World * list Event) : list Event := x.2.

(** *** The publisher *)

(** The Pin Record as [loadState] reads it: [null] when the state file is
    missing or is not JSON. *)
Definition storedState (w : World) : value :=
  match files w !! STATE_FILE with
  | Some raw => default JNull (JSON_parse raw)
  | None => JNull
  end.

(** The message identity of the stored record. *)
Definition storedId (w : World) : value := prop (storedState w) "messageId".

(** A Pin Record exists for the chat of [session]: the condition of the
    [if] of [ensurePin]. *)
Definition hasPinFor (w : World) (session : Session) : bool :=
  truthy (optProp (storedState w) "messageId")
  && strict_eq (prop (storedState w) "chatId") (JStr (chatId session)).

Definition editRequest (config : Config) (session : Session)
    (messageId : value) (html : string) : Request :=
  TelegramApi (botToken config) "editMessageText"
    (JObj [("chat_id", JStr (chatId session)); ("message_id", messageId);
           ("text", JStr html); ("parse_mode", JStr "HTML")]).

Definition sendRequest (config : Config) (session : Session) (html : string)
  : Request :=
  TelegramApi (botToken config) "sendMessage"
    (JObj [("chat_id", JStr (chatId session)); ("text", JStr html);
           ("parse_mode", JStr "HTML"); ("disable_notification", JBool true)]).

Definition pinRequest (config : Config) (session : Session)
    (messageId : value) : Request :=
  TelegramApi (botToken config) "pinChatMessage"
    (JObj [("chat_id", JStr (chatId session)); ("message_id", messageId);
           ("disable_notification", JBool true)]).

(** What [tgCall] makes of the outcome of its [fetch]. *)
Definition tgAnswer (method : string) (o : FetchOutcome) : Result value :=
  match o with
  | FetchRejects e => Throw e
  | FetchResolves res =>
      match res_json res with
      | Throw e => Throw e
      | Ok json =>
          match getProp json "ok" with
          | Throw e => Throw e
          | Ok ok =>
              if negb (truthy ok) then
                Throw {| err_message :=
                           "Telegram " +:+ method +:+ ": " +:+
                           ToString (js_or (prop json "description")
                                           (JNum (res_status res)));
                         err_code := prop json "error_code" |}
              else Ok (prop json "result")
          end
      end
  end.

Definition editAnswer (env : Env) (config : Config) (session : Session)
    (w : World) (html : string) : Result value :=
  tgAnswer "editMessageText"
    (fetch env (editRequest config session (storedId w) html)).

Definition sendAnswer (env : Env) (config : Config) (session : Session)
    (html : string) : Result value :=
  tgAnswer "sendMessage" (fetch env (sendRequest config session html)).

Definition pinAnswer (env : Env) (config : Config) (session : Session)
    (messageId : value) : Result value :=
  tgAnswer "pinChatMessage" (fetch env (pinRequest config session messageId)).

(** The three classes of a failed edit, as [ensurePin] tells them apart. *)
Definition is400 (e : JsError) : bool :=
  strict_eq (err_code e) (JNum (num_of_Z 400)).

Definition notModified (e : JsError) : bool :=
  is400 e && JSString.test_ci "not modified" (err_message e).

(** The errors at which [ensurePin] gives the message up for gone and goes
    on to create a new one: any 400 that is not "not modified". *)
Definition takenAsGone (e : JsError) : bool :=
  is400 e && negb (JSString.test_ci "not modified" (err_message e)).

(** Follows the spec: the "message not found/deleted" semantic error of the
    messaging service, a 400 whose description says that the message was
    not found or was deleted. *)
Definition messageNotFound (e : JsError) : bool :=
  is400 e
  && (JSString.test_ci "not found" (err_message e)
      || JSString.test_ci "deleted" (err_message e)).

(** The Pin Record that [createPin] saves, and the text of the state file
    after it. *)
Definition pinRecord (session : Session) (messageId : value) : value :=
  JObj [("messageId", messageId);
        ("chatId", JStr (chatId session));
        ("sessionFile", sessionFile session)].

Definition pinRecordText (session : Session) (messageId : value) : string :=
  JSON_stringify (pinRecord session messageId) 2 +:+ JSString.bytes [10%nat].

(** What the pin attempt adds to the trace after its request: nothing, or
    the warning of the failure. *)
Definition pinLog (r : Result value) : list Event :=
  match r with
  | Ok _ => []
  | Throw err =>
      [EvLog LogWarn [TAG; "Pin failed (message still sent):"; err_message err]]
  end.

(** What [createPin] does, from the answers to its calls. *)
Definition createPinRun (config : Config) (session : Session) (html : string)
    (env : Env) (w : World) : Result value * World * list Event :=
  match sendAnswer env config session html with
  | Throw e => (Throw e, w, [EvFetch (sendRequest config session html)])
  | Ok msg =>
      match getProp msg "message_id" with
      | Throw e => (Throw e, w, [EvFetch (sendRequest config session html)])
      | Ok messageId =>
          (Ok messageId,
           set_files (<[STATE_FILE := pinRecordText session messageId]> (files w)) w,
           [EvFetch (sendRequest config session html);
            EvFetch (pinRequest config session messageId)]
           ++ pinLog (pinAnswer env config session messageId)
           ++ [EvWrite STATE_FILE (pinRecordText session messageId)])
      end
  end.

(** The messaging service answers a call with the semantic error
    [{"ok": false, "error_code": code, "description": description}]. *)
Definition telegramRefuses (o : FetchOutcome) (code : Z) (description : string)
  : Prop :=
  exists res json,
    o = FetchResolves res /\ res_json res = Ok json /\ nullish json = false /\
    truthy (prop json "ok") = false /\
    strict_eq (prop json "error_code") (JNum (num_of_Z code)) = true /\
    prop json "description" = JStr description /\ description <> "".

(** *** The usage extractor *)

(** The lines that [parseLastUsage] scans. *)
Definition logLines (raw : string) : list string :=
  JSString.split_nl (JSString.trim raw).

(** The figures of a usage block, a missing or zero one being 0. *)
Definition figures (block : value) : Usage :=
  {| input := js_or (prop block "input") (JNum (num_of_Z 0));
     output := js_or (prop block "output") (JNum (num_of_Z 0));
     cacheRead := js_or (prop block "cacheRead") (JNum (num_of_Z 0)) |}.

(** Follows the spec: the line parses as a record whose message has the
    role "assistant" and carries a usage block, with figures [u]. *)
Definition Qualifies (line : string) (u : Usage) : Prop :=
  exists entry,
    JSON_parse line = Some entry /\
    prop (prop entry "message") "role" = JStr "assistant" /\
    truthy (prop (prop entry "message") "usage") = true /\
    u = figures (prop (prop entry "message") "usage").

(** Follows the spec: [r] is the usage of the last line that qualifies,
    whatever comes before it and whatever unparseable or non-qualifying
    lines come after it; it is absent when no line qualifies. *)
Definition LastQualifying (lines : list string) (r : option Usage) : Prop :=
  match r with
  | Some u =>
      exists before line after,
        lines = before ++ line :: after /\ Qualifies line u /\
        forall l u', In l after -> ~ Qualifies l u'
  | None => forall l u', In l lines -> ~ Qualifies l u'
  end.

(** What [parseLastUsage] returns and reads in a world. *)
Definition usageIn (w : World) (sessionFile : value) : option Usage :=
  match sessionFile with
  | JStr path =>
      match files w !! path with
      | Some raw => scanLines (logLines raw) (length (logLines raw))
      | None => None
      end
  | _ => None
  end.

Definition usageReads (w : World) (sessionFile : value) : list Event :=
  match sessionFile with
  | JStr path =>
      match files w !! path with
      | Some _ => [EvExists path; EvRead path]
      | None => [EvExists path]
      end
  | _ => []
  end.

(** *** The update cycle *)

(** What [fetchBalance] makes of the outcome of its [fetch]. *)
Definition balanceAnswer (o : FetchOutcome) : Result Balance :=
  match o with
  | FetchRejects e => Throw e
  | FetchResolves res =>
      if negb (res_ok res) then
        Throw (Error ("OpenRouter /api/v1/key returned " +:+ Number_toString (res_status res)))
      else
        match res_json res with
        | Throw e => Throw e
        | Ok body =>
            match getProp body "data" with
            | Throw e => Throw e
            | Ok data =>
                match getProp data "limit" with
                | Throw e => Throw e
                | Ok l =>
                    Ok {| limit := l;
                          limitRemaining := prop data "limit_remaining";
                          usage := prop data "usage";
                          usageDaily := prop data "usage_daily" |}
                end
            end
        end
  end.

Definition balanceRequest (config : Config) : Request :=
  OpenRouterKey (openrouterKey config).

Definition balanceWarning (e : JsError) : Event :=
  EvLog LogWarn [TAG; "Balance fetch failed, using cache:"; err_message e].

(** The [try]/[catch] around [fetchBalance] in [runUpdate], from a world
    [w]: the staleness flag, the world and the trace it leaves. *)
Definition refreshBalance (config : Config) (env : Env) (w : World)
  : bool * World * list Event :=
  match balanceAnswer (fetch env (balanceRequest config)) with
  | Ok b => (false, set_cachedBalance (Some b) w, [EvFetch (balanceRequest config)])
  | Throw e =>
      (match cachedBalance w with Some _ => true | None => false end, w,
       [EvFetch (balanceRequest config); balanceWarning e])
  end.

(** The text that [formatStatusMessage] returns, or what it throws. *)
Definition formatted (session : Session) (u : option Usage)
    (balance : option Balance) (staleBalance : bool) (env : Env) : Result string :=
  match balanceParts balance staleBalance with
  | Ok bal =>
      Ok (JSString.join sep
            ([ctxPart session u] ++ bal ++ [modelPart session]
             ++ tokenParts u ++ [timePart (getHours env) (getMinutes env)]))
  | Throw e => Throw e
  end.

(** The dollars of the balance segment and their framing: what remains
    when there is a limit, what was used when there is none. *)
Definition balanceValue (b : Balance) : value :=
  if negb (nullish (limit b)) then limitRemaining b else usage b.



(** What a pass does once it is through the gate, from the world [w1] in
    which [lastUpdateTime] is set. *)
Definition passRun (config : Config) (session : Session) (env : Env) (w1 : World)
  : Result unit * World * list Event :=
  let u := usageIn w1 (sessionFile session) in
  let '(stale, w2, tb) := refreshBalance config env w1 in
  match formatted session u (cachedBalance w2) stale env with
  | Ok html =>
      let published := ensurePin config session html env w2 in
      (match resultOf published with Ok _ => Ok tt | Throw e => Throw e end,
       worldOf published,
       usageReads w1 (sessionFile session) ++ tb ++ traceOf published)
  | Throw e => (Throw e, w2, usageReads w1 (sessionFile session) ++ tb)
  end.

(** Follows the claim: the start time of the most recent of the
    invocations [ts] that the gate let through, [last] if there is none. *)
Fixpoint lastExecuted (config : Config) (ts : list Trigger) (last : Z) : Z :=
  match ts with
  | [] => last
  | t :: rest =>
      lastExecuted config rest
        (if withinCooldown config (Date_now (trig_env t)) last
         then last else Date_now (trig_env t))
  end.

(** *** Session discovery *)

(** The matching entry of the registry: the first whose key starts with
    [agent:<id>:]. *)
Fixpoint matchingEntry (config : Config) (entries : list (string * value))
  : option (string * value) :=
  match entries with
  | [] => None
  | (key, entry) :: rest =>
      if JSString.startsWith ("agent:" +:+ agentId config +:+ ":") key
      then Some (key, entry)
      else matchingEntry config rest
  end.

(** The explicit chat-id override, and the delivery target of an entry. *)
Definition chatOverride (w : World) : option string :=
  processEnv w !! "STATUS_PIN_CHAT_ID".

Definition deliveryTarget (entry : value) : value :=
  optProp (prop entry "deliveryContext") "to".

(** The chat identity that the delivery target yields, if any. *)
Definition chatFromTarget (entry : value) : option string :=
  match deliveryTarget entry with
  | JStr to => matchTelegram to
  | _ => None
  end.

(** The Session Descriptor of an entry, once the chat identity is known. *)
Definition descriptor (w : World) (entry : value) (chat : string) : Session :=
  let envWindow := processEnv w !! "STATUS_PIN_CONTEXT_WINDOW" in
  {| sessionFile := prop entry "sessionFile";
     model := js_or (prop entry "model") (JStr "unknown");
     chatId := chat;
     contextWindow :=
       js_or (js_or (JNum (parseInt10 (if falsyStr envWindow then "0"
                                       else default "0" envWindow)))
                    (Map_get (modelContextCache w)
                       (js_or (prop entry "model") (JStr "unknown"))))
             JNull |}.

(** The configuration error of an unresolvable chat identity. *)
Definition chatIdError : JsError :=
  Error "Could not determine Telegram chat ID from session or STATUS_PIN_CHAT_ID".

(** What discovery returns for an entry with key [key] whose chat identity
    resolved to [chat]: the descriptor, unless the log path is missing. *)
Definition discovered (w : World) (key : string) (entry : value) (chat : string)
  : Result Session :=
  if truthy (prop entry "sessionFile") then Ok (descriptor w entry chat)
  else Throw (Error ("No sessionFile found for " +:+ key)).

(** *** Further observations *)

(** The number of calls of a Telegram method, and of file writes. *)
Definition calls (method : string) (t : list Event) : nat :=
  length (List.filter (isCall method) t).

Definition writes (t : list Event) : nat :=
  length (List.filter isWrite t).

(** The number of calls of [fetch], to any service. *)
Definition isFetch (e : Event) : bool :=
  match e with
  | EvFetch _ => true
  | _ => false
  end.

Definition requests (t : list Event) : nat :=
  length (List.filter isFetch t).

(** A token count as [parseLastUsage] returns it: what the log has when
    that is truthy, 0 otherwise. *)
Definition truthyOrZero (v : value) : Prop :=
  truthy v = true \/ v = JNum (num_of_Z 0).

(** Every context window in the model cache is truthy. *)
Definition cacheTruthy (cache : list (value * value)) : Prop :=
  Forall (fun kv => truthy kv.2 = true) cache.

(** What [esc] makes of one character. *)
Definition escChar (c : ascii) : string :=
  if Ascii.eqb c "&" then "&amp;"
  else if Ascii.eqb c "<" then "&lt;"
  else if Ascii.eqb c ">" then "&gt;"
  else String c "".

(** Follows the claim: the lines of the content of the log file, as the
    file has them. *)
Definition contentLines (raw : string) : list string := JSString.split_nl raw.

(** A value that is not an object or an array: its conversion to a string
    or to a number never throws. *)
Definition primitive (v : value) : bool :=
  match v with
  | JArr _ | JObj _ => false
  | _ => true
  end.

(** The values that [formatStatusMessage] converts, beside the figures it
    prints in dollars: the model and the context window of the session, the
    figures of the usage, the limit of the balance. *)
Definition primitiveSession (session : Session) : bool :=
  primitive (model session) && primitive (contextWindow session).

Definition primitiveUsage (u : option Usage) : bool :=
  match u with
  | Some u => primitive (input u) && primitive (output u) && primitive (cacheRead u)
  | None => true
  end.

Definition primitiveLimit (balance : option Balance) : bool :=
  match balance with
  | Some b => primitive (limit b)
  | None => true
  end.

(** *** Configuration *)

(** The directory, the agent and the two files that [resolveConfig] works
    with in a world. *)
Definition openclawHome (homedir : string) (w : World) : string :=
  if falsyStr (processEnv w !! "OPENCLAW_HOME") then Path.join [homedir; ".openclaw"]
  else default "" (processEnv w !! "OPENCLAW_HOME").

Definition agentOf (w : World) : string :=
  envOr (processEnv w !! "STATUS_PIN_AGENT_ID") "main".

Definition configFile (homedir : string) (w : World) : string :=
  Path.join [openclawHome homedir w; "openclaw.json"].

Definition authFile (homedir : string) (w : World) : string :=
  Path.join [openclawHome homedir w; "agents"; agentOf w; "agent";
             "auth-profiles.json"].

(** The credentials of the environment, and the token of the event. *)
Definition envToken (w : World) : value :=
  envValue (processEnv w !! "TELEGRAM_BOT_TOKEN").

Definition envKey (w : World) : value :=
  envValue (processEnv w !! "OPENROUTER_API_KEY").

Definition eventToken (event : value) : value :=
  optProp (optProp (optProp (optProp (optProp event "context") "cfg")
                      "channels") "telegram") "botToken".

Definition tokenError : JsError :=
  Error "TELEGRAM_BOT_TOKEN not found in environment or config".

Definition keyError : JsError :=
  Error "OPENROUTER_API_KEY not found in environment or auth profiles".

(** What the configuration file holds under [channels.telegram.botToken]
    once its comments are stripped; [None] where the [try] is left by an
    exception. *)
Definition fileToken (homedir : string) (w : World) : option value :=
  match files w !! configFile homedir w with
  | Some cfgRaw =>
      match JSON_parse (blockComments false (lineComments false cfgRaw)) with
      | Some cfg =>
          if nullish cfg then None
          else Some (optProp (optProp (prop cfg "channels") "telegram") "botToken")
      | None => None
      end
  | None => None
  end.

(** The profile that [find] picks in the auth file; [None] where there is
    none or the [try] is left by an exception. *)
Definition fileProfile (homedir : string) (w : World) : option value :=
  match files w !! authFile homedir w with
  | Some raw =>
      match JSON_parse raw with
      | Some authData =>
          if nullish authData then None
          else
            match Object_values (js_or (prop authData "profiles") authData) with
            | Ok profiles =>
                match findOpenrouter profiles with
                | Ok found => found
                | Throw _ => None
                end
            | Throw _ => None
            end
      | None => None
      end
  | None => None
  end.

(** The credentials as the two checks at the end of [resolveConfig] see
    them. *)
Definition resolvedToken (homedir : string) (event : value) (w : World) : value :=
  if truthy (envToken w) then envToken w
  else if truthy (eventToken event) then eventToken event
  else default (envToken w) (fileToken homedir w).

Definition resolvedKey (homedir : string) (w : World) : value :=
  if truthy (envKey w) then envKey w
  else match fileProfile homedir w with
       | Some p => prop p "key"
       | None => envKey w
       end.

(** The files that [resolveConfig] reads, in order. *)
Definition configReads (homedir : string) (event : value) (w : World)
  : list Event :=
  (if truthy (envToken w) || truthy (eventToken event) then []
   else [EvRead (configFile homedir w)])
  ++ (if truthy (envKey w) then [] else [EvRead (authFile homedir w)]).

End Handler.

Arguments Ok {number A} a.
Arguments Throw {number A} e.

Notation "x <- m ;; k" := (bind m (fun x => k)) : js_scope.
Notation "m ;; k" := (bind m (fun _ => k)) : js_scope.
Local Open Scope js_scope.

(** ** A reference runtime

    An instance of [JSRuntime] to run the program on: numbers are exact
    rationals with [NaN] and the infinities (a double is one of these; the
    rounding of the results of arithmetic to 53 bits is left out), the JSON
    codec covers the JSON grammar except for escaped surrogate pairs, and
    the properties of a parsed object stay in the order of the text. *)

Module RefRuntime.

Inductive Num : Type :=
| NaN
| Inf (negative : bool)
| Fin (q : Q).

Definition isNeg (q : Q) : bool := negb (Qle_bool 0%Q q).

Definition falsy (x : Num) : bool :=
  match x with
  | NaN => true
  | Inf _ => false
  | Fin q => Qeq_bool q 0%Q
  end.

Definition eqb (x y : Num) : bool :=
  match x, y with
  | Fin a, Fin b => Qeq_bool a b
  | Inf a, Inf b => Bool.eqb a b
  | _, _ => false
  end.

Definition leb (x y : Num) : bool :=
  match x, y with
  | NaN, _ | _, NaN => false
  | Inf true, _ => true
  | _, Inf false => true
  | Inf false, _ => false
  | _, Inf true => false
  | Fin a, Fin b => Qle_bool a b
  end.

Definition ltb (x y : Num) : bool := leb x y && negb (eqb x y).

Definition mul (x y : Num) : Num :=
  match x, y with
  | NaN, _ | _, NaN => NaN
  | Fin a, Fin b => Fin (Qred (a * b)%Q)
  | Inf s, Fin b | Fin b, Inf s =>
      if Qeq_bool b 0%Q then NaN else Inf (xorb s (isNeg b))
  | Inf s, Inf s' => Inf (xorb s s')
  end.

Definition div (x y : Num) : Num :=
  match x, y with
  | NaN, _ | _, NaN => NaN
  | Inf _, Inf _ => NaN
  | Inf s, Fin b => Inf (xorb s (isNeg b))
  | Fin _, Inf _ => Fin 0%Q
  | Fin a, Fin b =>
      if Qeq_bool b 0%Q then (if Qeq_bool a 0%Q then NaN else Inf (isNeg a))
      else Fin (Qred (a / b)%Q)
  end.

(** [Math.round]: the nearest integer, halves upwards. *)
Definition round (x : Num) : Num :=
  match x with
  | Fin q => Fin (inject_Z (Qfloor (q + (1 # 2))%Q))
  | _ => x
  end.

Definition digits (z : Z) : string := NilZero.string_of_int (Z.to_int z).

Fixpoint take (n : nat) (s : string) : string :=
  match n, s with
  | S k, String c r => String c (take k r)
  | _, _ => EmptyString
  end.

(** The digits of [|q|] rounded to [d] decimals, halves upwards. *)
Definition fixedDigits (q : Q) (d : nat) : string :=
  let n := Qfloor (Qabs q * inject_Z (10 ^ Z.of_nat d) + (1 # 2))%Q in
  let s := JSString.padStart0 (S d) (digits n) in
  let k := (JSString.strlen s - d)%nat in
  match d with
  | O => s
  | _ => take k s +:+ "." +:+ JSString.drop k s
  end.

Definition toFixed (x : Num) (d : nat) : string :=
  match x with
  | NaN => "NaN"
  | Inf false => "Infinity"
  | Inf true => "-Infinity"
  | Fin q => (if isNeg q then "-" else "") +:+ fixedDigits q d
  end.

Fixpoint dropZeros (rev_digits : string) : string :=
  match rev_digits with
  | String "0" r => dropZeros r
  | _ => rev_digits
  end.

(** [Number.prototype.toString]: an integer prints its digits; any other
    number at most 16 decimals, without trailing zeros. *)
Definition toString (x : Num) : string :=
  match x with
  | NaN => "NaN"
  | Inf false => "Infinity"
  | Inf true => "-Infinity"
  | Fin q =>
      let r := Qred q in
      if Pos.eqb (Qden r) 1 then digits (Qnum r)
      else
        let t := Qfloor (Qabs r * inject_Z (10 ^ 16))%Q in
        let s := JSString.padStart0 17 (digits t) in
        let k := (JSString.strlen s - 16)%nat in
        (if isNeg r then "-" else "") +:+ take k s +:+ "." +:+
        JSString.rev (dropZeros (JSString.rev (JSString.drop k s)))
  end.

(** *** Reading numbers *)

Definition isDigit (c : ascii) : bool :=
  let n := nat_of_ascii c in Nat.leb 48 n && Nat.leb n 57.

(** The longest prefix of digits: its value, how many there are, the rest. *)
Fixpoint readDigits (s : string) (acc : Z) (count : nat) : Z * nat * string :=
  match s with
  | String c r =>
      if isDigit c
      then readDigits r (10 * acc + Z.of_nat (nat_of_ascii c - 48)) (S count)
      else (acc, count, s)
  | EmptyString => (acc, count, s)
  end.

Definition readSign (s : string) : bool * string :=
  match s with
  | String "-" r => (true, r)
  | String "+" r => (false, r)
  | _ => (false, s)
  end.

(** A decimal literal [digits (. digits)? ([eE] [+-]? digits)?] at the head
    of [s]; [strict] is the JSON grammar (no leading zeros, digits on both
    sides of the point). *)
Definition readDecimal (strict : bool) (s : string) : option (Q * string) :=
  let '(i, ni, r1) := readDigits s 0 O in
  let leading0 :=
    match s with String "0" _ => Nat.ltb 1 ni | _ => false end in
  let '(f, nf, r2, point) :=
    match r1 with
    | String "." r => let '(f, nf, r') := readDigits r 0 O in (f, nf, r', true)
    | _ => (0, O, r1, false)
    end in
  let bad :=
    if strict then Nat.eqb ni 0 || leading0 || (point && Nat.eqb nf 0)
    else Nat.eqb ni 0 && Nat.eqb nf 0 in
  if bad then None
  else
    let mant := (inject_Z i + inject_Z f / inject_Z (10 ^ Z.of_nat nf))%Q in
    match r2 with
    | String c r =>
        if Ascii.eqb c "e" || Ascii.eqb c "E" then
          let '(neg, r3) := readSign r in
          let '(e, ne, r4) := readDigits r3 0 O in
          if Nat.eqb ne 0 then
            (if strict then None else Some (Qred mant, r2))
          else
            Some (Qred (mant * Qpower 10%Q (if neg then - e else e))%Q, r4)
        else Some (Qred mant, r2)
    | EmptyString => Some (Qred mant, r2)
    end.

(** [StringToNumber]: decimal literals, the empty string, the infinities. *)
Definition stringToNumber (s : string) : Num :=
  let t := JSString.trim s in
  if String.eqb t "" then Fin 0%Q
  else
    let '(neg, r) := readSign t in
    if String.eqb r "Infinity" then Inf neg
    else match readDecimal false r with
         | Some (q, EmptyString) => Fin (if neg then Qred (- q)%Q else q)
         | _ => NaN
         end.

Definition parseInt (s : string) : Num :=
  let '(neg, r) := readSign (JSString.trimStart s) in
  let '(i, ni, _) := readDigits r 0 O in
  if Nat.eqb ni 0 then NaN else Fin (inject_Z (if neg then - i else i)).

(** *** [JSON.parse] *)

Definition DQ : ascii := ascii_of_nat 34.

Definition jsonWs (c : ascii) : bool :=
  let n := nat_of_ascii c in
  Nat.eqb n 32 || Nat.eqb n 9 || Nat.eqb n 10 || Nat.eqb n 13.

Fixpoint skipWs (s : string) : string :=
  match s with
  | String c r => if jsonWs c then skipWs r else s
  | EmptyString => s
  end.

Definition eat (p s : string) : option string :=
  if String.prefix p s then Some (JSString.drop (JSString.strlen p) s) else None.

Definition hexVal (c : ascii) : option N :=
  let n := N_of_ascii c in
  (if (48 <=? n) && (n <=? 57) then Some (n - 48)
   else if (65 <=? n) && (n <=? 70) then Some (n - 55)
   else if (97 <=? n) && (n <=? 102) then Some (n - 87)
   else None)%N.

(** The UTF-8 bytes of a code point of the basic plane that is not a
    surrogate. *)
Definition utf8 (n : N) : option string :=
  let bytesN l := JSString.bytes (map N.to_nat l) in
  (if n <? 128 then Some (bytesN [n])
   else if n <? 2048 then Some (bytesN [192 + n / 64; 128 + n mod 64])
   else if (55296 <=? n) && (n <=? 57343) then None
   else Some (bytesN [224 + n / 4096; 128 + (n / 64) mod 64; 128 + n mod 64]))%N.

Definition simpleEscape (c : ascii) : option ascii :=
  if Ascii.eqb c DQ then Some DQ
  else match c with
       | "\"%char => Some "\"%char
       | "/"%char => Some "/"%char
       | "b"%char => Some (ascii_of_nat 8)
       | "f"%char => Some (ascii_of_nat 12)
       | "n"%char => Some (ascii_of_nat 10)
       | "r"%char => Some (ascii_of_nat 13)
       | "t"%char => Some (ascii_of_nat 9)
       | _ => None
       end.

(** A string literal after its opening quote: its value and the rest. *)
Fixpoint readString (s : string) : option (string * string) :=
  match s with
  | EmptyString => None
  | String c r =>
      if Ascii.eqb c DQ then Some (EmptyString, r)
      else if Ascii.eqb c "\" then
        match r with
        | String "u" (String h1 (String h2 (String h3 (String h4 r')))) =>
            match hexVal h1, hexVal h2, hexVal h3, hexVal h4 with
            | Some a, Some b, Some c', Some d =>
                match utf8 (((a * 16 + b) * 16 + c') * 16 + d)%N, readString r' with
                | Some u, Some (str, rest) => Some (u +:+ str, rest)
                | _, _ => None
                end
            | _, _, _, _ => None
            end
        | String e r' =>
            match simpleEscape e, readString r' with
            | Some e', Some (str, rest) => Some (String e' str, rest)
            | _, _ => None
            end
        | EmptyString => None
        end
      else if Nat.ltb (nat_of_ascii c) 32 then None
      else match readString r with
           | Some (str, rest) => Some (String c str, rest)
           | None => None
           end
  end.

(** A later member with the same key replaces the earlier one, in place. *)
Fixpoint upsert (k : string) (v : JValue Num) (props : list (string * JValue Num))
  : list (string * JValue Num) :=
  match props with
  | [] => [(k, v)]
  | (k', v') :: rest =>
      if String.eqb k' k then (k, v) :: rest else (k', v') :: upsert k v rest
  end.

Fixpoint parseValue (fuel : nat) (s : string) : option (JValue Num * string) :=
  match fuel with
  | O => None
  | S f =>
      match skipWs s with
      | EmptyString => None
      | String c r as s' =>
          if Ascii.eqb c DQ then
            match readString r with
            | Some (str, r') => Some (JStr str, r')
            | None => None
            end
          else if Ascii.eqb c "[" then
            match skipWs r with
            | String "]" r' => Some (JArr [], r')
            | _ => match parseElems f r with
                   | Some (items, r') => Some (JArr items, r')
                   | None => None
                   end
            end
          else if Ascii.eqb c "{" then
            match skipWs r with
            | String "}" r' => Some (JObj [], r')
            | _ => match parseMembers f r with
                   | Some (ms, r') =>
                       Some (JObj (fold_left (fun acc m => upsert (fst m) (snd m) acc) ms []), r')
                   | None => None
                   end
            end
          else if Ascii.eqb c "-" then
            match readDecimal true r with
            | Some (q, r') => Some (JNum (Fin (Qred (- q)%Q)), r')
            | None => None
            end
          else if isDigit c then
            match readDecimal true s' with
            | Some (q, r') => Some (JNum (Fin q), r')
            | None => None
            end
          else
            match eat "null" s', eat "true" s', eat "false" s' with
            | Some r', _, _ => Some (JNull, r')
            | _, Some r', _ => Some (JBool true, r')
            | _, _, Some r' => Some (JBool false, r')
            | _, _, _ => None
            end
      end
  end
with parseElems (fuel : nat) (s : string) : option (list (JValue Num) * string) :=
  match fuel with
  | O => None
  | S f =>
      match parseValue f s with
      | Some (v, r) =>
          match skipWs r with
          | String "," r' =>
              match parseElems f r' with
              | Some (vs, r'') => Some (v :: vs, r'')
              | None => None
              end
          | String "]" r' => Some ([v], r')
          | _ => None
          end
      | None => None
      end
  end
with parseMembers (fuel : nat) (s : string)
  : option (list (string * JValue Num) * string) :=
  match fuel with
  | O => None
  | S f =>
      match skipWs s with
      | String c r =>
          if Ascii.eqb c DQ then
            match readString r with
            | Some (k, r1) =>
                match skipWs r1 with
                | String ":" r2 =>
                    match parseValue f r2 with
                    | Some (v, r3) =>
                        match skipWs r3 with
                        | String "," r4 =>
                            match parseMembers f r4 with
                            | Some (ms, r5) => Some ((k, v) :: ms, r5)
                            | None => None
                            end
                        | String "}" r4 => Some ([(k, v)], r4)
                        | _ => None
                        end
                    | None => None
                    end
                | _ => None
                end
            | None => None
            end
          else None
      | EmptyString => None
      end
  end.

Definition parse (text : string) : option (JValue Num) :=
  match parseValue (2 * JSString.strlen text + 2) text with
  | Some (v, r) => if String.eqb (skipWs r) "" then Some v else None
  | None => None
  end.

(** *** [JSON.stringify] *)

Definition hexDigit (n : nat) : ascii :=
  ascii_of_nat (if Nat.ltb n 10 then 48 + n else 87 + n).

Fixpoint escape (s : string) : string :=
  match s with
  | EmptyString => EmptyString
  | String c r =>
      let n := nat_of_ascii c in
      (if Ascii.eqb c DQ then String "\" (String DQ "")
       else if Ascii.eqb c "\" then "\\"
       else if Nat.eqb n 8 then "\b"
       else if Nat.eqb n 12 then "\f"
       else if Nat.eqb n 10 then "\n"
       else if Nat.eqb n 13 then "\r"
       else if Nat.eqb n 9 then "\t"
       else if Nat.ltb n 32 then
         "\u00" +:+ String (hexDigit (n / 16)) (String (hexDigit (n mod 16)) "")
       else String c "") +:+ escape r
  end.

Definition quote (s : string) : string :=
  String DQ (escape s) +:+ String DQ "".

Fixpoint spaces (n : nat) : string :=
  match n with O => EmptyString | S k => String " " (spaces k) end.

(** [gap] is the indentation unit, [cur] the indentation of the value. *)
Fixpoint stringifyAt (gap cur : string) (v : JValue Num) : string :=
  let nl := if String.eqb gap "" then "" else JSString.bytes [10%nat] in
  let colon := if String.eqb gap "" then ":" else ": " in
  let inner := cur +:+ gap in
  match v with
  | JUndefined | JNull => "null"
  | JBool true => "true"
  | JBool false => "false"
  | JNum x => match x with Fin _ => toString x | _ => "null" end
  | JStr s => quote s
  | JArr items =>
      match items with
      | [] => "[]"
      | _ =>
          "[" +:+ nl +:+
          JSString.join ("," +:+ nl)
            (map (fun e => inner +:+ stringifyAt gap inner e) items)
          +:+ nl +:+ cur +:+ "]"
      end
  | JObj props =>
      let members :=
        (fix members (ps : list (string * JValue Num)) : list string :=
           match ps with
           | [] => []
           | (k, e) :: rest =>
               match e with
               | JUndefined => members rest
               | _ => (inner +:+ quote k +:+ colon +:+ stringifyAt gap inner e)
                      :: members rest
               end
           end) props in
      match members with
      | [] => "{}"
      | _ => "{" +:+ nl +:+ JSString.join ("," +:+ nl) members
             +:+ nl +:+ cur +:+ "}"
      end
  end.

Definition stringify (v : JValue Num) (indent : nat) : string :=
  stringifyAt (spaces indent) "" v.

#[export] Instance runtime : JSRuntime Num := {|
  num_of_Z := fun z => Fin (inject_Z z);
  num_of_Q := Fin;
  num_nan := NaN;
  num_falsy := falsy;
  num_eqb := eqb;
  num_ltb := ltb;
  num_leb := leb;
  num_div := div;
  num_mul := mul;
  Math_round := round;
  Number_toFixed := toFixed;
  Number_toString := toString;
  StringToNumber := stringToNumber;
  parseInt10 := parseInt;
  JSON_parse := parse;
  JSON_stringify := stringify;
  HOOK_DIR := "/home/node/.openclaw/hooks/status-pin"
|}.

End RefRuntime.

(** ** Concrete inputs, on the reference runtime *)

Module Scenario.

Import RefRuntime.

Abbreviation JsError := (@JsError Num).
Abbreviation FetchOutcome := (@FetchOutcome Num).
Abbreviation Balance := (@Balance Num).
Abbreviation Session := (@Session Num).
Abbreviation World := (@World Num).
Abbreviation Env := (@Env Num).
Abbreviation Trigger := (@Trigger Num).

Definition num (z : Z) : JValue Num := JNum (Fin (inject_Z z)).

Definition config : Config :=
  {| agentId := "main";
     cooldownMs := Some 3000;
     sessionsFile := "/home/node/.openclaw/agents/main/sessions/sessions.json";
     botToken := "110201543:AAHdqTcvCH1vGWJxfSeofSAs0K5PALDsaw";
     openrouterKey := "sk-or-v1-0000" |}.

Definition session : Session :=
  {| sessionFile := JStr "/x/a.jsonl";
     model := JStr "moonshotai/kimi-k2.5";
     chatId := "555";
     contextWindow := num 262144 |}.

Definition html : string := "📊 –% ctx │ 🤖 moonshotai/kimi-k2.5 │ 🕐 20:44".

(** A state file left by an earlier pass that created message 42 in chat
    555. *)
Definition pinned42 : World :=
  {| files := {[ STATE_FILE := pinRecordText session (num 42) ]};
     processEnv := ∅;
     lastUpdateTime := 0;
     cachedBalance := None;
     modelContextCache := [] |}.

(** Telegram's answers: [{"ok": false, "error_code": c, "description": d}]
    and [{"ok": true, "result": r}]. *)
Definition tgError (code : Z) (description : string) : FetchOutcome :=
  FetchResolves
    {| res_ok := false; res_status := Fin (inject_Z code);
       res_json := Ok (JObj [("ok", JBool false); ("error_code", num code);
                             ("description", JStr description)]) |}.

Definition tgOk (result : JValue Num) : FetchOutcome :=
  FetchResolves
    {| res_ok := true; res_status := Fin 200;
       res_json := Ok (JObj [("ok", JBool true); ("result", result)]) |}.

Definition offline : FetchOutcome := FetchRejects (TypeError "fetch failed").

(** The outside at 20:44, [now] milliseconds into the epoch, with the given
    answers to the three Telegram methods and to the balance query. *)
Definition outside (now : Z) (edit send pin balance : FetchOutcome) : Env :=
  {| Date_now := now; getHours := 20; getMinutes := 44;
     fetch := fun req =>
       match req with
       | TelegramApi _ method _ =>
           if String.eqb method "editMessageText" then edit
           else if String.eqb method "sendMessage" then send
           else pin
       | OpenRouterKey _ => balance
       | OpenRouterModels _ => offline
       end |}.

Definition message43 : JValue Num := JObj [("message_id", num 43)].

(** The edit is refused with a 400 that does not say the message is gone. *)
Definition cannotEdit : Env :=
  outside 1700000000000
    (tgError 400 "Bad Request: message can't be edited")
    (tgOk message43) (tgOk (JBool true)) offline.

Definition cannotParse : Env :=
  outside 1700000000000
    (tgError 400 "Bad Request: can't parse entities: Unsupported start tag")
    (tgOk message43) (tgOk (JBool true)) offline.

(** The edit is refused by the rate limiter. *)
Definition rateLimited : Env :=
  outside 1700000000000
    (tgError 429 "Too Many Requests: retry after 5")
    (tgOk message43) (tgOk (JBool true)) offline.

Definition unchanged : Env :=
  outside 1700000000000
    (tgError 400 "Bad Request: message is not modified: specified new message content and reply markup are exactly the same as a current content and reply markup of the message")
    (tgOk message43) (tgOk (JBool true)) offline.

Definition gone : Env :=
  outside 1700000000000
    (tgError 400 "Bad Request: message to edit not found")
    (tgOk message43) (tgError 400 "Bad Request: not enough rights to manage pinned messages in the chat") offline.

Definition err429 : JsError :=
  {| err_message := "Telegram editMessageText: Too Many Requests: retry after 5";
     err_code := num 429 |}.

(** A session log: an assistant turn, a line cut short, the latest
    assistant turn, a user turn, and the final newline. *)
Definition turn (role : string) (usage : option (Z * Z * Z)) : JValue Num :=
  JObj [("type", JStr "message");
        ("message",
         JObj (("role", JStr role) ::
               match usage with
               | Some (i, o, c) =>
                   [("usage", JObj [("input", num i); ("output", num o);
                                    ("cacheRead", num c)])]
               | None => []
               end))].

Definition logText : string :=
  JSString.join (JSString.bytes [10%nat])
    [ stringify (turn "assistant" (Some (90000, 1200, 0))) 0;
      "{" +:+ String DQ "type" +:+ String DQ ": ";
      stringify (turn "assistant" (Some (110100, 405, 48100))) 0;
      stringify (turn "user" None) 0;
      "" ].

(** The session registry: another agent's session, then the main one. *)
Definition registry : JValue Num :=
  JObj [("agent:helper:main",
         JObj [("sessionFile", JStr "/x/helper.jsonl")]);
        ("agent:main:main",
         JObj [("sessionFile", JStr "/x/a.jsonl");
               ("model", JStr "moonshotai/kimi-k2.5");
               ("deliveryContext",
                JObj [("channel", JStr "telegram"); ("to", JStr "telegram:555")])])].

Definition mainEntry : JValue Num :=
  JObj [("sessionFile", JStr "/x/a.jsonl");
        ("model", JStr "moonshotai/kimi-k2.5");
        ("deliveryContext",
         JObj [("channel", JStr "telegram"); ("to", JStr "telegram:555")])].

(** The installation after a pass at [last]: state file, log and registry
    on disk, no environment variables, the given cache. *)
Definition home (last : Z) (cache : option Balance) : World :=
  {| files := {[ STATE_FILE := pinRecordText session (num 42);
                 "/x/a.jsonl" := logText;
                 sessionsFile config := stringify registry 2 ]};
     processEnv := ∅;
     lastUpdateTime := last;
     cachedBalance := cache;
     modelContextCache := [] |}.

(** A snapshot with a 10 dollar limit: 6.61 left, 0.14 spent today. *)
Definition snapshot : Balance :=
  {| limit := num 10;
     limitRemaining := JNum (Fin (661 # 100));
     usage := JNum (Fin (339 # 100));
     usageDaily := JNum (Fin (14 # 100)) |}.

Definition balanceOk : FetchOutcome :=
  FetchResolves
    {| res_ok := true; res_status := Fin 200;
       res_json :=
         Ok (JObj [("data",
                    JObj [("limit", num 10);
                          ("limit_remaining", JNum (Fin (661 # 100)));
                          ("usage", JNum (Fin (339 # 100)));
                          ("usage_daily", JNum (Fin (14 # 100)))])]) |}.



(** Everything answers at time [now]. *)
Definition allUp (now : Z) : Env :=
  outside now (tgOk (JBool true)) (tgOk message43) (tgOk (JBool true)) balanceOk.


Definition at_ (now : Z) : Trigger :=
  {| trig_session := session; trig_env := allUp now |}.

(** An installation whose last pass ran at 1700000000000. *)
Definition justRan : World := home 1700000000000 None.

Definition err400 (description : string) : JsError :=
  {| err_message := "Telegram editMessageText: " +:+ description;
     err_code := num 400 |}.

(** The status of the installation when everything answers. *)
Definition status : string :=
  "📊 42% ctx │ 🟢 $6.61 left │ 📅 $0.14 today │ 🤖 moonshotai/kimi-k2.5 │ ↗ 405 out 📦 48.1K cache │ 🕐 20:44".

(** A log that starts with a byte order mark: one line, an assistant
    turn. *)
Definition bomLog : string :=
  JSString.bytes [239%nat; 187%nat; 191%nat]
  +:+ stringify (turn "assistant" (Some (110100, 405, 48100))) 0.

Definition bomHome : World :=
  {| files := {[ "/x/a.jsonl" := bomLog ]};
     processEnv := ∅;
     lastUpdateTime := 0;
     cachedBalance := None;
     modelContextCache := [] |}.




(** An installation that has not pinned anything yet. *)
Definition fresh : World :=
  {| files := {[ "/x/a.jsonl" := logText;
                 sessionsFile config := stringify registry 2 ]};
     processEnv := ∅;
     lastUpdateTime := 0;
     cachedBalance := None;
     modelContextCache := [] |}.

(** Telegram cannot be reached for the send. *)
Definition sendDown : Env :=
  outside 1700000000000 (tgOk (JBool true)) offline (tgOk (JBool true)) balanceOk.

Definition err400pin : JsError :=
  {| err_message := "Telegram pinChatMessage: Bad Request: not enough rights to manage pinned messages in the chat";
     err_code := num 400 |}.

(** A registry without a session of the agent [main]. *)
Definition helperRegistry : JValue Num :=
  JObj [("agent:helper:main", JObj [("sessionFile", JStr "/x/helper.jsonl")])].

Definition helperOnly : World :=
  {| files := {[ sessionsFile config := stringify helperRegistry 2 ]};
     processEnv := ∅;
     lastUpdateTime := 0;
     cachedBalance := None;
     modelContextCache := [] |}.

(** The balance service answers without the daily usage. *)
Definition noDaily : Balance :=
  {| limit := num 10;
     limitRemaining := JNum (Fin (661 # 100));
     usage := JNum (Fin (339 # 100));
     usageDaily := JUndefined |}.

Definition balanceNoDaily : FetchOutcome :=
  FetchResolves
    {| res_ok := true; res_status := Fin 200;
       res_json :=
         Ok (JObj [("data",
                    JObj [("limit", num 10);
                          ("limit_remaining", JNum (Fin (661 # 100)));
                          ("usage", JNum (Fin (339 # 100)))])]) |}.

Definition dailyMissing (now : Z) : Env :=
  outside now (tgOk (JBool true)) (tgOk message43) (tgOk (JBool true)) balanceNoDaily.

(** A configuration whose cooldown did not parse as a number. *)
Definition configNaN : Config :=
  {| agentId := "main";
     cooldownMs := None;
     sessionsFile := "/home/node/.openclaw/agents/main/sessions/sessions.json";
     botToken := "110201543:AAHdqTcvCH1vGWJxfSeofSAs0K5PALDsaw";
     openrouterKey := "sk-or-v1-0000" |}.

(** The list of models, and an outside in which only it answers. *)
Definition kimi : JValue Num :=
  JObj [("id", JStr "moonshotai/kimi-k2.5"); ("context_length", num 262144)].

Definition models : list (JValue Num) :=
  [JObj [("id", JStr "openai/gpt-4o"); ("context_length", num 128000)]; kimi].

Definition modelsOk : FetchOutcome :=
  FetchResolves
    {| res_ok := true; res_status := Fin 200;
       res_json := Ok (JObj [("data", JArr models)]) |}.

Definition listing : Env :=
  {| Date_now := 1700000000000; getHours := 20; getMinutes := 44;
     fetch := fun req =>
       match req with
       | OpenRouterModels _ => modelsOk
       | _ => offline
       end |}.

(** The installation once the models are listed. *)
Definition listed : World :=
  {| files := {[ "/x/a.jsonl" := logText;
                 sessionsFile config := stringify registry 2 ]};
     processEnv := ∅;
     lastUpdateTime := 0;
     cachedBalance := None;
     modelContextCache :=
       [(JStr "openai/gpt-4o", num 128000);
        (JStr "moonshotai/kimi-k2.5", num 262144)] |}.

(** The session as discovery returns it, its context window unresolved. *)
Definition newSession : Session :=
  {| sessionFile := JStr "/x/a.jsonl";
     model := JStr "moonshotai/kimi-k2.5";
     chatId := "555";
     contextWindow := JNull |}.

(** The two configuration files, and three machines: one with the files,
    one with the credentials in the environment, one with neither. *)
Definition openclawJson : JValue Num :=
  JObj [("channels",
         JObj [("telegram",
                JObj [("botToken",
                       JStr "110201543:AAHdqTcvCH1vGWJxfSeofSAs0K5PALDsaw")])])].

Definition openrouterProfile : JValue Num :=
  JObj [("provider", JStr "openrouter"); ("key", JStr "sk-or-v1-0000")].

Definition authProfiles : JValue Num :=
  JObj [("profiles",
         JObj [("anthropic:default",
                JObj [("provider", JStr "anthropic"); ("key", JStr "sk-ant-0000")]);
               ("openrouter:default", openrouterProfile)])].

Definition installed : World :=
  {| files := {[ "/home/node/.openclaw/openclaw.json" := stringify openclawJson 2;
                 "/home/node/.openclaw/agents/main/agent/auth-profiles.json"
                   := stringify authProfiles 2 ]};
     processEnv := ∅;
     lastUpdateTime := 0;
     cachedBalance := None;
     modelContextCache := [] |}.

Definition exported : World :=
  {| files := ∅;
     processEnv := {[ "TELEGRAM_BOT_TOKEN" := "110201543:AAHdqTcvCH1vGWJxfSeofSAs0K5PALDsaw";
                      "OPENROUTER_API_KEY" := "sk-or-v1-0000" ]};
     lastUpdateTime := 0;
     cachedBalance := None;
     modelContextCache := [] |}.

Definition bare : World :=
  {| files := ∅;
     processEnv := ∅;
     lastUpdateTime := 0;
     cachedBalance := None;
     modelContextCache := [] |}.

Definition resolved : @Resolved Num :=
  {| r_agentId := "main";
     r_cooldownMs := Fin 3000;
     r_sessionsFile := "/home/node/.openclaw/agents/main/sessions/sessions.json";
     r_botToken := JStr "110201543:AAHdqTcvCH1vGWJxfSeofSAs0K5PALDsaw";
     r_openrouterKey := JStr "sk-or-v1-0000" |}.

End Scenario.

(** ** Properties *)

Section Properties.

Context {number : Type} `{RT : JSRuntime number}.

Abbreviation value := (JValue number).

(** *** Running the monad *)

Lemma bind_run {A B} (m : @M number A) (k : A -> @M number B) env w :
  bind m k env w =
  match m env w with
  | (Ok a, w1, t1) =>
      (resultOf (k a env w1), worldOf (k a env w1), t1 ++ traceOf (k a env w1))
  | (Throw e, w1, t1) => (Throw e, w1, t1)
  end.
Proof.
  unfold bind. destruct (m env w) as [[[a|e] w1] t1]; [|reflexivity].
  destruct (k a env w1) as [[r w2] t2]. reflexivity.
Qed.

Lemma tryCatch_run {A} (m : @M number A) (h : @JsError number -> @M number A) env w :
  tryCatch m h env w =
  match m env w with
  | (Ok a, w1, t1) => (Ok a, w1, t1)
  | (Throw e, w1, t1) =>
      (resultOf (h e env w1), worldOf (h e env w1), t1 ++ traceOf (h e env w1))
  end.
Proof.
  unfold tryCatch. destruct (m env w) as [[[a|e] w1] t1]; [reflexivity|].
  destruct (h e env w1) as [[r w2] t2]. reflexivity.
Qed.

Lemma readFileSync_run path env (w : @World number) :
  readFileSync path env w =
  (match files w !! path with
   | Some content => Ok content
   | None =>
       Throw {| err_message := "ENOENT: no such file or directory, open '" +:+ path +:+ "'";
                err_code := JStr "ENOENT" |}
   end, w, [EvRead path]).
Proof.
  unfold readFileSync, bind, emit, gets, ret, throw. simpl.
  destruct (files w !! path); reflexivity.
Qed.

Lemma loadState_run env w :
  loadState env w = (Ok (storedState w), w, [EvRead STATE_FILE]).
Proof.
  unfold loadState, storedState. rewrite tryCatch_run, bind_run, readFileSync_run.
  destruct (files w !! STATE_FILE) as [raw|]; simpl; [|reflexivity].
  unfold JSON_parseM. destruct (JSON_parse raw); reflexivity.
Qed.

Lemma tgCall_run token method body env w :
  tgCall token method body env w =
  (tgAnswer method (fetch env (TelegramApi token method body)), w,
   [EvFetch (TelegramApi token method body)]).
Proof.
  unfold tgCall, tgAnswer, fetchM, bind, emit, ask, liftR, ret, throw. simpl.
  destruct (fetch env _) as [e|res]; [reflexivity|].
  destruct (res_json res) as [json|e]; [|reflexivity].
  destruct (getProp json "ok") as [ok|e]; [|reflexivity].
  destruct (truthy ok); reflexivity.
Qed.

Ltac prim :=
  unfold ret, throw, liftR, ask, gets, modify, emit, console;
  cbn [resultOf worldOf traceOf fst snd app].

Ltac run :=
  prim;
  repeat (first [ rewrite bind_run | rewrite tryCatch_run
                | rewrite tgCall_run | rewrite loadState_run
                | rewrite readFileSync_run ]; prim).

(** *** The publisher, from the answers to its calls *)

Lemma createPin_run config session html env w :
  createPin config session html env w = createPinRun config session html env w.
Proof.
  unfold createPin, createPinRun, sendMessage, sendAnswer, sendRequest,
    pinChatMessage, pinAnswer, pinRequest, saveState, writeFileSync,
    pinRecordText, pinRecord.
  run. destruct (tgAnswer "sendMessage" _) as [msg|e]; [|reflexivity].
  run. destruct (getProp msg "message_id") as [messageId|e]; [|reflexivity].
  run. destruct (tgAnswer "pinChatMessage" _) as [pinned|e]; run; reflexivity.
Qed.

Lemma ensurePin_run config session html env w :
  ensurePin config session html env w =
  if hasPinFor w session then
    match editAnswer env config session w html with
    | Ok _ =>
        (Ok (storedId w), w,
         [EvRead STATE_FILE; EvFetch (editRequest config session (storedId w) html)])
    | Throw err =>
        if notModified err then
          (Ok (storedId w), w,
           [EvRead STATE_FILE; EvFetch (editRequest config session (storedId w) html)])
        else if negb (is400 err) then
          (Ok (storedId w), w,
           [EvRead STATE_FILE; EvFetch (editRequest config session (storedId w) html);
            EvLog LogError [TAG; "Edit failed:"; err_message err]])
        else
          (resultOf (createPinRun config session html env w),
           worldOf (createPinRun config session html env w),
           [EvRead STATE_FILE; EvFetch (editRequest config session (storedId w) html);
            EvLog LogWarn [TAG; "Pinned message gone, creating new one"]]
           ++ traceOf (createPinRun config session html env w))
    end
  else
    (resultOf (createPinRun config session html env w),
     worldOf (createPinRun config session html env w),
     EvRead STATE_FILE :: traceOf (createPinRun config session html env w)).
Proof.
  unfold ensurePin. run. fold (storedId w). fold (hasPinFor w session).
  destruct (hasPinFor w session).
  - unfold editMessageText, editAnswer, editRequest. run.
    destruct (tgAnswer "editMessageText" _) as [edited|err]; run.
    + reflexivity.
    + unfold notModified, is400.
      destruct (strict_eq (err_code err) _ && _); run; [reflexivity|].
      destruct (strict_eq (err_code err) _); run; cbn [negb]; run.
      * rewrite createPin_run. reflexivity.
      * reflexivity.
  - run. rewrite createPin_run. reflexivity.
Qed.

Lemma sends_app (a b : list (@Event number)) :
  sends (a ++ b) = (sends a + sends b)%nat.
Proof. unfold sends. rewrite List.filter_app. apply List.length_app. Qed.

(** [createPin] issues exactly one [sendMessage], whatever is answered. *)
Lemma createPinRun_sends config session html env w :
  sends (traceOf (createPinRun config session html env w)) = 1%nat.
Proof.
  unfold createPinRun.
  destruct (sendAnswer env config session html) as [msg|e]; [|reflexivity].
  destruct (getProp msg "message_id") as [messageId|e]; [|reflexivity].
  unfold pinLog. destruct (pinAnswer _ _ _ _); reflexivity.
Qed.

(** *** Strings: searching under case folding *)

Lemma prefix_app p s : String.prefix p (p +:+ s) = true.
Proof.
  induction p as [|c p IH]; simpl.
  - destruct s; reflexivity.
  - rewrite IH. destruct (ascii_dec c c); [reflexivity|contradiction].
Qed.

Lemma includes_prefix p s : String.prefix p s = true -> JSString.includes p s = true.
Proof. intros H. destruct s; cbn [JSString.includes]; rewrite H; reflexivity. Qed.

Lemma includes_app_r p a s :
  JSString.includes p s = true -> JSString.includes p (a +:+ s) = true.
Proof.
  intros H. induction a as [|c a IH]; simpl; [exact H|].
  rewrite IH. apply orb_true_r.
Qed.

Lemma lower_app a b : JSString.lower (a +:+ b) = JSString.lower a +:+ JSString.lower b.
Proof. induction a as [|c a IH]; simpl; [reflexivity|]. rewrite IH. reflexivity. Qed.

(** A message that contains the phrase, after any prefix, matches
    [/not modified/i]. *)
Lemma test_not_modified prefix pre post :
  JSString.test_ci "not modified"
    (prefix +:+ pre +:+ "message is not modified" +:+ post) = true.
Proof.
  unfold JSString.test_ci. rewrite !lower_app.
  apply includes_app_r, includes_app_r.
  change (JSString.lower "message is not modified")
    with ("message is " +:+ "not modified").
  change (("message is " +:+ "not modified") +:+ JSString.lower post)
    with ("message is " +:+ ("not modified" +:+ JSString.lower post)).
  apply includes_app_r, includes_prefix, prefix_app.
Qed.

(** What [tgCall] throws on a semantic error of the service. *)
Lemma tgAnswer_refused method o code description :
  telegramRefuses o code description ->
  exists err,
    tgAnswer method o = Throw err /\
    err_message err = "Telegram " +:+ method +:+ ": " +:+ description /\
    strict_eq (err_code err) (JNum (num_of_Z code)) = true.
Proof.
  intros (res & json & -> & Hjson & Hnn & Hok & Hcode & Hdesc & Hne).
  unfold tgAnswer, getProp. rewrite Hjson, Hnn, Hok. cbn [negb].
  eexists. split; [reflexivity|]. cbn [err_message err_code].
  split; [|exact Hcode].
  rewrite Hdesc. unfold js_or. cbn [truthy].
  destruct (String.eqb_spec description ""); [contradiction|reflexivity].
Qed.

(** *** The publisher: edit, keep, or recreate *)

Lemma takenAsGone_cases err :
  takenAsGone err = (negb (notModified err) && is400 err).
Proof.
  unfold takenAsGone, notModified.
  destruct (is400 err), (JSString.test_ci _ _); reflexivity.
Qed.

(** C1 (amended): whenever a Pin Record exists for the target chat and the
    edit fails with any error other than a 400 that is not "not modified"
    (so: a network failure, a rate limit, an answer that is not JSON, or
    "not modified" itself), [ensurePin] returns the stored message
    identity, leaves the world (and so the Pin Record) as it was, and
    issues no [sendMessage]; unless the code is 400 it logs the failure. *)
Theorem ensurePin_keeps_pin_unless_taken_as_gone config session html env w err :
  hasPinFor w session = true ->
  editAnswer env config session w html = Throw err ->
  takenAsGone err = false ->
  ensurePin config session html env w =
    (Ok (storedId w), w,
     [EvRead STATE_FILE;
      EvFetch (editRequest config session (storedId w) html)]
     ++ (if is400 err then []
         else [EvLog LogError [TAG; "Edit failed:"; err_message err]]))
  /\ sends (traceOf (ensurePin config session html env w)) = 0%nat.
Proof.
  intros Hpin Hedit Hkeep. rewrite takenAsGone_cases in Hkeep.
  rewrite ensurePin_run, Hpin, Hedit.
  destruct (notModified err) eqn:Hnm.
  - assert (H400 : is400 err = true).
    { unfold notModified in Hnm. apply andb_true_iff in Hnm. tauto. }
    rewrite H400. split; reflexivity.
  - cbn [negb andb] in Hkeep. rewrite Hkeep. split; reflexivity.
Qed.

(** C2 (amended): one call of [ensurePin] issues at most one
    [sendMessage]; it issues one only when the stored record has no message
    identity (no record), records another chat, or the edit failed with a
    400 that is not "not modified"; it issues none when the edit succeeded
    or failed as "not modified". *)
Theorem ensurePin_sends_at_most_once config session html env w :
  let t := traceOf (ensurePin config session html env w) in
  (sends t <= 1)%nat /\
  (sends t = 1%nat ->
     truthy (storedId w) = false \/
     strict_eq (prop (storedState w) "chatId") (JStr (chatId session)) = false \/
     exists err, editAnswer env config session w html = Throw err /\
                 takenAsGone err = true) /\
  (hasPinFor w session = true ->
     (forall v, editAnswer env config session w html = Ok v -> sends t = 0%nat) /\
     (forall err, editAnswer env config session w html = Throw err ->
                  notModified err = true -> sends t = 0%nat)).
Proof.
  cbn zeta. rewrite ensurePin_run.
  pose proof (createPinRun_sends config session html env w) as Hone.
  destruct (hasPinFor w session) eqn:Hpin.
  - destruct (editAnswer env config session w html) as [v|err] eqn:Hedit;
      [|destruct (notModified err) eqn:Hnm;
        [|destruct (is400 err) eqn:H400; cbn [negb]]].
    + split; [cbn; lia|]. split; [discriminate|].
      intros _. split; [reflexivity|discriminate].
    + split; [cbn; lia|]. split; [discriminate|].
      intros _. split; [discriminate|reflexivity].
    + cbn [traceOf snd]. rewrite sends_app, Hone.
      change (sends _) with 0%nat. split; [lia|]. split.
      * intros _. right. right. exists err. split; [reflexivity|].
        rewrite takenAsGone_cases, Hnm, H400. reflexivity.
      * intros _. split; [discriminate|]. intros err' [= <-]. congruence.
    + split; [cbn; lia|]. split; [discriminate|].
      intros _. split; [discriminate|reflexivity].
  - cbn [traceOf snd]. unfold sends in *. cbn [List.filter isCall].
    rewrite Hone. split; [lia|]. split; [|discriminate].
    intros _. unfold hasPinFor in Hpin. fold (storedId w) in Hpin.
    apply andb_false_iff in Hpin. unfold storedId.
    destruct (storedState w) eqn:Hs; cbn in Hpin |- *; tauto.
Qed.

(** C5: when the edit of the recorded message fails with "message to edit
    not found", [ensurePin] issues exactly one [sendMessage]; when that
    message is created, it asks once to pin it, logs a warning if the pin
    is refused and goes on, overwrites the state file with the new message
    identity, the target chat and the session's log file, and returns the
    new identity. *)
Theorem ensurePin_recreates_when_message_gone config session html env w :
  hasPinFor w session = true ->
  telegramRefuses (fetch env (editRequest config session (storedId w) html))
    400 "Bad Request: message to edit not found" ->
  sends (traceOf (ensurePin config session html env w)) = 1%nat /\
  forall msg messageId,
    sendAnswer env config session html = Ok msg ->
    getProp msg "message_id" = Ok messageId ->
    ensurePin config session html env w =
      (Ok messageId,
       set_files (<[STATE_FILE := pinRecordText session messageId]> (files w)) w,
       [EvRead STATE_FILE;
        EvFetch (editRequest config session (storedId w) html);
        EvLog LogWarn [TAG; "Pinned message gone, creating new one"];
        EvFetch (sendRequest config session html);
        EvFetch (pinRequest config session messageId)]
       ++ pinLog (pinAnswer env config session messageId)
       ++ [EvWrite STATE_FILE (pinRecordText session messageId)]).
Proof.
  intros Hpin Hgone.
  destruct (tgAnswer_refused "editMessageText" _ _ _ Hgone) as (err & Hedit & Hmsg & Hcode).
  assert (H400 : is400 err = true) by exact Hcode.
  assert (Hnm : notModified err = false).
  { unfold notModified. rewrite H400, Hmsg. reflexivity. }
  rewrite ensurePin_run, Hpin. unfold editAnswer. rewrite Hedit, Hnm, H400.
  cbn [negb traceOf snd]. split.
  - rewrite sends_app, createPinRun_sends. reflexivity.
  - intros msg messageId Hsend Hid. unfold createPinRun.
    rewrite Hsend, Hid. reflexivity.
Qed.

(** C6: when the edit fails with the semantic error "message is not
    modified" (code 400), [ensurePin] returns the stored message identity;
    the world, and with it every byte of the state file, is as before, and
    nothing is sent, written or logged after the edit request. *)
Theorem ensurePin_not_modified_is_success config session html env w pre post :
  hasPinFor w session = true ->
  telegramRefuses (fetch env (editRequest config session (storedId w) html))
    400 (pre +:+ "message is not modified" +:+ post) ->
  ensurePin config session html env w =
    (Ok (storedId w), w,
     [EvRead STATE_FILE;
      EvFetch (editRequest config session (storedId w) html)])
  /\ sends (traceOf (ensurePin config session html env w)) = 0%nat.
Proof.
  intros Hpin Hsame.
  destruct (tgAnswer_refused "editMessageText" _ _ _ Hsame) as (err & Hedit & Hmsg & Hcode).
  assert (Hnm : notModified err = true).
  { unfold notModified, is400. rewrite Hcode, Hmsg.
    apply (test_not_modified "Telegram editMessageText: "). }
  rewrite ensurePin_run, Hpin. unfold editAnswer. rewrite Hedit, Hnm.
  split; reflexivity.
Qed.

(** *** The usage extractor *)

Lemma strict_eq_str (v : value) (s : string) :
  strict_eq v (JStr s) = true <-> v = JStr s.
Proof.
  destruct v; cbn; try (split; [discriminate|discriminate]).
  rewrite String.eqb_eq. split; congruence.
Qed.

(** The loop returns at a line exactly when the line qualifies. *)
Lemma usageOfLine_spec line u :
  usageOfLine line = Ok (Some u) <-> Qualifies line u.
Proof.
  unfold usageOfLine, Qualifies, getProp, optProp. split.
  - destruct (JSON_parse line) as [entry|]; [|discriminate].
    destruct (nullish entry) eqn:Hn; [discriminate|].
    destruct (strict_eq _ _) eqn:Hrole; [|discriminate].
    destruct (truthy _) eqn:Husage; [|discriminate].
    cbn [andb]. intros [= <-]. exists entry.
    destruct (nullish (prop entry "message")) eqn:Hm.
    + cbn in Hrole. discriminate.
    + apply strict_eq_str in Hrole. repeat split; assumption.
  - intros (entry & -> & Hrole & Husage & ->).
    destruct (nullish entry) eqn:Hn.
    { destruct entry; try discriminate; discriminate. }
    destruct (nullish (prop entry "message")) eqn:Hm.
    { destruct (prop entry "message"); try discriminate; discriminate. }
    apply strict_eq_str in Hrole. rewrite Hrole, Husage. reflexivity.
Qed.

Lemma firstn_S_nth (lines : list string) i :
  (i < length lines)%nat ->
  firstn (S i) lines = firstn i lines ++ [nth i lines ""].
Proof.
  revert i. induction lines as [|l lines IH]; intros i Hi; cbn in Hi; [lia|].
  destruct i as [|i]; [reflexivity|].
  cbn [firstn nth app]. rewrite <- IH by lia. reflexivity.
Qed.

(** A line that does not qualify, added at the end, changes nothing. *)
Lemma LastQualifying_snoc lines l r :
  (forall u', ~ Qualifies l u') ->
  LastQualifying lines r -> LastQualifying (lines ++ [l]) r.
Proof.
  intros Hnot. destruct r as [u|]; cbn.
  - intros (before & line & after & -> & Hq & Hafter).
    exists before, line, (after ++ [l]). split.
    { rewrite <- List.app_assoc. reflexivity. }
    split; [assumption|]. intros l' u' Hin.
    apply List.in_app_or in Hin. destruct Hin as [Hin|[<-|[]]]; eauto.
  - intros Hall l' u' Hin. apply List.in_app_or in Hin.
    destruct Hin as [Hin|[<-|[]]]; eauto.
Qed.

(** Scanning backwards from line [n] finds the last qualifying line among
    the first [n]. *)
Lemma scanLines_spec lines n :
  (n <= length lines)%nat -> LastQualifying (firstn n lines) (scanLines lines n).
Proof.
  induction n as [|i IH]; intros Hn.
  - cbn. intros l u' [].
  - rewrite firstn_S_nth by lia. cbn [scanLines].
    destruct (usageOfLine (nth i lines "")) as [[u|]|e] eqn:Hline.
    + apply usageOfLine_spec in Hline.
      exists (firstn i lines), (nth i lines ""), []. split; [reflexivity|].
      split; [assumption|]. intros l u' [].
    + apply LastQualifying_snoc; [|apply IH; lia].
      intros u' Hq. apply usageOfLine_spec in Hq. congruence.
    + apply LastQualifying_snoc; [|apply IH; lia].
      intros u' Hq. apply usageOfLine_spec in Hq. congruence.
Qed.

Lemma parseLastUsage_run sessionFile env w :
  parseLastUsage sessionFile env w =
  (Ok (usageIn w sessionFile), w, usageReads w sessionFile).
Proof.
  unfold parseLastUsage, existsSync, usageIn, usageReads, logLines.
  destruct sessionFile; run; try reflexivity.
  destruct (files w !! s) as [raw|] eqn:Hf; cbn; [|reflexivity].
  run. rewrite Hf. reflexivity.
Qed.

(** C3 (amended): for every content of the log file, [parseLastUsage]
    returns the figures of the last line that parses as a record with role
    "assistant" and a usage block, among the lines of the content with the
    white space at its two ends removed (as [trim] removes it, byte order
    mark and no-break space included), whatever lines do not parse or do
    not qualify; it returns [null] when the file does not exist or none of
    these lines qualifies. It changes nothing. *)
Theorem parseLastUsage_returns_last_qualifying path env w :
  match files w !! path with
  | None => parseLastUsage (JStr path) env w = (Ok None, w, [EvExists path])
  | Some raw =>
      exists r,
        parseLastUsage (JStr path) env w = (Ok r, w, [EvExists path; EvRead path])
        /\ LastQualifying (logLines raw) r
  end.
Proof.
  rewrite parseLastUsage_run. unfold usageIn, usageReads.
  destruct (files w !! path) as [raw|]; [|reflexivity].
  eexists. split; [reflexivity|].
  pose proof (scanLines_spec (logLines raw) (length (logLines raw)) ltac:(lia)) as H.
  rewrite List.firstn_all in H. exact H.
Qed.

(** *** The update cycle *)

Lemma fetchBalance_run apiKey env w :
  fetchBalance apiKey env w =
  (balanceAnswer (fetch env (OpenRouterKey apiKey)), w, [EvFetch (OpenRouterKey apiKey)]).
Proof.
  unfold fetchBalance, balanceAnswer, fetchM. run.
  destruct (fetch env _) as [e|res]; run; [reflexivity|].
  destruct (res_ok res); cbn [negb]; run; [|reflexivity].
  destruct (res_json res) as [body|e]; run; [|reflexivity].
  destruct (getProp body "data") as [data|e]; run; [|reflexivity].
  destruct (getProp data "limit") as [l|e]; run; reflexivity.
Qed.

Lemma formatStatusMessage_run session u balance stale env w :
  formatStatusMessage session u balance stale env w =
  (formatted session u balance stale env, w, []).
Proof.
  unfold formatStatusMessage, formatted. run.
  destruct (balanceParts balance stale); run; reflexivity.
Qed.

(** [ensurePin] touches nothing but the files. *)
Lemma ensurePin_frame config session html env w :
  lastUpdateTime (worldOf (ensurePin config session html env w)) = lastUpdateTime w
  /\ cachedBalance (worldOf (ensurePin config session html env w)) = cachedBalance w.
Proof.
  assert (Hc : lastUpdateTime (worldOf (createPinRun config session html env w)) = lastUpdateTime w
               /\ cachedBalance (worldOf (createPinRun config session html env w)) = cachedBalance w).
  { unfold createPinRun. destruct (sendAnswer _ _ _ _) as [msg|e]; [|split; reflexivity].
    destruct (getProp msg "message_id"); split; reflexivity. }
  rewrite ensurePin_run. destruct (hasPinFor w session); [|exact Hc].
  destruct (editAnswer _ _ _ _ _) as [v|err]; [split; reflexivity|].
  destruct (notModified err); [split; reflexivity|].
  destruct (is400 err); [exact Hc|split; reflexivity].
Qed.

Lemma runUpdate_run config session env w :
  runUpdate config session env w =
  if withinCooldown config (Date_now env) (lastUpdateTime w) then (Ok tt, w, [])
  else passRun config session env (set_lastUpdateTime (Date_now env) w).
Proof.
  unfold runUpdate. run.
  destruct (withinCooldown _ _ _); run; [reflexivity|].
  rewrite parseLastUsage_run. run. rewrite fetchBalance_run. run.
  unfold passRun, refreshBalance, balanceRequest, balanceWarning.
  set (w1 := set_lastUpdateTime (Date_now env) w).
  destruct (balanceAnswer _) as [b|e]; run.
  - rewrite formatStatusMessage_run. run.
    destruct (formatted _ _ _ _ _) as [html|e]; run; [|reflexivity].
    destruct (ensurePin _ _ _ _ _) as [[[v|e] w3] t3]; run;
      rewrite ?List.app_nil_r; reflexivity.
  - rewrite formatStatusMessage_run. run.
    destruct (formatted _ _ _ _ _) as [html|e']; run; [|reflexivity].
    destruct (ensurePin _ _ _ _ _) as [[[v|e'] w3] t3]; run;
      rewrite ?List.app_nil_r; reflexivity.
Qed.

(** A pass through the gate leaves [lastUpdateTime] as the gate set it. *)
Lemma passRun_lastUpdateTime config session env w1 :
  lastUpdateTime (worldOf (passRun config session env w1)) = lastUpdateTime w1.
Proof.
  unfold passRun, refreshBalance.
  destruct (balanceAnswer _) as [b|e];
    (destruct (formatted _ _ _ _ _) as [html|e']; [|reflexivity]);
    cbn [worldOf fst snd];
    rewrite (proj1 (ensurePin_frame _ _ _ _ _)); reflexivity.
Qed.

(** An invocation advances [lastUpdateTime] exactly when it passes the
    gate, to its own start time. *)
Lemma runUpdate_lastUpdateTime config session env w :
  lastUpdateTime (worldOf (runUpdate config session env w)) =
  if withinCooldown config (Date_now env) (lastUpdateTime w)
  then lastUpdateTime w else Date_now env.
Proof.
  rewrite runUpdate_run. destruct (withinCooldown _ _ _); [reflexivity|].
  apply passRun_lastUpdateTime.
Qed.

Lemma runUpdate_skipped config session env w :
  withinCooldown config (Date_now env) (lastUpdateTime w) = true ->
  runUpdate config session env w = (Ok tt, w, []).
Proof. intros H. rewrite runUpdate_run, H. reflexivity. Qed.

Lemma invokeAll_lastUpdateTime config ts w :
  lastUpdateTime (fst (invokeAll config ts w)) = lastExecuted config ts (lastUpdateTime w).
Proof.
  revert w. induction ts as [|t ts IH]; intros w; [reflexivity|].
  cbn [invokeAll lastExecuted].
  pose proof (runUpdate_lastUpdateTime config (trig_session t) (trig_env t) w) as Ht.
  unfold invoke. destruct (runUpdate _ _ _ _) as [[r w1] t1]. cbn [worldOf fst snd] in Ht.
  specialize (IH w1). destruct (invokeAll config ts w1) as [w2 t2].
  cbn [fst] in *. rewrite IH, Ht. reflexivity.
Qed.

(** Invocations that all fall inside the window of the last executed pass
    change nothing and do nothing. *)
Lemma invokeAll_burst config burst w c :
  cooldownMs config = Some c ->
  Forall (fun t => Date_now (trig_env t) - lastUpdateTime w < c) burst ->
  invokeAll config burst w = (w, []).
Proof.
  intros Hc Hall. induction Hall as [|t burst Ht _ IH]; [reflexivity|].
  cbn [invokeAll]. unfold invoke. rewrite runUpdate_skipped.
  - rewrite IH. reflexivity.
  - unfold withinCooldown. rewrite Hc. apply Z.ltb_lt. exact Ht.
Qed.

(** C4 (amended): when an invocation of [runUpdate] passes the cooldown
    gate and the next one starts less than [cooldownMs] after it, the second
    returns at once: same world, empty trace (no usage extraction, no
    balance fetch, no publish), and everything the pair did to the outside
    is what the first did. The first sets [lastUpdateTime] before its first
    [await], so the same holds from any world in which it is the start time
    of the first, also one the first has not finished in. *)
Theorem runUpdate_second_within_cooldown_is_skipped config first second w c :
  cooldownMs config = Some c ->
  withinCooldown config (Date_now (trig_env first)) (lastUpdateTime w) = false ->
  Date_now (trig_env second) - Date_now (trig_env first) < c ->
  (forall w', lastUpdateTime w' = Date_now (trig_env first) ->
              invoke config second w' = (Ok tt, w', []))
  /\ invoke config second (worldOf (invoke config first w))
    = (Ok tt, worldOf (invoke config first w), [])
  /\ invokeAll config [first; second] w
    = (worldOf (invoke config first w), traceOf (invoke config first w)).
Proof.
  intros Hc Hgate Hlt.
  assert (Hany : forall w', lastUpdateTime w' = Date_now (trig_env first) ->
                            invoke config second w' = (Ok tt, w', [])).
  { intros w' Hlast. unfold invoke. apply runUpdate_skipped.
    unfold withinCooldown. rewrite Hc, Hlast. apply Z.ltb_lt. exact Hlt. }
  assert (Hsecond : invoke config second (worldOf (invoke config first w))
                    = (Ok tt, worldOf (invoke config first w), [])).
  { apply Hany. unfold invoke. rewrite runUpdate_lastUpdateTime, Hgate. reflexivity. }
  split; [exact Hany|]. split; [exact Hsecond|].
  cbn [invokeAll]. destruct (invoke config first w) as [[r1 w1] t1].
  cbn [worldOf traceOf fst snd] in *. rewrite Hsecond, List.app_nil_r. reflexivity.
Qed.

(** C9: [lastUpdateTime] is advanced only by an invocation that passes the
    gate, to its own start time, and an invocation that the gate stops
    changes nothing; so after any invocations [ts] it is the start time of
    the most recent one that ran; a burst of invocations inside the window
    leaves the world as it was, however many they are, and an invocation
    coming one window or more after the last executed pass is executed. *)
Theorem cooldown_measured_from_last_executed_pass config w ts burst next c :
  cooldownMs config = Some c ->
  Forall (fun t => Date_now (trig_env t) - lastUpdateTime w < c) burst ->
  lastUpdateTime w + c <= Date_now (trig_env next) ->
  (forall t w0,
     lastUpdateTime (worldOf (invoke config t w0)) =
     if withinCooldown config (Date_now (trig_env t)) (lastUpdateTime w0)
     then lastUpdateTime w0 else Date_now (trig_env t)) /\
  (forall t w0,
     withinCooldown config (Date_now (trig_env t)) (lastUpdateTime w0) = true ->
     invoke config t w0 = (Ok tt, w0, [])) /\
  lastUpdateTime (fst (invokeAll config ts w)) = lastExecuted config ts (lastUpdateTime w) /\
  invokeAll config burst w = (w, []) /\
  withinCooldown config (Date_now (trig_env next))
    (lastUpdateTime (fst (invokeAll config burst w))) = false /\
  lastUpdateTime (worldOf (invoke config next (fst (invokeAll config burst w))))
    = Date_now (trig_env next).
Proof.
  intros Hc Hburst Hnext.
  assert (Hopen : withinCooldown config (Date_now (trig_env next)) (lastUpdateTime w) = false).
  { unfold withinCooldown. rewrite Hc. apply Z.ltb_ge. lia. }
  split; [intros; apply runUpdate_lastUpdateTime|].
  split; [intros; apply runUpdate_skipped; assumption|].
  split; [apply invokeAll_lastUpdateTime|].
  rewrite (invokeAll_burst _ _ _ _ Hc Hburst). cbn [fst].
  split; [reflexivity|]. split; [exact Hopen|].
  unfold invoke. rewrite runUpdate_lastUpdateTime, Hopen. reflexivity.
Qed.



(** *** Session discovery *)

Lemma matchTelegram_digits digits :
  digits <> "" -> JSString.all_digits digits = true ->
  matchTelegram ("telegram:" +:+ digits) = Some digits.
Proof.
  intros Hne Hd. unfold matchTelegram, JSString.startsWith.
  rewrite prefix_app. change (JSString.drop 9 ("telegram:" +:+ digits)) with digits.
  rewrite Hd. destruct (String.eqb_spec digits ""); [contradiction|reflexivity].
Qed.

Lemma discoverLoop_matching config entries key entry env w :
  matchingEntry config entries = Some (key, entry) ->
  discoverLoop config entries env w = discoverEntry key entry env w.
Proof.
  induction entries as [|[k e] rest IH]; cbn [matchingEntry discoverLoop]; [discriminate|].
  destruct (JSString.startsWith _ k); cbn [negb].
  - intros [= -> ->]. reflexivity.
  - exact IH.
Qed.

Lemma discoverSession_entry config env w raw sessions entries key entry :
  files w !! sessionsFile config = Some raw ->
  JSON_parse raw = Some sessions ->
  Object_entries sessions = Ok entries ->
  matchingEntry config entries = Some (key, entry) ->
  discoverSession config env w =
  (resultOf (discoverEntry key entry env w),
   worldOf (discoverEntry key entry env w),
   EvRead (sessionsFile config) :: traceOf (discoverEntry key entry env w)).
Proof.
  intros Hfile Hparse Hentries Hmatch. unfold discoverSession. run.
  rewrite Hfile. run. unfold JSON_parseM. rewrite Hparse. run.
  rewrite Hentries. run. rewrite (discoverLoop_matching _ _ _ _ _ _ Hmatch).
  reflexivity.
Qed.

(** The body of the loop, from the chat identity it settles on. *)
Lemma discoverEntry_run key entry env w :
  nullish entry = false ->
  discoverEntry key entry env w =
  if falsyStr (chatOverride w) && truthy (deliveryTarget entry) then
    match deliveryTarget entry with
    | JStr to =>
        match (match matchTelegram to with Some d => Some d | None => chatOverride w end) with
        | Some c => if String.eqb c "" then (Throw chatIdError, w, [])
                    else (discovered w key entry c, w, [])
        | None => (Throw chatIdError, w, [])
        end
    | _ => (Throw (TypeError "entry.deliveryContext.to.match is not a function"), w, [])
    end
  else
    match chatOverride w with
    | Some c => if String.eqb c "" then (Throw chatIdError, w, [])
                else (discovered w key entry c, w, [])
    | None => (Throw chatIdError, w, [])
    end.
Proof.
  intros Hn. unfold discoverEntry, getProp, discovered, descriptor. rewrite Hn. run.
  fold (chatOverride w). fold (deliveryTarget entry).
  destruct (falsyStr (chatOverride w) && truthy (deliveryTarget entry)).
  - destruct (deliveryTarget entry) as [| |b|n|to|items|props]; run; try reflexivity.
    destruct (matchTelegram to) as [d|]; run.
    + destruct (String.eqb d ""); run; [reflexivity|].
      destruct (truthy (prop entry "sessionFile")); reflexivity.
    + destruct (chatOverride w) as [c|]; run; [|reflexivity].
      destruct (String.eqb c ""); run; [reflexivity|].
      destruct (truthy (prop entry "sessionFile")); reflexivity.
  - run. destruct (chatOverride w) as [c|]; run; [|reflexivity].
    destruct (String.eqb c ""); run; [reflexivity|].
    destruct (truthy (prop entry "sessionFile")); reflexivity.
Qed.

(** C8: for a registry whose matching entry is [entry], under key [key]:
    with no override configured and a delivery target ["telegram:<digits>"],
    the chat identity of the descriptor is exactly the digits; a configured
    override is the chat identity, whatever the delivery target; when
    neither yields one, discovery fails, with the configuration error of
    the chat identity whenever the entry is an object whose delivery target
    is absent or a string. A descriptor is returned exactly when the entry
    has a log path; otherwise discovery fails for the missing path. *)
Theorem discoverSession_chat_identity config env w raw sessions entries key entry :
  files w !! sessionsFile config = Some raw ->
  JSON_parse raw = Some sessions ->
  Object_entries sessions = Ok entries ->
  matchingEntry config entries = Some (key, entry) ->
  (forall digits,
     falsyStr (chatOverride w) = true ->
     deliveryTarget entry = JStr ("telegram:" +:+ digits) ->
     digits <> "" -> JSString.all_digits digits = true ->
     discoverSession config env w =
       (discovered w key entry digits, w, [EvRead (sessionsFile config)])) /\
  (forall chat,
     chatOverride w = Some chat -> chat <> "" -> nullish entry = false ->
     discoverSession config env w =
       (discovered w key entry chat, w, [EvRead (sessionsFile config)])) /\
  (falsyStr (chatOverride w) = true -> chatFromTarget entry = None ->
     (exists e, discoverSession config env w = (Throw e, w, [EvRead (sessionsFile config)])) /\
     (nullish entry = false ->
      (truthy (deliveryTarget entry) = false \/ exists to, deliveryTarget entry = JStr to) ->
      discoverSession config env w = (Throw chatIdError, w, [EvRead (sessionsFile config)]))).
Proof.
  intros Hfile Hparse Hentries Hmatch.
  rewrite (discoverSession_entry _ _ _ _ _ _ _ _ Hfile Hparse Hentries Hmatch).
  split; [|split].
  - intros digits Hover Hto Hne Hd.
    assert (Hn : nullish entry = false).
    { destruct entry; try reflexivity; discriminate. }
    rewrite (discoverEntry_run _ _ _ _ Hn), Hover, Hto.
    rewrite (matchTelegram_digits _ Hne Hd).
    assert (Ht : truthy (JStr ("telegram:" +:+ digits) : value) = true) by reflexivity.
    rewrite Ht. cbn [andb].
    destruct (String.eqb_spec digits ""); [contradiction|reflexivity].
  - intros chat Hover Hne Hn.
    rewrite (discoverEntry_run _ _ _ _ Hn), Hover. cbn [falsyStr].
    destruct (String.eqb_spec chat ""); [contradiction|]. reflexivity.
  - intros Hover Hnone. unfold chatFromTarget in Hnone.
    assert (Hfinish :
      match chatOverride w with
      | Some c => if String.eqb c "" then (Throw chatIdError, w, [])
                  else (discovered w key entry c, w, [])
      | None => (Throw chatIdError, w, [])
      end = (Throw chatIdError, w, @nil (@Event number))).
    { destruct (chatOverride w) as [c|]; cbn in Hover; [rewrite Hover|]; reflexivity. }
    split.
    + destruct (nullish entry) eqn:Hn.
      { unfold discoverEntry, getProp. rewrite Hn. run. eexists. reflexivity. }
      rewrite (discoverEntry_run _ _ _ _ Hn), Hover. cbn [andb].
      destruct (truthy (deliveryTarget entry)); [|rewrite Hfinish; eexists; reflexivity].
      destruct (deliveryTarget entry) as [| |b|n|to|items|props];
        try (eexists; reflexivity).
      rewrite Hnone, Hfinish. eexists; reflexivity.
    + intros Hn Hshape. rewrite (discoverEntry_run _ _ _ _ Hn), Hover. cbn [andb].
      destruct Hshape as [Hfalsy|[to Hto]].
      * rewrite Hfalsy, Hfinish. reflexivity.
      * rewrite Hto in *. rewrite Hnone, Hfinish.
        destruct (truthy (JStr to)); reflexivity.
Qed.

(** ** Further properties of the code *)

(** *** Strings *)

Lemma append_cons x (a b : string) : String x a +:+ b = String x (a +:+ b).
Proof. reflexivity. Qed.

Lemma append_assoc (a b c : string) : (a +:+ b) +:+ c = a +:+ (b +:+ c).
Proof.
  induction a as [|x a IH]; [reflexivity|].
  rewrite !append_cons, IH. reflexivity.
Qed.

Lemma flatMap_app f a b :
  JSString.flatMap f (a +:+ b) = JSString.flatMap f a +:+ JSString.flatMap f b.
Proof.
  induction a as [|c a IH]; [reflexivity|].
  rewrite append_cons. cbn [JSString.flatMap]. rewrite IH. symmetry. apply append_assoc.
Qed.

Lemma replaceAll_flatMap c rep s :
  JSString.replaceAll c rep s =
  JSString.flatMap (fun d => if Ascii.eqb d c then rep else String d "") s.
Proof.
  induction s as [|d s IH]; [reflexivity|].
  cbn [JSString.replaceAll JSString.flatMap]. rewrite IH.
  destruct (Ascii.eqb d c); reflexivity.
Qed.

Lemma flatMap_flatMap f g s :
  JSString.flatMap g (JSString.flatMap f s) =
  JSString.flatMap (fun c => JSString.flatMap g (f c)) s.
Proof.
  induction s as [|c s IH]; [reflexivity|].
  cbn [JSString.flatMap]. rewrite flatMap_app, IH. reflexivity.
Qed.

Lemma flatMap_ext f g s :
  (forall c, f c = g c) -> JSString.flatMap f s = JSString.flatMap g s.
Proof.
  intros H. induction s as [|c s IH]; [reflexivity|].
  cbn [JSString.flatMap]. rewrite H, IH. reflexivity.
Qed.

Lemma chars_app a b :
  list_ascii_of_string (a +:+ b) = list_ascii_of_string a ++ list_ascii_of_string b.
Proof.
  induction a as [|c a IH]; [reflexivity|].
  rewrite append_cons. cbn [list_ascii_of_string app]. rewrite IH. reflexivity.
Qed.

Lemma In_flatMap x f s :
  In x (list_ascii_of_string (JSString.flatMap f s)) ->
  exists c, In c (list_ascii_of_string s) /\ In x (list_ascii_of_string (f c)).
Proof.
  induction s as [|c s IH]; [intros []|].
  cbn [JSString.flatMap list_ascii_of_string]. rewrite chars_app.
  intros Hin. apply List.in_app_or in Hin. destruct Hin as [Hin|Hin].
  - exists c. split; [left; reflexivity|exact Hin].
  - destruct (IH Hin) as (c' & Hc' & Hx). exists c'. split; [right; exact Hc'|exact Hx].
Qed.

Lemma prefix_drop p s :
  String.prefix p s = true -> s = p +:+ JSString.drop (String.length p) s.
Proof.
  revert s. induction p as [|c p IH]; intros s; [destruct s; reflexivity|].
  destruct s as [|d s]; [discriminate|]. cbn [String.prefix].
  destruct (Ascii.ascii_dec c d) as [->|]; [|discriminate].
  intros H. rewrite append_cons. cbn [String.length JSString.drop].
  f_equal. apply IH. exact H.
Qed.

Lemma includes_cons p c r :
  JSString.includes p (String c r) = false ->
  String.prefix p (String c r) = false /\ JSString.includes p r = false.
Proof.
  cbn [JSString.includes]. intros H. apply orb_false_iff in H. exact H.
Qed.

Lemma padStart0_two_digits n :
  (n < 60)%nat ->
  JSString.padStart0 2 (JSString.of_nat n)
  = String (JSString.digit (n / 10)) (String (JSString.digit (n mod 10)) "").
Proof.
  intros Hn.
  do 60 (destruct n as [|n]; [reflexivity|]). lia.
Qed.

Lemma js_or_cases (a b : value) : truthy (js_or a b) = true \/ js_or a b = b.
Proof.
  unfold js_or. destruct (truthy a) eqn:Ha; [left; exact Ha|right; reflexivity].
Qed.

(** *** Escaping and formatting *)

Lemma escChar_no_angle_bracket c x :
  In x (list_ascii_of_string (escChar c)) -> x <> "<"%char /\ x <> ">"%char.
Proof.
  unfold escChar.
  destruct (Ascii.eqb_spec c "&") as [->|Hamp].
  { cbn. intuition (subst; discriminate). }
  destruct (Ascii.eqb_spec c "<") as [->|Hlt].
  { cbn. intuition (subst; discriminate). }
  destruct (Ascii.eqb_spec c ">") as [->|Hgt].
  { cbn. intuition (subst; discriminate). }
  cbn. intros [<-|[]]. split; assumption.
Qed.

(** X1: [esc] escapes every character of its argument (turned into a
    string) exactly once and on its own: [&] becomes [&amp;], [<] becomes
    [&lt;], [>] becomes [&gt;], every other character stays; the three
    replacements, one after the other, come to one pass, and the ampersand
    of an entity that a later replacement inserts is not escaped again. So
    the result contains neither [<] nor [>]: nothing that comes out of
    [esc] can open or close an HTML tag. *)
Theorem esc_escapes_each_character_once (v : value) :
  esc v = JSString.flatMap escChar (ToString v)
  /\ ~ In "<"%char (list_ascii_of_string (esc v))
  /\ ~ In ">"%char (list_ascii_of_string (esc v)).
Proof.
  assert (Hpass : esc v = JSString.flatMap escChar (ToString v)).
  { unfold esc. rewrite !replaceAll_flatMap, !flatMap_flatMap.
    apply flatMap_ext. intros c. unfold escChar.
    destruct (Ascii.eqb_spec c "&") as [->|Hamp]; [reflexivity|].
    destruct (Ascii.eqb_spec c "<") as [->|Hlt]; [reflexivity|].
    destruct (Ascii.eqb_spec c ">") as [->|Hgt]; [reflexivity|].
    cbn. destruct (Ascii.eqb_spec c "<"); [contradiction|].
    cbn. destruct (Ascii.eqb_spec c ">"); [contradiction|]. reflexivity. }
  split; [exact Hpass|]. rewrite Hpass.
  split; intros Hin; apply In_flatMap in Hin; destruct Hin as (c & _ & Hx);
    apply escChar_no_angle_bracket in Hx; destruct Hx; congruence.
Qed.

(** X2: for a session whose model and context window, a usage whose
    figures and a balance whose limit are primitive values (no objects, no
    arrays), [formatStatusMessage] returns a text, without any effect,
    exactly when there is no balance or both figures it prints in dollars
    are numbers: the remaining credit when there is a limit, the usage when
    there is none, and the daily usage. Otherwise it throws. *)
Theorem formatStatusMessage_throws_only_on_non_numeric_balance
    session u balance stale env w :
  primitiveSession session = true ->
  primitiveUsage u = true ->
  primitiveLimit balance = true ->
  (exists html, formatStatusMessage session u balance stale env w = (Ok html, w, []))
  <-> match balance with
      | None => True
      | Some b => (exists x, balanceValue b = JNum x) /\ (exists d, usageDaily b = JNum d)
      end.
Proof.
  intros _ _ _.
  rewrite formatStatusMessage_run. unfold formatted, balanceParts.
  destruct balance as [b|]; [|split; [trivial|intros _; eexists; reflexivity]].
  unfold balanceValue.
  destruct (negb (nullish (limit b))).
  - destruct (limitRemaining b) eqn:Hv; cbn;
      destruct (usageDaily b) eqn:Hd; cbn;
      (split;
       [ intros (html & Hh); first [discriminate Hh | split; eexists; reflexivity]
       | intros ((x & Hx) & (d & Hd'));
         first [discriminate Hx | discriminate Hd' | eexists; reflexivity] ]).
  - destruct (usage b) eqn:Hv; cbn;
      destruct (usageDaily b) eqn:Hd; cbn;
      (split;
       [ intros (html & Hh); first [discriminate Hh | split; eexists; reflexivity]
       | intros ((x & Hx) & (d & Hd'));
         first [discriminate Hx | discriminate Hd' | eexists; reflexivity] ]).
Qed.

(** X3: for every hour below 24 and minute below 60, the time segment is
    the clock followed by two digits, a colon and two digits: hours and
    minutes below ten are padded with a zero. *)
Theorem timePart_is_zero_padded hours minutes :
  (hours < 24)%nat -> (minutes < 60)%nat ->
  timePart hours minutes =
  "🕐 " +:+ String (JSString.digit (hours / 10))
             (String (JSString.digit (hours mod 10)) "")
        +:+ ":"
        +:+ String (JSString.digit (minutes / 10))
              (String (JSString.digit (minutes mod 10)) "").
Proof.
  intros Hh Hm. unfold timePart.
  rewrite (padStart0_two_digits hours), (padStart0_two_digits minutes) by lia.
  reflexivity.
Qed.

(** *** The publisher *)

Lemma calls_app method (a b : list (@Event number)) :
  calls method (a ++ b) = (calls method a + calls method b)%nat.
Proof. unfold calls. rewrite List.filter_app. apply List.length_app. Qed.

Lemma writes_app (a b : list (@Event number)) :
  writes (a ++ b) = (writes a + writes b)%nat.
Proof. unfold writes. rewrite List.filter_app. apply List.length_app. Qed.

Lemma requests_app (a b : list (@Event number)) :
  requests (a ++ b) = (requests a + requests b)%nat.
Proof. unfold requests. rewrite List.filter_app. apply List.length_app. Qed.

(** The calls and writes of [createPin]: one send; a pin attempt and a
    write exactly when the send returned a message. *)
Lemma createPinRun_counts config session html env w :
  let t := traceOf (createPinRun config session html env w) in
  calls "editMessageText" t = 0%nat /\ sends t = 1%nat /\
  writes t = calls "pinChatMessage" t /\ (calls "pinChatMessage" t <= 1)%nat /\
  requests t = (1 + calls "pinChatMessage" t)%nat.
Proof.
  unfold createPinRun.
  destruct (sendAnswer env config session html) as [msg|e]; [|cbn; repeat split; lia].
  destruct (getProp msg "message_id") as [messageId|e]; [|cbn; repeat split; lia].
  unfold pinLog. destruct (pinAnswer _ _ _ _); cbn; repeat split; lia.
Qed.

(** [createPin] when the send returns a message with an identity. *)
Lemma createPinRun_sent config session html env w msg messageId :
  sendAnswer env config session html = Ok msg ->
  getProp msg "message_id" = Ok messageId ->
  createPinRun config session html env w =
  (Ok messageId,
   set_files (<[STATE_FILE := pinRecordText session messageId]> (files w)) w,
   [EvFetch (sendRequest config session html);
    EvFetch (pinRequest config session messageId)]
   ++ pinLog (pinAnswer env config session messageId)
   ++ [EvWrite STATE_FILE (pinRecordText session messageId)]).
Proof. intros Hsend Hid. unfold createPinRun. rewrite Hsend, Hid. reflexivity. Qed.

(** The bounds on what one [ensurePin] does. *)
Lemma ensurePin_bounds config session html env w :
  let t := traceOf (ensurePin config session html env w) in
  (sends t <= 1)%nat /\ (calls "editMessageText" t <= 1)%nat /\
  (calls "pinChatMessage" t <= 1)%nat /\ (writes t <= 1)%nat /\
  (requests t <= 3)%nat.
Proof.
  cbn zeta. rewrite ensurePin_run.
  destruct (createPinRun_counts config session html env w) as (He & Hs & Hw & Hp & Hr).
  set (tc := traceOf (createPinRun config session html env w)) in *. clearbody tc.
  unfold sends, calls, writes, requests in *.
  destruct (hasPinFor w session).
  - destruct (editAnswer _ _ _ _ _) as [v|err]; [cbn; repeat split; lia|].
    destruct (notModified err); [cbn; repeat split; lia|].
    destruct (is400 err); cbn [negb]; [|cbn; repeat split; lia].
    cbn. cbn in He, Hs, Hw, Hp, Hr. rewrite He, Hs, Hw, Hr. repeat split; lia.
  - cbn. cbn in He, Hs, Hw, Hp, Hr. rewrite He, Hs, Hw, Hr. repeat split; lia.
Qed.

(** What a later [loadState] finds after [createPin] has saved. *)
Lemma hasPinFor_after_create session other messageId (w : @World number) :
  files w !! STATE_FILE = Some (pinRecordText session messageId) ->
  JSON_parse (pinRecordText session messageId) = Some (pinRecord session messageId) ->
  truthy messageId = true ->
  chatId other = chatId session ->
  storedId w = messageId /\ hasPinFor w other = true.
Proof.
  intros Hfile Hparse Hid Hchat.
  assert (Hs : storedState w = pinRecord session messageId).
  { unfold storedState. rewrite Hfile, Hparse. reflexivity. }
  unfold storedId, hasPinFor. rewrite Hs, Hchat. cbn.
  split; [reflexivity|]. rewrite String.eqb_refl, Hid. reflexivity.
Qed.

(** X4: when the state file is missing or does not parse, [loadState]
    returns [null] instead of throwing, changes nothing, and [ensurePin]
    finds no pin for any session. *)
Theorem loadState_tolerates_missing_or_corrupt_file env w session :
  files w !! STATE_FILE = None
  \/ (exists raw, files w !! STATE_FILE = Some raw /\ JSON_parse raw = None) ->
  loadState env w = (Ok JNull, w, [EvRead STATE_FILE])
  /\ hasPinFor w session = false.
Proof.
  intros H. rewrite loadState_run.
  assert (Hs : storedState w = JNull).
  { unfold storedState. destruct H as [->|(raw & -> & ->)]; reflexivity. }
  unfold hasPinFor. rewrite Hs. split; reflexivity.
Qed.

(** X5: in every invocation of [ensurePin], [editMessageText] is called
    once when a pin is recorded for the chat and never otherwise; the state
    file is written only after a [pinChatMessage], that is called only
    after a [sendMessage], and that is called at most once; and these three
    calls are all the requests it makes. *)
Theorem ensurePin_call_discipline config session html env w :
  let t := traceOf (ensurePin config session html env w) in
  calls "editMessageText" t = (if hasPinFor w session then 1 else 0)%nat /\
  (writes t <= calls "pinChatMessage" t)%nat /\
  (calls "pinChatMessage" t <= sends t)%nat /\
  (sends t <= 1)%nat /\
  requests t = (calls "editMessageText" t + sends t + calls "pinChatMessage" t)%nat.
Proof.
  cbn zeta. rewrite ensurePin_run.
  destruct (createPinRun_counts config session html env w) as (He & Hs & Hw & Hp & Hr).
  set (tc := traceOf (createPinRun config session html env w)) in *. clearbody tc.
  unfold sends, calls, writes, requests in *.
  destruct (hasPinFor w session).
  - destruct (editAnswer _ _ _ _ _) as [v|err]; [cbn; repeat split; lia|].
    destruct (notModified err); [cbn; repeat split; lia|].
    destruct (is400 err); cbn [negb]; [|cbn; repeat split; lia].
    cbn. cbn in He, Hs, Hw, Hp, Hr. rewrite He, Hs, Hw, Hr. repeat split; lia.
  - cbn. cbn in He, Hs, Hw, Hp, Hr. rewrite He, Hs, Hw, Hr. repeat split; lia.
Qed.

(** X6: when no pin is recorded for the chat of the session, [ensurePin]
    does not try an edit and sends exactly one message; when the send
    returns a message, its identity is what [ensurePin] returns and what
    the state file holds afterwards, in a record for this chat. *)
Theorem ensurePin_creates_without_usable_record config session html env w :
  hasPinFor w session = false ->
  calls "editMessageText" (traceOf (ensurePin config session html env w)) = 0%nat
  /\ sends (traceOf (ensurePin config session html env w)) = 1%nat
  /\ forall msg messageId,
       sendAnswer env config session html = Ok msg ->
       getProp msg "message_id" = Ok messageId ->
       resultOf (ensurePin config session html env w) = Ok messageId
       /\ files (worldOf (ensurePin config session html env w)) !! STATE_FILE
          = Some (pinRecordText session messageId).
Proof.
  intros Hpin. rewrite ensurePin_run, Hpin. cbn [traceOf resultOf worldOf fst snd].
  destruct (createPinRun_counts config session html env w) as (He & Hs & _).
  split; [|split].
  - unfold calls in *. cbn [List.filter isCall]. exact He.
  - unfold sends in *. cbn [List.filter isCall]. exact Hs.
  - intros msg messageId Hsend Hid.
    rewrite (createPinRun_sent _ _ _ _ _ _ _ Hsend Hid).
    cbn [fst snd files set_files]. split; [reflexivity|]. apply lookup_insert_eq.
Qed.

(** X7: a message that was sent but could not be pinned is kept: when no
    pin is recorded, the send returns a message and [pinChatMessage] fails,
    [ensurePin] logs a warning, records the message in the state file all
    the same, and returns its identity. *)
Theorem ensurePin_pin_failure_is_tolerated config session html env w msg messageId e :
  hasPinFor w session = false ->
  sendAnswer env config session html = Ok msg ->
  getProp msg "message_id" = Ok messageId ->
  pinAnswer env config session messageId = Throw e ->
  ensurePin config session html env w =
    (Ok messageId,
     set_files (<[STATE_FILE := pinRecordText session messageId]> (files w)) w,
     [EvRead STATE_FILE;
      EvFetch (sendRequest config session html);
      EvFetch (pinRequest config session messageId);
      EvLog LogWarn [TAG; "Pin failed (message still sent):"; err_message e];
      EvWrite STATE_FILE (pinRecordText session messageId)]).
Proof.
  intros Hpin Hsend Hid Hfail.
  rewrite ensurePin_run, Hpin, (createPinRun_sent _ _ _ _ _ _ _ Hsend Hid), Hfail.
  reflexivity.
Qed.

(** X8: when [sendMessage] fails, [ensurePin] leaves the world as it was:
    no pin attempt, no write, the state file untouched. When no pin was
    recorded, it throws the error of the send after that one call. *)
Theorem ensurePin_send_failure_changes_nothing config session html env w e :
  sendAnswer env config session html = Throw e ->
  worldOf (ensurePin config session html env w) = w
  /\ writes (traceOf (ensurePin config session html env w)) = 0%nat
  /\ calls "pinChatMessage" (traceOf (ensurePin config session html env w)) = 0%nat
  /\ (hasPinFor w session = false ->
      ensurePin config session html env w =
        (Throw e, w, [EvRead STATE_FILE; EvFetch (sendRequest config session html)])).
Proof.
  intros Hsend. rewrite ensurePin_run.
  assert (Hc : createPinRun config session html env w
               = (Throw e, w, [EvFetch (sendRequest config session html)])).
  { unfold createPinRun. rewrite Hsend. reflexivity. }
  rewrite Hc. cbn [resultOf worldOf traceOf fst snd].
  destruct (hasPinFor w session); [|repeat split].
  destruct (editAnswer _ _ _ _ _) as [v|err]; [repeat split; discriminate|].
  destruct (notModified err); [repeat split; discriminate|].
  destruct (is400 err); cbn [negb]; repeat split; discriminate.
Qed.

(** What [ensurePin] leaves as it was: everything but the state file. *)
Lemma ensurePin_world_frame config session html env w :
  let w' := worldOf (ensurePin config session html env w) in
  delete STATE_FILE (files w') = delete STATE_FILE (files w)
  /\ processEnv w' = processEnv w
  /\ modelContextCache w' = modelContextCache w.
Proof.
  cbn zeta.
  assert (Hc : let w' := worldOf (createPinRun config session html env w) in
               delete STATE_FILE (files w') = delete STATE_FILE (files w)
               /\ processEnv w' = processEnv w
               /\ modelContextCache w' = modelContextCache w).
  { unfold createPinRun.
    destruct (sendAnswer _ _ _ _) as [msg|e]; [|repeat split].
    destruct (getProp msg "message_id") as [messageId|e]; [|repeat split].
    cbn. repeat split. apply delete_insert_eq. }
  rewrite ensurePin_run. destruct (hasPinFor w session); [|exact Hc].
  destruct (editAnswer _ _ _ _ _) as [v|err]; [repeat split|].
  destruct (notModified err); [repeat split|].
  destruct (is400 err); [exact Hc|repeat split].
Qed.

(** The requests of [ensurePin]: an edit of the recorded message, a send,
    a pin, each to the chat of the session and with the text it was
    given. *)
Lemma ensurePin_requests config session html env w req :
  In (EvFetch req) (traceOf (ensurePin config session html env w)) ->
  req = editRequest config session (storedId w) html
  \/ req = sendRequest config session html
  \/ exists messageId, req = pinRequest config session messageId.
Proof.
  assert (Hc : In (EvFetch req) (traceOf (createPinRun config session html env w)) ->
               req = sendRequest config session html
               \/ exists messageId, req = pinRequest config session messageId).
  { unfold createPinRun.
    destruct (sendAnswer _ _ _ _) as [msg|e].
    2:{ intros [[= <-]|[]]. left. reflexivity. }
    destruct (getProp msg "message_id") as [messageId|e].
    2:{ intros [[= <-]|[]]. left. reflexivity. }
    cbn [traceOf snd app]. intros [[= <-]|[[= <-]|Hin]];
      [left; reflexivity|right; eexists; reflexivity|].
    apply List.in_app_or in Hin. destruct Hin as [Hin|[Hin|[]]]; [|discriminate].
    unfold pinLog in Hin. destruct (pinAnswer _ _ _ _); [destruct Hin|].
    destruct Hin as [Hin|[]]. discriminate. }
  rewrite ensurePin_run. destruct (hasPinFor w session).
  - destruct (editAnswer _ _ _ _ _) as [v|err].
    { intros [Hin|[[= <-]|[]]]; [discriminate|left; reflexivity]. }
    destruct (notModified err).
    { intros [Hin|[[= <-]|[]]]; [discriminate|left; reflexivity]. }
    destruct (is400 err); cbn [negb traceOf snd].
    + intros [Hin|[[= <-]|[Hin|Hin]]]; [discriminate|left; reflexivity|discriminate|].
      right. apply Hc. exact Hin.
    + intros [Hin|[[= <-]|[Hin|[]]]]; [discriminate|left; reflexivity|discriminate].
  - cbn [traceOf snd]. intros [Hin|Hin]; [discriminate|]. right. apply Hc. exact Hin.
Qed.

(** X9: what [saveState] writes, [loadState] reads back: after an
    [ensurePin] that created message [messageId], a later [ensurePin] for a
    session of the same chat edits exactly that message, given that the
    JSON codec reads the record back as it was written and the identity is
    truthy; when the edit succeeds, nothing is sent or written. *)
Theorem ensurePin_edits_the_message_it_created
    config session other html html' env env' w msg messageId v :
  hasPinFor w session = false ->
  sendAnswer env config session html = Ok msg ->
  getProp msg "message_id" = Ok messageId ->
  truthy messageId = true ->
  JSON_parse (pinRecordText session messageId) = Some (pinRecord session messageId) ->
  chatId other = chatId session ->
  tgAnswer "editMessageText" (fetch env' (editRequest config other messageId html'))
    = Ok v ->
  ensurePin config other html' env' (worldOf (ensurePin config session html env w)) =
    (Ok messageId, worldOf (ensurePin config session html env w),
     [EvRead STATE_FILE; EvFetch (editRequest config other messageId html')]).
Proof.
  intros Hpin Hsend Hid Htruthy Hparse Hchat Hedit.
  assert (Hfile : files (worldOf (ensurePin config session html env w)) !! STATE_FILE
                  = Some (pinRecordText session messageId)).
  { rewrite ensurePin_run, Hpin, (createPinRun_sent _ _ _ _ _ _ _ Hsend Hid).
    cbn [worldOf fst snd files set_files]. apply lookup_insert_eq. }
  destruct (hasPinFor_after_create session other messageId _ Hfile Hparse Htruthy Hchat)
    as (Hstored & Hhas).
  rewrite (ensurePin_run config other), Hhas. unfold editAnswer.
  rewrite Hstored, Hedit. reflexivity.
Qed.

(** *** The usage extractor *)

Lemma usageOfLine_figures line u :
  usageOfLine line = Ok (Some u) ->
  truthyOrZero (input u) /\ truthyOrZero (output u) /\ truthyOrZero (cacheRead u).
Proof.
  unfold usageOfLine. destruct (JSON_parse line) as [entry|]; [|discriminate].
  destruct (getProp entry "message") as [message|e]; [|discriminate].
  destruct (strict_eq _ _ && truthy _); [|discriminate].
  intros [= <-]. cbn [input output cacheRead]. repeat split; apply js_or_cases.
Qed.

Lemma scanLines_figures lines n u :
  scanLines lines n = Some u ->
  truthyOrZero (input u) /\ truthyOrZero (output u) /\ truthyOrZero (cacheRead u).
Proof.
  induction n as [|i IH]; cbn [scanLines]; [discriminate|].
  destruct (usageOfLine (nth i lines "")) as [[u'|]|e] eqn:Hl; try exact IH.
  intros [= <-]. apply (usageOfLine_figures _ _ Hl).
Qed.

(** X10: each figure of a usage that [parseLastUsage] returns is either a
    truthy value of the log or the number 0: a figure that is missing,
    [null], zero or empty reads as 0. A call that returns a usage has
    changed nothing, written nothing and asked nothing of a service. *)
Theorem parseLastUsage_fills_figures sessionFile env w u :
  resultOf (parseLastUsage sessionFile env w) = Ok (Some u) ->
  truthyOrZero (input u) /\ truthyOrZero (output u) /\ truthyOrZero (cacheRead u)
  /\ worldOf (parseLastUsage sessionFile env w) = w
  /\ writes (traceOf (parseLastUsage sessionFile env w)) = 0%nat
  /\ requests (traceOf (parseLastUsage sessionFile env w)) = 0%nat.
Proof.
  rewrite parseLastUsage_run. cbn [resultOf worldOf traceOf fst snd].
  intros [= Hu]. unfold usageIn in Hu. unfold usageReads.
  destruct sessionFile; try discriminate.
  destruct (files w !! s) as [raw|]; [|discriminate].
  destruct (scanLines_figures _ _ _ Hu) as (Hi & Ho & Hc).
  repeat split; assumption.
Qed.

(** *** The update cycle *)

Lemma usageReads_counts (w : @World number) sessionFile method :
  calls method (usageReads w sessionFile) = 0%nat
  /\ writes (usageReads w sessionFile) = 0%nat
  /\ requests (usageReads w sessionFile) = 0%nat.
Proof.
  unfold usageReads. destruct sessionFile; try (repeat split; reflexivity).
  destruct (files w !! s); repeat split; reflexivity.
Qed.

Lemma refreshBalance_counts config env w method :
  let t := snd (refreshBalance config env w) in
  calls method t = 0%nat /\ writes t = 0%nat /\ requests t = 1%nat.
Proof.
  unfold refreshBalance, balanceRequest, balanceWarning.
  destruct (balanceAnswer _); cbn; repeat split; reflexivity.
Qed.

(** X11: one invocation of [runUpdate] makes at most four requests: at
    most one [sendMessage], one [editMessageText] and one [pinChatMessage],
    beside the balance query; and it writes at most one file. *)
Theorem runUpdate_call_budget config session env w :
  let t := traceOf (runUpdate config session env w) in
  (sends t <= 1)%nat /\ (calls "editMessageText" t <= 1)%nat /\
  (calls "pinChatMessage" t <= 1)%nat /\ (writes t <= 1)%nat /\
  (requests t <= 4)%nat.
Proof.
  cbn zeta. rewrite runUpdate_run.
  destruct (withinCooldown _ _ _); [cbn; repeat split; lia|].
  set (w1 := set_lastUpdateTime (Date_now env) w). unfold passRun.
  pose proof (refreshBalance_counts config env w1) as Hb. cbn zeta in Hb.
  destruct (refreshBalance config env w1) as [[stale w2] tb]. cbn [snd] in Hb.
  pose proof (fun m => proj1 (usageReads_counts w1 (sessionFile session) m)) as Hu1.
  pose proof (proj1 (proj2 (usageReads_counts w1 (sessionFile session) "x"))) as Hu2.
  pose proof (proj2 (proj2 (usageReads_counts w1 (sessionFile session) "x"))) as Hu3.
  pose proof (fun m => proj1 (Hb m)) as Hb1.
  pose proof (proj1 (proj2 (Hb "x"))) as Hb2.
  pose proof (proj2 (proj2 (Hb "x"))) as Hb3.
  destruct (formatted _ _ _ _ _) as [html|e]; cbn [traceOf snd].
  - pose proof (ensurePin_bounds config session html env w2) as He. cbn zeta in He.
    rewrite !sends_app, !calls_app, !writes_app, !requests_app.
    change (@sends number) with (@calls number "sendMessage") in *.
    rewrite !Hu1, !Hb1, Hu2, Hu3, Hb2, Hb3.
    cbn [Nat.add]. destruct He as (? & ? & ? & ? & ?). repeat split; lia.
  - rewrite !sends_app, !calls_app, !writes_app, !requests_app.
    change (@sends number) with (@calls number "sendMessage") in *.
    rewrite !Hu1, !Hb1, Hu2, Hu3, Hb2, Hb3.
    cbn. repeat split; lia.
Qed.

(** X12: an invocation that passes the gate and gets a balance caches it
    and has advanced [lastUpdateTime] to its start, whether or not the
    formatting or the publishing after it fails. *)
Theorem runUpdate_caches_fresh_balance config session env w b :
  withinCooldown config (Date_now env) (lastUpdateTime w) = false ->
  balanceAnswer (fetch env (balanceRequest config)) = Ok b ->
  cachedBalance (worldOf (runUpdate config session env w)) = Some b
  /\ lastUpdateTime (worldOf (runUpdate config session env w)) = Date_now env.
Proof.
  intros Hgate Hb. rewrite runUpdate_run, Hgate.
  unfold passRun, refreshBalance. rewrite Hb.
  destruct (formatted _ _ _ _ _) as [html|e]; cbn [worldOf fst snd];
    [|split; reflexivity].
  destruct (ensurePin_frame config session html env
              (set_cachedBalance (Some b) (set_lastUpdateTime (Date_now env) w)))
    as (Hl & Hc).
  rewrite Hl, Hc. split; reflexivity.
Qed.

(** X13: when the balance service answers with a balance whose figures are
    not all numbers (the figure printed first, or the daily usage), the
    invocation throws before it publishes: no Telegram call, no write; and
    the balance has been cached all the same. *)
Theorem runUpdate_malformed_balance_blocks_publishing config session env w b :
  withinCooldown config (Date_now env) (lastUpdateTime w) = false ->
  balanceAnswer (fetch env (balanceRequest config)) = Ok b ->
  (forall x, balanceValue b <> JNum x) \/ (forall d, usageDaily b <> JNum d) ->
  (exists e, resultOf (runUpdate config session env w) = Throw e)
  /\ (forall method, calls method (traceOf (runUpdate config session env w)) = 0%nat)
  /\ writes (traceOf (runUpdate config session env w)) = 0%nat
  /\ cachedBalance (worldOf (runUpdate config session env w)) = Some b.
Proof.
  intros Hgate Hb Hbad. rewrite runUpdate_run, Hgate.
  unfold passRun, refreshBalance. rewrite Hb.
  cbn [cachedBalance set_cachedBalance].
  destruct (formatted session _ (Some b) false env) as [html|e] eqn:Hf.
  - exfalso. unfold formatted, balanceParts in Hf. unfold balanceValue in Hbad.
    destruct (negb (nullish (limit b))).
    + destruct (limitRemaining b) eqn:Hv; cbn in Hf; try discriminate.
      destruct (usageDaily b) eqn:Hd; cbn in Hf; try discriminate.
      destruct Hbad as [H1|H1]; eapply H1; reflexivity.
    + destruct (usage b) eqn:Hv; cbn in Hf; try discriminate.
      destruct (usageDaily b) eqn:Hd; cbn in Hf; try discriminate.
      destruct Hbad as [H1|H1]; eapply H1; reflexivity.
  - cbn [resultOf worldOf traceOf fst snd]. split; [eexists; reflexivity|].
    split; [|split; [|reflexivity]].
    + intros method. rewrite calls_app.
      rewrite (proj1 (usageReads_counts _ _ method)). reflexivity.
    + rewrite writes_app. rewrite (proj1 (proj2 (usageReads_counts _ _ "x"))).
      reflexivity.
Qed.

(** X14: with a cooldown that is not a number, or one that is not positive
    while the clock has not gone back, no invocation is skipped: each one
    advances [lastUpdateTime] to its start and queries the balance. *)
Theorem runUpdate_without_cooldown_always_runs config session env w :
  cooldownMs config = None
  \/ (exists c, cooldownMs config = Some c /\ c <= 0
                /\ lastUpdateTime w <= Date_now env) ->
  lastUpdateTime (worldOf (runUpdate config session env w)) = Date_now env
  /\ In (EvFetch (balanceRequest config)) (traceOf (runUpdate config session env w)).
Proof.
  intros H.
  assert (Hgate : withinCooldown config (Date_now env) (lastUpdateTime w) = false).
  { unfold withinCooldown. destruct H as [->|(c & -> & Hc & Hl)]; [reflexivity|].
    apply Z.ltb_ge. lia. }
  split; [rewrite runUpdate_lastUpdateTime, Hgate; reflexivity|].
  rewrite runUpdate_run, Hgate. unfold passRun, refreshBalance.
  destruct (balanceAnswer _) as [b|e];
    destruct (formatted _ _ _ _ _) as [html|e']; cbn [traceOf snd];
    apply List.in_or_app; right; left; reflexivity.
Qed.

Lemma runUpdate_world_frame config session env w :
  let w' := worldOf (runUpdate config session env w) in
  delete STATE_FILE (files w') = delete STATE_FILE (files w)
  /\ processEnv w' = processEnv w
  /\ modelContextCache w' = modelContextCache w.
Proof.
  cbn zeta. rewrite runUpdate_run.
  destruct (withinCooldown _ _ _); [repeat split|].
  unfold passRun, refreshBalance.
  destruct (balanceAnswer _) as [b|e];
    (destruct (formatted _ _ _ _ _) as [html|e']; cbn [worldOf fst snd];
     [|repeat split]).
  - apply (ensurePin_world_frame config session html env
             (set_cachedBalance (Some b) (set_lastUpdateTime (Date_now env) w))).
  - apply (ensurePin_world_frame config session html env
             (set_lastUpdateTime (Date_now env) w)).
Qed.

(** X15: whatever the services answer and whatever fails, a sequence of
    invocations of [runUpdate] changes no file but the state file: the
    session logs, the registry and the configuration files are as before,
    and so are the environment and the model cache. *)
Theorem invokeAll_touches_only_the_state_file config ts w :
  let w' := fst (invokeAll config ts w) in
  delete STATE_FILE (files w') = delete STATE_FILE (files w)
  /\ processEnv w' = processEnv w
  /\ modelContextCache w' = modelContextCache w.
Proof.
  cbn zeta. revert w. induction ts as [|t ts IH]; intros w; [repeat split|].
  cbn [invokeAll]. unfold invoke.
  pose proof (runUpdate_world_frame config (trig_session t) (trig_env t) w) as Hf.
  cbn zeta in Hf.
  destruct (runUpdate config (trig_session t) (trig_env t) w) as [[r w1] t1].
  cbn [worldOf fst snd] in Hf. specialize (IH w1).
  destruct (invokeAll config ts w1) as [w2 t2]. cbn [fst] in *.
  destruct Hf as (Hf1 & Hf2 & Hf3). destruct IH as (H1 & H2 & H3).
  repeat split; congruence.
Qed.

(** X16: every request of an invocation of [runUpdate] is the balance
    query or carries the status it has formatted, from the usage of the log
    and the balance it ends with: an edit of the recorded message or a send
    with that text, or the pin of a message, each with the token of the
    configuration and to the chat of the session. Nothing else is asked of
    the outside. *)
Theorem runUpdate_requests_carry_the_formatted_status config session env w req :
  In (EvFetch req) (traceOf (runUpdate config session env w)) ->
  req = balanceRequest config
  \/ exists html stale,
       formatted session (usageIn w (sessionFile session))
         (cachedBalance (worldOf (runUpdate config session env w))) stale env = Ok html
       /\ (req = editRequest config session (storedId w) html
           \/ req = sendRequest config session html
           \/ exists messageId, req = pinRequest config session messageId).
Proof.
  rewrite runUpdate_run.
  destruct (withinCooldown _ _ _); [intros []|].
  unfold passRun.
  assert (Hu : forall e : @Event number,
            In e (usageReads (set_lastUpdateTime (Date_now env) w) (sessionFile session)) ->
            e <> EvFetch req).
  { intros e. unfold usageReads. destruct (sessionFile session); try (intros []).
    destruct (files _ !! s); cbn; intuition (subst; discriminate). }
  unfold refreshBalance.
  destruct (balanceAnswer _) as [b|e].
  - destruct (formatted _ _ _ _ _) as [html|e'] eqn:Hf; cbn [traceOf worldOf fst snd].
    + intros Hin. apply List.in_app_or in Hin. destruct Hin as [Hin|Hin].
      { exfalso. exact (Hu _ Hin eq_refl). }
      destruct Hin as [[= <-]|Hin]; [left; reflexivity|].
      right. exists html, false. split.
      * rewrite (proj2 (ensurePin_frame _ _ _ _ _)). exact Hf.
      * apply (ensurePin_requests _ _ _ _ _ _ Hin).
    + intros Hin. apply List.in_app_or in Hin. destruct Hin as [Hin|Hin].
      { exfalso. exact (Hu _ Hin eq_refl). }
      destruct Hin as [[= <-]|[]]. left. reflexivity.
  - destruct (formatted _ _ _ _ _) as [html|e'] eqn:Hf; cbn [traceOf worldOf fst snd].
    + intros Hin. apply List.in_app_or in Hin. destruct Hin as [Hin|Hin].
      { exfalso. exact (Hu _ Hin eq_refl). }
      destruct Hin as [[= <-]|[Hin|Hin]]; [left; reflexivity|discriminate|].
      right. eexists html, _. split.
      * rewrite (proj2 (ensurePin_frame _ _ _ _ _)). exact Hf.
      * apply (ensurePin_requests _ _ _ _ _ _ Hin).
    + intros Hin. apply List.in_app_or in Hin. destruct Hin as [Hin|Hin].
      { exfalso. exact (Hu _ Hin eq_refl). }
      destruct Hin as [[= <-]|[Hin|[]]]; [left; reflexivity|discriminate].
Qed.

(** *** Session discovery, for every registry *)

(** X17: the pattern of the delivery target accepts exactly the strings
    ["telegram:"] followed by one or more decimal digits, and yields the
    digits; a negative identity or anything after the digits is refused. *)
Theorem matchTelegram_accepts_exactly_prefixed_digits to digits :
  matchTelegram to = Some digits <->
  to = "telegram:" +:+ digits /\ digits <> "" /\ JSString.all_digits digits = true.
Proof.
  split.
  - unfold matchTelegram, JSString.startsWith.
    destruct (String.prefix "telegram:" to) eqn:Hp; [|discriminate].
    apply prefix_drop in Hp. change (String.length "telegram:") with 9%nat in Hp.
    destruct (String.eqb_spec (JSString.drop 9 to) "") as [He|Hne]; [discriminate|].
    cbn [negb andb].
    destruct (JSString.all_digits (JSString.drop 9 to)) eqn:Hd; [|discriminate].
    intros [= <-]. auto.
  - intros (-> & Hne & Hd). apply matchTelegram_digits; assumption.
Qed.

Lemma discoverEntry_frame key entry env w :
  worldOf (discoverEntry key entry env w) = w
  /\ traceOf (discoverEntry key entry env w) = [].
Proof.
  destruct (nullish entry) eqn:Hn.
  { unfold discoverEntry, getProp. rewrite Hn. run. split; reflexivity. }
  rewrite (discoverEntry_run _ _ _ _ Hn).
  assert (Hfinish : forall o : option string,
    worldOf (match o with
             | Some c => if String.eqb c "" then (Throw chatIdError, w, [])
                         else (discovered w key entry c, w, [])
             | None => (Throw chatIdError, w, @nil (@Event number))
             end) = w
    /\ traceOf (match o with
             | Some c => if String.eqb c "" then (Throw chatIdError, w, [])
                         else (discovered w key entry c, w, [])
             | None => (Throw chatIdError, w, @nil (@Event number))
             end) = []).
  { intros [c|]; [destruct (String.eqb c "")|]; split; reflexivity. }
  destruct (falsyStr (chatOverride w) && truthy (deliveryTarget entry));
    [|apply Hfinish].
  destruct (deliveryTarget entry); try (split; reflexivity). apply Hfinish.
Qed.

Lemma discoverLoop_frame config entries env w :
  worldOf (discoverLoop config entries env w) = w
  /\ traceOf (discoverLoop config entries env w) = [].
Proof.
  induction entries as [|[k e] rest IH]; cbn [discoverLoop]; [split; reflexivity|].
  destruct (negb _); [exact IH|apply discoverEntry_frame].
Qed.

Lemma discovered_invariant w key entry c s :
  c <> "" ->
  discovered w key entry c = Ok s ->
  chatId s <> "" /\ truthy (sessionFile s) = true /\ truthy (model s) = true
  /\ (truthy (contextWindow s) = true \/ contextWindow s = JNull).
Proof.
  intros Hc. unfold discovered.
  destruct (truthy (prop entry "sessionFile")) eqn:Hsf; [|discriminate].
  intros [= <-]. unfold descriptor. cbn [chatId sessionFile model contextWindow].
  repeat split; [exact Hc|exact Hsf| |].
  - destruct (js_or_cases (prop entry "model") (JStr "unknown")) as [Hm| ->];
      [exact Hm|reflexivity].
  - apply js_or_cases.
Qed.

Lemma discoverEntry_invariant key entry env w s :
  resultOf (discoverEntry key entry env w) = Ok s ->
  chatId s <> "" /\ truthy (sessionFile s) = true /\ truthy (model s) = true
  /\ (truthy (contextWindow s) = true \/ contextWindow s = JNull).
Proof.
  destruct (nullish entry) eqn:Hn.
  { unfold discoverEntry, getProp. rewrite Hn. run. discriminate. }
  rewrite (discoverEntry_run _ _ _ _ Hn).
  assert (Hfinish : forall o : option string,
    resultOf (match o with
             | Some c => if String.eqb c "" then (Throw chatIdError, w, [])
                         else (discovered w key entry c, w, [])
             | None => (Throw chatIdError, w, @nil (@Event number))
             end) = Ok s ->
    chatId s <> "" /\ truthy (sessionFile s) = true /\ truthy (model s) = true
    /\ (truthy (contextWindow s) = true \/ contextWindow s = JNull)).
  { intros [c|]; [|discriminate].
    destruct (String.eqb_spec c ""); [discriminate|].
    cbn [resultOf fst]. apply discovered_invariant. assumption. }
  destruct (falsyStr (chatOverride w) && truthy (deliveryTarget entry));
    [|apply Hfinish].
  destruct (deliveryTarget entry); try discriminate. apply Hfinish.
Qed.

Lemma discoverLoop_no_match config entries env w :
  matchingEntry config entries = None ->
  discoverLoop config entries env w =
  (Throw (Error ("No session found matching agent:" +:+ agentId config +:+ ":*")), w, []).
Proof.
  induction entries as [|[k e] rest IH]; cbn [matchingEntry discoverLoop]; [reflexivity|].
  destruct (JSString.startsWith _ k); cbn [negb]; [discriminate|exact IH].
Qed.

(** X18: whatever the registry file holds and whether discovery returns or
    throws, [discoverSession] does one thing to the outside, the read of the
    registry file, and changes nothing. *)
Theorem discoverSession_only_reads_the_registry config env w :
  worldOf (discoverSession config env w) = w
  /\ traceOf (discoverSession config env w) = [EvRead (sessionsFile config)].
Proof.
  unfold discoverSession. run.
  destruct (files w !! sessionsFile config) as [raw|]; run; [|split; reflexivity].
  unfold JSON_parseM. destruct (JSON_parse raw) as [sessions|]; run; [|split; reflexivity].
  destruct (Object_entries sessions) as [entries|e]; run; [|split; reflexivity].
  destruct (discoverLoop_frame config entries env w) as (Hw & Ht).
  destruct (discoverLoop config entries env w) as [[r w'] t'].
  cbn [worldOf traceOf fst snd] in *. subst. split; reflexivity.
Qed.

(** X19: a descriptor that [discoverSession] returns can be used as it is:
    its chat identity is not empty, its log path and its model are truthy
    (the model is ["unknown"] when the entry names none), and its context
    window is either truthy or [null], never another falsy value. *)
Theorem discoverSession_descriptor_is_usable config env w s :
  resultOf (discoverSession config env w) = Ok s ->
  chatId s <> "" /\ truthy (sessionFile s) = true /\ truthy (model s) = true
  /\ (truthy (contextWindow s) = true \/ contextWindow s = JNull).
Proof.
  unfold discoverSession. run.
  destruct (files w !! sessionsFile config) as [raw|]; run; [|discriminate].
  unfold JSON_parseM. destruct (JSON_parse raw) as [sessions|]; run; [|discriminate].
  destruct (Object_entries sessions) as [entries|e]; run; [|discriminate].
  assert (Hloop : resultOf (discoverLoop config entries env w) = Ok s ->
    chatId s <> "" /\ truthy (sessionFile s) = true /\ truthy (model s) = true
    /\ (truthy (contextWindow s) = true \/ contextWindow s = JNull)).
  { induction entries as [|[k e] rest IH]; cbn [discoverLoop]; [discriminate|].
    destruct (negb _); [exact IH|apply discoverEntry_invariant]. }
  destruct (discoverLoop config entries env w) as [[r w'] t'].
  cbn [resultOf fst] in *. exact Hloop.
Qed.

(** X20: when the registry parses but none of its keys starts with
    [agent:<id>:], discovery throws the error that names the agent, having
    read the registry and changed nothing. *)
Theorem discoverSession_fails_without_matching_entry
    config env w raw sessions entries :
  files w !! sessionsFile config = Some raw ->
  JSON_parse raw = Some sessions ->
  Object_entries sessions = Ok entries ->
  matchingEntry config entries = None ->
  discoverSession config env w =
    (Throw (Error ("No session found matching agent:" +:+ agentId config +:+ ":*")),
     w, [EvRead (sessionsFile config)]).
Proof.
  intros Hfile Hparse Hentries Hnone. unfold discoverSession. run.
  rewrite Hfile. run. unfold JSON_parseM. rewrite Hparse. run.
  rewrite Hentries. run. rewrite (discoverLoop_no_match _ _ _ _ Hnone).
  reflexivity.
Qed.

(** *** The model cache and the context window *)

Lemma Map_has_set (cache : list (value * value)) k v :
  strict_eq k k = true -> Map_has (Map_set cache k v) k = true.
Proof.
  intros Hk. induction cache as [|[k' v'] rest IH]; cbn [Map_set Map_has].
  - rewrite Hk. reflexivity.
  - destruct (strict_eq k' k) eqn:He; cbn [Map_has]; rewrite He; [reflexivity|exact IH].
Qed.

Lemma Map_has_set_mono (cache : list (value * value)) k v k0 :
  Map_has cache k0 = true -> Map_has (Map_set cache k v) k0 = true.
Proof.
  induction cache as [|[k' v'] rest IH]; cbn [Map_set Map_has]; [discriminate|].
  destruct (strict_eq k' k); cbn [Map_has]; [trivial|].
  destruct (strict_eq k' k0); cbn [orb]; [reflexivity|exact IH].
Qed.

Lemma cacheTruthy_set (cache : list (value * value)) k v :
  cacheTruthy cache -> truthy v = true -> cacheTruthy (Map_set cache k v).
Proof.
  unfold cacheTruthy. intros Hc Hv.
  induction Hc as [|[k' v'] rest Hkv Hrest IH]; cbn [Map_set].
  - constructor; [exact Hv|constructor].
  - destruct (strict_eq k' k); constructor;
      [exact Hv|exact Hrest|exact Hkv|exact IH].
Qed.

Lemma Map_get_truthy (cache : list (value * value)) k :
  cacheTruthy cache -> Map_has cache k = true -> truthy (Map_get cache k) = true.
Proof.
  unfold cacheTruthy. intros Hc.
  induction Hc as [|[k' v'] rest Hkv _ IH]; cbn [Map_has Map_get]; [discriminate|].
  destruct (strict_eq k' k); cbn [orb]; [intros _; exact Hkv|exact IH].
Qed.

(** The loop over the listing: it changes the cache only, asks nothing of
    the outside, keeps what is cached and its truthiness, and when it runs
    to its end every listed model with a string id and a truthy context
    length is in the cache. *)
Lemma cacheModelsLoop_spec items env w :
  exists r cache',
    cacheModelsLoop items env w = (r, set_modelContextCache cache' w, [])
    /\ (cacheTruthy (modelContextCache w) -> cacheTruthy cache')
    /\ (forall k, Map_has (modelContextCache w) k = true -> Map_has cache' k = true)
    /\ (forall m id, r = Ok tt -> In m items -> prop m "id" = JStr id ->
          truthy (prop m "context_length") = true -> Map_has cache' (JStr id) = true).
Proof.
  revert w. induction items as [|m rest IH]; intros w; cbn [cacheModelsLoop].
  - exists (Ok tt), (modelContextCache w). destruct w. run.
    split; [reflexivity|]. split; [trivial|]. split; [trivial|]. intros m id _ [].
  - unfold getProp. destruct (nullish m) eqn:Hn; run.
    { exists (Throw (TypeError ("Cannot read properties of null or undefined (reading '"
                 +:+ "context_length" +:+ "')"))), (modelContextCache w).
      destruct w. split; [reflexivity|]. split; [trivial|]. split; [trivial|].
      intros ? ? [=]. }
    destruct (truthy (prop m "context_length")) eqn:Hlen; run.
    + set (c1 := Map_set (modelContextCache w) (prop m "id") (prop m "context_length")).
      destruct (IH (set_modelContextCache c1 w)) as (r & c2 & Hrun & Htr & Hmono & Hin).
      rewrite Hrun. exists r, c2. split; [reflexivity|].
      cbn [modelContextCache set_modelContextCache] in Htr, Hmono.
      split; [|split].
      * intros Hc. apply Htr. apply cacheTruthy_set; assumption.
      * intros k Hk. apply Hmono. apply Map_has_set_mono. exact Hk.
      * intros m' id Hr [<-|Hm'] Hid Hl.
        -- apply Hmono. unfold c1. rewrite Hid. apply Map_has_set.
           cbn. apply String.eqb_refl.
        -- apply (Hin m' id Hr Hm' Hid Hl).
    + destruct (IH w) as (r & c2 & Hrun & Htr & Hmono & Hin).
      rewrite Hrun. exists r, c2. split; [reflexivity|].
      split; [exact Htr|]. split; [exact Hmono|].
      intros m' id Hr [<-|Hm'] Hid Hl; [congruence|].
      apply (Hin m' id Hr Hm' Hid Hl).
Qed.

Lemma cacheModels_spec data env w :
  exists r cache',
    cacheModels data env w = (r, set_modelContextCache cache' w, [])
    /\ (cacheTruthy (modelContextCache w) -> cacheTruthy cache')
    /\ (forall k, Map_has (modelContextCache w) k = true -> Map_has cache' k = true)
    /\ (forall items m id, data = JArr items -> r = Ok tt -> In m items ->
          prop m "id" = JStr id ->
          truthy (prop m "context_length") = true -> Map_has cache' (JStr id) = true).
Proof.
  destruct data as [| |b|n|s|items|props];
    try (exists (Throw (TypeError "data is not iterable")), (modelContextCache w);
         destruct w; split; [reflexivity|];
         split; [trivial|]; split; [trivial|]; intros ? ? ? [=]).
  - exists (Ok tt), (modelContextCache w). destruct w.
    split; [reflexivity|]. split; [trivial|]. split; [trivial|]. intros ? ? ? [=].
  - cbn [cacheModels].
    destruct (cacheModelsLoop_spec items env w) as (r & c' & Hrun & Htr & Hmono & Hin).
    exists r, c'. split; [exact Hrun|]. split; [exact Htr|]. split; [exact Hmono|].
    intros items' m id [= <-]. apply Hin.
Qed.

(** [fetchContextWindow], from the answer to its request. *)
Lemma fetchContextWindow_run apiKey modelId env w :
  fetchContextWindow apiKey modelId env w =
  if Map_has (modelContextCache w) modelId
  then (Ok (Map_get (modelContextCache w) modelId), w, [])
  else
    match fetch env (OpenRouterModels apiKey) with
    | FetchRejects e => (Throw e, w, [EvFetch (OpenRouterModels apiKey)])
    | FetchResolves res =>
        if negb (res_ok res) then
          (Throw (Error ("OpenRouter /api/v1/models returned "
                         +:+ Number_toString (res_status res))),
           w, [EvFetch (OpenRouterModels apiKey)])
        else
          match res_json res with
          | Throw e => (Throw e, w, [EvFetch (OpenRouterModels apiKey)])
          | Ok body =>
              match getProp body "data" with
              | Throw e => (Throw e, w, [EvFetch (OpenRouterModels apiKey)])
              | Ok data =>
                  (match resultOf (cacheModels data env w) with
                   | Ok _ =>
                       Ok (js_or (Map_get (modelContextCache
                                             (worldOf (cacheModels data env w))) modelId)
                                 (JNum (num_of_Z DEFAULT_CONTEXT_WINDOW)))
                   | Throw e => Throw e
                   end,
                   worldOf (cacheModels data env w),
                   [EvFetch (OpenRouterModels apiKey)])
              end
          end
    end.
Proof.
  unfold fetchContextWindow, fetchM. run.
  destruct (Map_has _ _); run; [reflexivity|].
  destruct (fetch env _) as [e|res]; run; [reflexivity|].
  destruct (res_ok res); cbn [negb]; run; [|reflexivity].
  destruct (res_json res) as [body|e]; run; [|reflexivity].
  destruct (getProp body "data") as [data|e]; run; [|reflexivity].
  destruct (cacheModels_spec data env w) as (r & c' & Hrun & _).
  rewrite Hrun. destruct r as [[]|e]; run; reflexivity.
Qed.

(** [fetchContextWindow] keeps every cached window truthy, and what it
    returns is truthy. *)
Lemma fetchContextWindow_truthy apiKey modelId env w :
  cacheTruthy (modelContextCache w) ->
  num_falsy (num_of_Z DEFAULT_CONTEXT_WINDOW) = false ->
  cacheTruthy (modelContextCache (worldOf (fetchContextWindow apiKey modelId env w)))
  /\ forall v, resultOf (fetchContextWindow apiKey modelId env w) = Ok v ->
               truthy v = true.
Proof.
  intros Hc Hdef. rewrite fetchContextWindow_run.
  destruct (Map_has (modelContextCache w) modelId) eqn:Hhas.
  { split; [exact Hc|]. intros v [= <-]. apply Map_get_truthy; assumption. }
  destruct (fetch env _) as [e|res]; [split; [exact Hc|discriminate]|].
  destruct (negb (res_ok res)); [split; [exact Hc|discriminate]|].
  destruct (res_json res) as [body|e]; [|split; [exact Hc|discriminate]].
  destruct (getProp body "data") as [data|e]; [|split; [exact Hc|discriminate]].
  destruct (cacheModels_spec data env w) as (r & c' & Hrun & Htr & _).
  rewrite Hrun. cbn [resultOf worldOf fst snd modelContextCache set_modelContextCache].
  split; [apply Htr; exact Hc|].
  destruct r as [[]|e]; [|discriminate]. intros v [= <-].
  destruct (js_or_cases (Map_get c' modelId) (JNum (num_of_Z DEFAULT_CONTEXT_WINDOW)))
    as [Ht| ->]; [exact Ht|].
  cbn [truthy]. rewrite Hdef. reflexivity.
Qed.

(** X21: one listing serves the later lookups: when [fetchContextWindow]
    has fetched the list of models and returned, every listed model with a
    string id and a truthy context length is in the cache, and a later
    [fetchContextWindow] for it returns the cached window without a request
    and without a change, whatever the key and whatever the outside. *)
Theorem fetchContextWindow_serves_listed_models_from_cache
    apiKey modelId env w res body items v m id :
  Map_has (modelContextCache w) modelId = false ->
  fetch env (OpenRouterModels apiKey) = FetchResolves res ->
  res_json res = Ok body ->
  prop body "data" = JArr items ->
  resultOf (fetchContextWindow apiKey modelId env w) = Ok v ->
  In m items ->
  prop m "id" = JStr id ->
  truthy (prop m "context_length") = true ->
  forall apiKey' env',
    fetchContextWindow apiKey' (JStr id) env'
      (worldOf (fetchContextWindow apiKey modelId env w))
    = (Ok (Map_get (modelContextCache
                      (worldOf (fetchContextWindow apiKey modelId env w))) (JStr id)),
       worldOf (fetchContextWindow apiKey modelId env w), []).
Proof.
  intros Hmiss Hfetch Hjson Hdata Hok Hin Hid Hlen apiKey' env'.
  rewrite (fetchContextWindow_run apiKey' (JStr id)).
  rewrite fetchContextWindow_run, Hmiss, Hfetch, Hjson in Hok |- *.
  destruct (negb (res_ok res)); [discriminate|].
  unfold getProp in Hok |- *. destruct (nullish body); [discriminate|].
  rewrite Hdata in Hok |- *.
  destruct (cacheModels_spec (JArr items) env w) as (r & c' & Hrun & _ & _ & Hall).
  rewrite Hrun in Hok |- *. cbn [resultOf worldOf fst snd] in Hok |- *.
  destruct r as [[]|e]; [|discriminate].
  cbn [modelContextCache set_modelContextCache].
  rewrite (Hall items m id eq_refl eq_refl Hin Hid Hlen). reflexivity.
Qed.

(** X22: [fetchContextWindow] changes nothing but the model cache, from
    which it removes no model; it makes no request when the model is
    cached, and otherwise exactly one, for the list of models. *)
Theorem fetchContextWindow_touches_only_the_cache apiKey modelId env w :
  let w' := worldOf (fetchContextWindow apiKey modelId env w) in
  let t := traceOf (fetchContextWindow apiKey modelId env w) in
  files w' = files w /\ processEnv w' = processEnv w
  /\ lastUpdateTime w' = lastUpdateTime w /\ cachedBalance w' = cachedBalance w
  /\ (forall k, Map_has (modelContextCache w) k = true ->
                Map_has (modelContextCache w') k = true)
  /\ (t = if Map_has (modelContextCache w) modelId then []
          else [EvFetch (OpenRouterModels apiKey)]).
Proof.
  cbn zeta. rewrite fetchContextWindow_run.
  destruct (Map_has (modelContextCache w) modelId); [repeat split; trivial|].
  destruct (fetch env _) as [e|res]; [repeat split; trivial|].
  destruct (negb (res_ok res)); [repeat split; trivial|].
  destruct (res_json res) as [body|e]; [|repeat split; trivial].
  destruct (getProp body "data") as [data|e]; [|repeat split; trivial].
  destruct (cacheModels_spec data env w) as (r & c' & Hrun & _ & Hmono & _).
  rewrite Hrun. cbn [resultOf worldOf traceOf fst snd]. repeat split. exact Hmono.
Qed.

(** X23: the resolution of the context window of a new session never
    throws and always leaves the session with a truthy context window,
    whatever the model service answers: the window the session has, the one
    of the cache or of the listing, or the default. It keeps every cached
    window truthy, and it leaves a session that has a window, the world and
    the outside alone. This holds from a cache whose windows are truthy, as
    the empty one is, on a runtime where the default is. *)
Theorem resolveContextWindow_always_yields_a_window config session env w :
  cacheTruthy (modelContextCache w) ->
  num_falsy (num_of_Z DEFAULT_CONTEXT_WINDOW) = false ->
  (exists window,
     resultOf (resolveContextWindow config session env w)
       = Ok (with_contextWindow window session)
     /\ truthy window = true)
  /\ cacheTruthy (modelContextCache (worldOf (resolveContextWindow config session env w)))
  /\ (truthy (contextWindow session) = true ->
      resolveContextWindow config session env w = (Ok session, w, [])).
Proof.
  intros Hc Hdef. unfold resolveContextWindow.
  destruct (truthy (contextWindow session)) eqn:Hw; cbn [negb].
  { run. split; [|split; [exact Hc|reflexivity]].
    exists (contextWindow session). destruct session. split; [reflexivity|exact Hw]. }
  rewrite tryCatch_run, bind_run.
  destruct (fetchContextWindow_truthy
              (openrouterKey config) (model session) env w Hc Hdef) as (Hc' & Hv).
  destruct (fetchContextWindow _ _ env w) as [[[v|e] w1] t1]; run;
    cbn [worldOf fst snd] in Hc'.
  - split; [|split; [exact Hc'|discriminate]].
    exists v. split; [reflexivity|]. apply Hv. reflexivity.
  - split; [|split; [exact Hc'|discriminate]].
    exists (JNum (num_of_Z DEFAULT_CONTEXT_WINDOW)). split; [reflexivity|].
    cbn [truthy]. rewrite Hdef. reflexivity.
Qed.

Lemma Map_get_not_has (cache : list (value * value)) k :
  Map_has cache k = false -> Map_get cache k = JUndefined.
Proof.
  induction cache as [|[k' v'] rest IH]; cbn [Map_has Map_get]; [reflexivity|].
  destruct (strict_eq k' k); cbn [orb]; [discriminate|exact IH].
Qed.

Lemma discoverEntry_descriptor key entry env w s :
  resultOf (discoverEntry key entry env w) = Ok s ->
  exists c, s = descriptor w entry c.
Proof.
  destruct (nullish entry) eqn:Hn.
  { unfold discoverEntry, getProp. rewrite Hn. run. discriminate. }
  rewrite (discoverEntry_run _ _ _ _ Hn).
  assert (Hfinish : forall o : option string,
    resultOf (match o with
             | Some c => if String.eqb c "" then (Throw chatIdError, w, [])
                         else (discovered w key entry c, w, [])
             | None => (Throw chatIdError, w, @nil (@Event number))
             end) = Ok s ->
    exists c, s = descriptor w entry c).
  { intros [c|]; [|discriminate].
    destruct (String.eqb c ""); [discriminate|].
    cbn [resultOf fst]. unfold discovered.
    destruct (truthy (prop entry "sessionFile")); [|discriminate].
    intros [= <-]. exists c. reflexivity. }
  destruct (falsyStr (chatOverride w) && truthy (deliveryTarget entry));
    [|apply Hfinish].
  destruct (deliveryTarget entry); try discriminate. apply Hfinish.
Qed.

(** X24: discovery takes the context window from the model cache: with no
    override in the environment, the context window of a descriptor that
    [discoverSession] returns is the cached window of its model when the
    cache has the model, and [null] otherwise, the case that is left to
    the resolution. This holds for a cache whose windows are truthy, on a
    runtime where [parseInt("0", 10)] is falsy. *)
Theorem discoverSession_takes_the_window_from_the_cache config env w s :
  falsyStr (processEnv w !! "STATUS_PIN_CONTEXT_WINDOW") = true ->
  num_falsy (parseInt10 "0") = true ->
  cacheTruthy (modelContextCache w) ->
  resultOf (discoverSession config env w) = Ok s ->
  contextWindow s =
    if Map_has (modelContextCache w) (model s)
    then Map_get (modelContextCache w) (model s) else JNull.
Proof.
  intros Henv Hzero Hc Hok.
  assert (Hd : exists entry c, s = descriptor w entry c).
  { revert Hok. unfold discoverSession. run.
    destruct (files w !! sessionsFile config) as [raw|]; run; [|discriminate].
    unfold JSON_parseM. destruct (JSON_parse raw) as [sessions|]; run; [|discriminate].
    destruct (Object_entries sessions) as [entries|e]; run; [|discriminate].
    assert (Hloop : resultOf (discoverLoop config entries env w) = Ok s ->
                    exists entry c, s = descriptor w entry c).
    { induction entries as [|[k e] rest IH]; cbn [discoverLoop]; [discriminate|].
      destruct (negb _); [exact IH|].
      intros H. exists e. apply (discoverEntry_descriptor _ _ _ _ _ H). }
    destruct (discoverLoop config entries env w) as [[r w'] t'].
    cbn [resultOf fst] in *. exact Hloop. }
  destruct Hd as (entry & c & ->). unfold descriptor.
  cbn [contextWindow model]. rewrite Henv.
  set (m := js_or (prop entry "model") (JStr "unknown")).
  unfold js_or at 2. cbn [truthy]. rewrite Hzero. cbn [negb].
  destruct (Map_has (modelContextCache w) m) eqn:Hhas.
  - unfold js_or. rewrite (Map_get_truthy _ _ Hc Hhas). reflexivity.
  - rewrite (Map_get_not_has _ _ Hhas). reflexivity.
Qed.

(** *** Configuration *)

Lemma tokenFromFile_run homedir botToken env w :
  tokenFromFile (openclawHome homedir w) botToken env w =
  (Ok (default botToken (fileToken homedir w)), w, [EvRead (configFile homedir w)]).
Proof.
  unfold tokenFromFile, fileToken. fold (configFile homedir w). run.
  destruct (files w !! configFile homedir w) as [cfgRaw|]; run; [|reflexivity].
  unfold JSON_parseM. destruct (JSON_parse _) as [cfg|]; run; [|reflexivity].
  unfold getProp. destruct (nullish cfg); run; reflexivity.
Qed.

Lemma keyFromProfiles_run homedir openrouterKey env w :
  keyFromProfiles (openclawHome homedir w) (agentOf w) openrouterKey env w =
  (Ok (match fileProfile homedir w with
       | Some p => prop p "key"
       | None => openrouterKey
       end), w, [EvRead (authFile homedir w)]).
Proof.
  unfold keyFromProfiles, fileProfile. fold (authFile homedir w). run.
  destruct (files w !! authFile homedir w) as [raw|]; run; [|reflexivity].
  unfold JSON_parseM. destruct (JSON_parse raw) as [authData|]; run; [|reflexivity].
  unfold getProp. destruct (nullish authData); run; [reflexivity|].
  destruct (Object_values _) as [profiles|e]; run; [|reflexivity].
  destruct (findOpenrouter profiles) as [[p|]|e]; run; reflexivity.
Qed.

(** [resolveConfig], from the credentials it settles on. *)
Lemma resolveConfig_run homedir event env w :
  resolveConfig homedir event env w =
  (if negb (truthy (resolvedToken homedir event w)) then Throw tokenError
   else if negb (truthy (resolvedKey homedir w)) then Throw keyError
   else Ok {| r_agentId := agentOf w;
              r_cooldownMs :=
                parseInt10 (envOr (processEnv w !! "STATUS_PIN_COOLDOWN_MS") "3000");
              r_sessionsFile :=
                Path.join [openclawHome homedir w; "agents"; agentOf w;
                           "sessions"; "sessions.json"];
              r_botToken := resolvedToken homedir event w;
              r_openrouterKey := resolvedKey homedir w |},
   w, configReads homedir event w).
Proof.
  unfold resolveConfig. run.
  fold (openclawHome homedir w). fold (agentOf w). fold (envToken w).
  fold (eventToken event).
  unfold resolvedToken, resolvedKey, configReads.
  destruct (truthy (envToken w)) eqn:Het; cbn [negb andb orb].
  - rewrite Het. cbn [negb]. run. fold (envKey w).
    destruct (truthy (envKey w)) eqn:Hek; cbn [negb]; run.
    + rewrite Het, Hek. reflexivity.
    + rewrite keyFromProfiles_run. run. rewrite Het. cbn [negb].
      destruct (fileProfile homedir w) as [p|]; [|rewrite Hek; reflexivity].
      destruct (truthy (prop p "key")); reflexivity.
  - destruct (truthy (eventToken event)) eqn:Hev; cbn [negb].
    + rewrite Hev. cbn [negb]. run. fold (envKey w).
      destruct (truthy (envKey w)) eqn:Hek; cbn [negb]; run.
      * rewrite Hev, Hek. reflexivity.
      * rewrite keyFromProfiles_run. run. rewrite Hev. cbn [negb].
        destruct (fileProfile homedir w) as [p|]; [|rewrite Hek; reflexivity].
        destruct (truthy (prop p "key")); reflexivity.
    + rewrite Het. cbn [negb]. rewrite tokenFromFile_run. run. fold (envKey w).
      destruct (truthy (default (envToken w) (fileToken homedir w))) eqn:Hft;
        cbn [negb].
      * destruct (truthy (envKey w)) eqn:Hek; cbn [negb]; run.
        -- rewrite ?Hft, ?Hek. reflexivity.
        -- rewrite keyFromProfiles_run. run. rewrite ?Hft. cbn [negb].
           destruct (fileProfile homedir w) as [p|]; [|rewrite ?Hek; reflexivity].
           destruct (truthy (prop p "key")); reflexivity.
      * destruct (truthy (envKey w)) eqn:Hek; cbn [negb]; run.
        -- rewrite ?Hft. reflexivity.
        -- rewrite keyFromProfiles_run. run. rewrite ?Hft. reflexivity.
Qed.

Lemma envOr_nonempty v fallback : fallback <> "" -> envOr v fallback <> "".
Proof.
  intros Hf. unfold envOr, falsyStr. destruct v as [s|]; [|exact Hf].
  destruct (String.eqb_spec s ""); [exact Hf|assumption].
Qed.

Lemma lineComments_plain s :
  JSString.includes "//" s = false -> lineComments false s = s.
Proof.
  induction s as [|c r IH]; [reflexivity|].
  intros H. apply includes_cons in H. destruct H as (Hp & Hr).
  cbn [lineComments]. unfold JSString.startsWith. rewrite Hp, (IH Hr). reflexivity.
Qed.

Lemma blockComments_plain s :
  JSString.includes "/*" s = false -> blockComments false s = s.
Proof.
  induction s as [|c r IH]; [reflexivity|].
  intros H. apply includes_cons in H. destruct H as (Hp & Hr).
  cbn [blockComments]. unfold JSString.startsWith. rewrite Hp, (IH Hr). reflexivity.
Qed.

Lemma findOpenrouter_found profiles p :
  findOpenrouter profiles = Ok (Some p) ->
  In p profiles /\ prop p "provider" = JStr "openrouter" /\ truthy (prop p "key") = true.
Proof.
  induction profiles as [|q rest IH]; cbn [findOpenrouter]; [discriminate|].
  unfold getProp. destruct (nullish q); [discriminate|].
  destruct (strict_eq (prop q "provider") (JStr "openrouter")) eqn:Hprov; cbn [andb].
  - destruct (truthy (prop q "key")) eqn:Hkey.
    + intros [= <-]. apply strict_eq_str in Hprov.
      repeat split; [left; reflexivity|assumption..].
    + intros H. destruct (IH H) as (Hin & Hrest). split; [right; exact Hin|exact Hrest].
  - intros H. destruct (IH H) as (Hin & Hrest). split; [right; exact Hin|exact Hrest].
Qed.

(** X25: [resolveConfig] changes nothing, and reads a file only for the
    credential it lacks: the configuration file when neither the
    environment nor the event gives a token, then the auth profiles when
    the environment gives no key; nothing else is touched, whether it
    returns or throws. *)
Theorem resolveConfig_only_reads_and_only_what_it_lacks homedir event env w :
  worldOf (resolveConfig homedir event env w) = w
  /\ traceOf (resolveConfig homedir event env w) =
     (if truthy (envToken w) || truthy (eventToken event) then []
      else [EvRead (configFile homedir w)])
     ++ (if truthy (envKey w) then [] else [EvRead (authFile homedir w)]).
Proof. rewrite resolveConfig_run. split; reflexivity. Qed.

(** X26: [resolveConfig] either returns a configuration whose two
    credentials are truthy and whose agent is named, or throws one of its
    two errors, for the token or for the key: a missing or malformed file
    never makes it throw anything else. *)
Theorem resolveConfig_returns_credentials_or_names_the_missing_one
    homedir event env w :
  match resultOf (resolveConfig homedir event env w) with
  | Ok c => truthy (r_botToken c) = true /\ truthy (r_openrouterKey c) = true
            /\ r_agentId c <> ""
  | Throw e => e = tokenError \/ e = keyError
  end.
Proof.
  rewrite resolveConfig_run. cbn [resultOf fst].
  destruct (truthy (resolvedToken homedir event w)) eqn:Ht; cbn [negb];
    [|left; reflexivity].
  destruct (truthy (resolvedKey homedir w)) eqn:Hk; cbn [negb];
    [|right; reflexivity].
  cbn [r_botToken r_openrouterKey r_agentId]. repeat split; try assumption.
  apply envOr_nonempty. discriminate.
Qed.

(** X27: credentials of the environment win: with a non-empty token and a
    non-empty key in the environment, [resolveConfig] returns them without
    reading any file, whatever the event and the files hold. *)
Theorem resolveConfig_environment_wins homedir event env w token key :
  processEnv w !! "TELEGRAM_BOT_TOKEN" = Some token -> token <> "" ->
  processEnv w !! "OPENROUTER_API_KEY" = Some key -> key <> "" ->
  exists c,
    resolveConfig homedir event env w = (Ok c, w, [])
    /\ r_botToken c = JStr token /\ r_openrouterKey c = JStr key.
Proof.
  intros Ht Htne Hk Hkne. rewrite resolveConfig_run.
  assert (Het : truthy (envToken w) = true).
  { unfold envToken. rewrite Ht. cbn.
    destruct (String.eqb_spec token ""); [contradiction|reflexivity]. }
  assert (Hek : truthy (envKey w) = true).
  { unfold envKey. rewrite Hk. cbn.
    destruct (String.eqb_spec key ""); [contradiction|reflexivity]. }
  unfold configReads, resolvedToken, resolvedKey. rewrite Het, Hek. cbn [negb orb app].
  rewrite Het, Hek. cbn [negb]. eexists. split; [reflexivity|].
  cbn [r_botToken r_openrouterKey]. unfold envToken, envKey. rewrite Ht, Hk.
  split; reflexivity.
Qed.

(** X28: when neither the environment nor the event gives a token and the
    configuration file does not exist, [resolveConfig] throws the error of
    the token, whatever holds for the key, after it has tried the file. *)
Theorem resolveConfig_missing_token_is_reported_first homedir event env w :
  truthy (envToken w) = false ->
  truthy (eventToken event) = false ->
  files w !! configFile homedir w = None ->
  resultOf (resolveConfig homedir event env w) = Throw tokenError
  /\ In (EvRead (configFile homedir w)) (traceOf (resolveConfig homedir event env w)).
Proof.
  intros Het Hev Hfile. rewrite resolveConfig_run. cbn [resultOf traceOf fst snd].
  unfold resolvedToken, fileToken, configReads. rewrite Het, Hev, Hfile.
  cbn [default orb]. rewrite Het. cbn [negb]. split; [reflexivity|].
  left. reflexivity.
Qed.

(** X29: a configuration file without comments is parsed as it is: when
    neither the environment nor the event gives a token and the file
    contains neither [//] nor [/*], the token of a configuration that
    [resolveConfig] returns is [channels.telegram.botToken] of the parsed
    file. *)
Theorem resolveConfig_takes_token_from_comment_free_file
    homedir event env w cfgRaw cfg c :
  truthy (envToken w) = false ->
  truthy (eventToken event) = false ->
  files w !! configFile homedir w = Some cfgRaw ->
  JSString.includes "//" cfgRaw = false ->
  JSString.includes "/*" cfgRaw = false ->
  JSON_parse cfgRaw = Some cfg ->
  resultOf (resolveConfig homedir event env w) = Ok c ->
  r_botToken c = prop (prop (prop cfg "channels") "telegram") "botToken".
Proof.
  intros Het Hev Hfile Hline Hblock Hparse. rewrite resolveConfig_run.
  cbn [resultOf fst].
  assert (Htok : resolvedToken homedir event w =
                 if nullish cfg then envToken w
                 else optProp (optProp (prop cfg "channels") "telegram") "botToken").
  { unfold resolvedToken, fileToken.
    rewrite Het, Hev, Hfile, (lineComments_plain _ Hline),
      (blockComments_plain _ Hblock), Hparse.
    destruct (nullish cfg); reflexivity. }
  rewrite Htok.
  destruct (nullish cfg) eqn:Hn.
  { rewrite Het. cbn [negb]. discriminate. }
  destruct (truthy (optProp _ "botToken")) eqn:Ht; cbn [negb]; [|discriminate].
  destruct (truthy (resolvedKey homedir w)); cbn [negb]; [|discriminate].
  intros [= <-]. cbn [r_botToken].
  unfold optProp in *.
  destruct (nullish (prop cfg "channels")); [discriminate|].
  destruct (nullish (prop (prop cfg "channels") "telegram")); [discriminate|].
  reflexivity.
Qed.

(** X30: a key that does not come from the environment comes from a profile
    of the provider ["openrouter"]: when the environment gives no key and
    [resolveConfig] returns, the auth file exists and parses, and the key
    returned is the [key] of one of its profiles whose [provider] is
    ["openrouter"]. *)
Theorem resolveConfig_file_key_is_of_an_openrouter_profile homedir event env w c :
  truthy (envKey w) = false ->
  resultOf (resolveConfig homedir event env w) = Ok c ->
  exists raw authData profiles p,
    files w !! authFile homedir w = Some raw
    /\ JSON_parse raw = Some authData
    /\ Object_values (js_or (prop authData "profiles") authData) = Ok profiles
    /\ In p profiles
    /\ prop p "provider" = JStr "openrouter"
    /\ r_openrouterKey c = prop p "key".
Proof.
  intros Hek. rewrite resolveConfig_run. cbn [resultOf fst].
  destruct (truthy (resolvedToken homedir event w)); cbn [negb]; [|discriminate].
  destruct (truthy (resolvedKey homedir w)) eqn:Hk; cbn [negb]; [|discriminate].
  intros [= <-]. cbn [r_openrouterKey].
  unfold resolvedKey in *. rewrite Hek in *.
  unfold fileProfile in *.
  destruct (files w !! authFile homedir w) as [raw|] eqn:Hfile; [|congruence].
  destruct (JSON_parse raw) as [authData|] eqn:Hparse; [|congruence].
  destruct (nullish authData); [congruence|].
  destruct (Object_values _) as [profiles|e] eqn:Hvals; [|congruence].
  destruct (findOpenrouter profiles) as [[p|]|e] eqn:Hfind; try congruence.
  destruct (findOpenrouter_found _ _ Hfind) as (Hin & Hprov & _).
  exists raw, authData, profiles, p. repeat split; trivial.
Qed.

End Properties.

(** ** The properties at concrete inputs *)

Import RefRuntime Scenario.

Lemma tgError_refuses code description :
  description <> "" -> telegramRefuses (tgError code description) code description.
Proof.
  intros Hne. unfold telegramRefuses, tgError. do 2 eexists.
  split; [reflexivity|]. split; [reflexivity|].
  repeat split; try reflexivity; [|exact Hne].
  cbn. apply Qeq_bool_iff. reflexivity.
Qed.

(** The formatter on the scenario gives the line of the README. *)
Example formatStatusMessage_readme :
  resultOf (formatStatusMessage session
              (usageIn (home 0 None) (sessionFile session))
              (Some snapshot) false (allUp 1700000000000) (home 0 None))
  = Ok "📊 42% ctx │ 🟢 $6.61 left │ 📅 $0.14 today │ 🤖 moonshotai/kimi-k2.5 │ ↗ 405 out 📦 48.1K cache │ 🕐 20:44".
Proof. reflexivity. Qed.

(** The extractor on the scenario log: the latest assistant turn, past the
    user turn after it and the broken line before it. *)
Example parseLastUsage_scenario :
  resultOf (parseLastUsage (JStr "/x/a.jsonl") (allUp 1700000000000) (home 0 None))
  = Ok (Some {| input := num 110100; output := num 405; cacheRead := num 48100 |}).
Proof. reflexivity. Qed.

(** The state file written by one pass is read back by the next. *)
Example storedState_roundtrip :
  storedState pinned42 = pinRecord session (num 42).
Proof. reflexivity. Qed.

(** C1, witness: the rate limiter refuses the edit of message 42. *)
Lemma ensurePin_keeps_pin_unless_taken_as_gone_witness :
  hasPinFor pinned42 session = true /\
  editAnswer rateLimited config session pinned42 html = Throw err429 /\
  takenAsGone err429 = false /\
  ensurePin config session html rateLimited pinned42 =
    (Ok (num 42), pinned42,
     [EvRead STATE_FILE;
      EvFetch (editRequest config session (num 42) html);
      EvLog LogError [TAG; "Edit failed:";
                      "Telegram editMessageText: Too Many Requests: retry after 5"]]).
Proof.
  assert (H1 : hasPinFor pinned42 session = true) by (reflexivity).
  assert (H2 : editAnswer rateLimited config session pinned42 html = Throw err429)
    by (reflexivity).
  assert (H3 : takenAsGone err429 = false) by (reflexivity).
  split; [exact H1|]. split; [exact H2|]. split; [exact H3|].
  exact (proj1 (ensurePin_keeps_pin_unless_taken_as_gone
                  config session html rateLimited pinned42 err429 H1 H2 H3)).
Defined.

(** C1, counterexample: a Pin Record exists for the chat and the edit fails
    with "message can't be edited", a 400 that is not the "message not
    found" error; yet a new message is sent, its identity 43 is returned
    instead of the stored 42, and the Pin Record is overwritten. *)
Lemma ensurePin_recreates_on_other_400 :
  hasPinFor pinned42 session = true /\
  editAnswer cannotEdit config session pinned42 html
    = Throw (err400 "Bad Request: message can't be edited") /\
  messageNotFound (err400 "Bad Request: message can't be edited") = false /\
  storedId pinned42 = num 42 /\
  resultOf (ensurePin config session html cannotEdit pinned42) = Ok (num 43) /\
  sends (traceOf (ensurePin config session html cannotEdit pinned42)) = 1%nat /\
  storedState (worldOf (ensurePin config session html cannotEdit pinned42))
    = pinRecord session (num 43).
Proof. repeat split; reflexivity. Qed.

(** C2, witness: the one send of a call whose edit fails with a 400 that is
    not "not modified". *)
Lemma ensurePin_sends_at_most_once_witness :
  sends (traceOf (ensurePin config session html gone pinned42)) = 1%nat /\
  (truthy (storedId pinned42) = false \/
   strict_eq (prop (storedState pinned42) "chatId") (JStr (chatId session)) = false \/
   exists err, editAnswer gone config session pinned42 html = Throw err /\
               takenAsGone err = true).
Proof.
  assert (H : sends (traceOf (ensurePin config session html gone pinned42)) = 1%nat)
    by (reflexivity).
  split; [exact H|].
  exact (proj1 (proj2 (ensurePin_sends_at_most_once config session html gone pinned42)) H).
Defined.

(** C2, counterexample: a send is issued although the stored record is
    present, is for the target chat, and the edit failed with "can't parse
    entities", which is not a "message not found" error. *)
Lemma ensurePin_sends_on_other_400 :
  truthy (storedId pinned42) = true /\
  strict_eq (prop (storedState pinned42) "chatId") (JStr (chatId session)) = true /\
  editAnswer cannotParse config session pinned42 html
    = Throw (err400 "Bad Request: can't parse entities: Unsupported start tag") /\
  messageNotFound (err400 "Bad Request: can't parse entities: Unsupported start tag") = false /\
  sends (traceOf (ensurePin config session html cannotParse pinned42)) = 1%nat.
Proof. repeat split; reflexivity. Qed.

(** C5, witness: message 42 is gone, message 43 is created, the pin is
    refused for missing rights. *)
Lemma ensurePin_recreates_when_message_gone_witness :
  hasPinFor pinned42 session = true /\
  sends (traceOf (ensurePin config session html gone pinned42)) = 1%nat /\
  ensurePin config session html gone pinned42 =
    (Ok (num 43),
     set_files (<[STATE_FILE := pinRecordText session (num 43)]> (files pinned42)) pinned42,
     [EvRead STATE_FILE;
      EvFetch (editRequest config session (num 42) html);
      EvLog LogWarn [TAG; "Pinned message gone, creating new one"];
      EvFetch (sendRequest config session html);
      EvFetch (pinRequest config session (num 43));
      EvLog LogWarn [TAG; "Pin failed (message still sent):";
                     "Telegram pinChatMessage: Bad Request: not enough rights to manage pinned messages in the chat"];
      EvWrite STATE_FILE (pinRecordText session (num 43))]).
Proof.
  assert (H1 : hasPinFor pinned42 session = true) by (reflexivity).
  assert (H2 : telegramRefuses
                 (fetch gone (editRequest config session (storedId pinned42) html))
                 400 "Bad Request: message to edit not found")
    by (apply (tgError_refuses 400 "Bad Request: message to edit not found"); discriminate).
  pose proof (ensurePin_recreates_when_message_gone
                config session html gone pinned42 H1 H2) as [Hs Hr].
  split; [exact H1|]. split; [exact Hs|].
  exact (Hr message43 (num 43) eq_refl eq_refl).
Defined.

(** C6, witness: Telegram answers that the message is not modified. *)
Lemma ensurePin_not_modified_is_success_witness :
  hasPinFor pinned42 session = true /\
  ensurePin config session html unchanged pinned42 =
    (Ok (num 42), pinned42,
     [EvRead STATE_FILE; EvFetch (editRequest config session (num 42) html)]).
Proof.
  assert (H1 : hasPinFor pinned42 session = true) by (reflexivity).
  split; [exact H1|].
  refine (proj1 (ensurePin_not_modified_is_success
                   config session html unchanged pinned42 "Bad Request: "
                   ": specified new message content and reply markup are exactly the same as a current content and reply markup of the message"
                   H1 _)).
  apply (tgError_refuses 400). discriminate.
Defined.

(** C4, witness: a first pass at 1700000000000, a second trigger two
    seconds later. *)
Lemma runUpdate_second_within_cooldown_is_skipped_witness :
  withinCooldown config 1700000000000 (lastUpdateTime (home 0 None)) = false /\
  1700000002000 - 1700000000000 < 3000 /\
  invoke config (at_ 1700000002000)
    (worldOf (invoke config (at_ 1700000000000) (home 0 None)))
  = (Ok tt, worldOf (invoke config (at_ 1700000000000) (home 0 None)), []).
Proof.
  assert (H1 : withinCooldown config (Date_now (trig_env (at_ 1700000000000)))
                 (lastUpdateTime (home 0 None)) = false) by reflexivity.
  assert (H2 : Date_now (trig_env (at_ 1700000002000))
               - Date_now (trig_env (at_ 1700000000000)) < 3000) by reflexivity.
  split; [exact H1|]. split; [exact H2|].
  exact (proj1 (proj2 (runUpdate_second_within_cooldown_is_skipped
                         config (at_ 1700000000000) (at_ 1700000002000) (home 0 None) 3000
                         eq_refl H1 H2))).
Defined.

(** C4, counterexample: the last pass ran at 1700000000000 and the window
    is 3000 ms. A trigger at +2000 is stopped by the gate; a second trigger
    at +4000, 2000 ms after the first, is not: it reads the log, queries the
    balance and edits the pinned message. *)
Lemma second_invocation_runs_after_skipped_first :
  cooldownMs config = Some 3000 /\
  1700000004000 - 1700000002000 < 3000 /\
  invoke config (at_ 1700000002000) justRan = (Ok tt, justRan, []) /\
  traceOf (invoke config (at_ 1700000004000)
             (worldOf (invoke config (at_ 1700000002000) justRan)))
  = [EvExists "/x/a.jsonl"; EvRead "/x/a.jsonl";
     EvFetch (balanceRequest config);
     EvRead STATE_FILE;
     EvFetch (editRequest config session (num 42)
                "📊 42% ctx │ 🟢 $6.61 left │ 📅 $0.14 today │ 🤖 moonshotai/kimi-k2.5 │ ↗ 405 out 📦 48.1K cache │ 🕐 20:44")].
Proof. repeat split; reflexivity. Qed.

(** C9, witness: after the pass at 1700000000000, three triggers inside the
    window, then one exactly one window after the pass. *)
Lemma cooldown_measured_from_last_executed_pass_witness :
  invokeAll config [at_ 1700000000500; at_ 1700000001000; at_ 1700000002999] justRan
    = (justRan, []) /\
  lastUpdateTime
    (worldOf (invoke config (at_ 1700000003000)
                (fst (invokeAll config
                        [at_ 1700000000500; at_ 1700000001000; at_ 1700000002999]
                        justRan))))
  = 1700000003000.
Proof.
  assert (Hburst : Forall (fun t => Date_now (trig_env t) - lastUpdateTime justRan < 3000)
                     [at_ 1700000000500; at_ 1700000001000; at_ 1700000002999])
    by (repeat constructor).
  assert (Hnext : lastUpdateTime justRan + 3000 <= Date_now (trig_env (at_ 1700000003000)))
    by discriminate.
  pose proof (cooldown_measured_from_last_executed_pass
                config justRan [] _ (at_ 1700000003000) 3000 eq_refl Hburst Hnext)
    as (_ & _ & _ & Hsame & _ & Hran).
  split; [exact Hsame | exact Hran].
Defined.




(** C8, witness: the registry of scenario C of the spec, with another
    agent's session before the matching one and no override. *)
Lemma discoverSession_chat_identity_witness :
  chatOverride (home 0 None) = None /\
  deliveryTarget mainEntry = JStr "telegram:555" /\
  discoverSession config (allUp 1700000000000) (home 0 None) =
    (Ok {| sessionFile := JStr "/x/a.jsonl";
           model := JStr "moonshotai/kimi-k2.5";
           chatId := "555";
           contextWindow := JNull |},
     home 0 None, [EvRead (sessionsFile config)]).
Proof.
  assert (Hfile : files (home 0 None) !! sessionsFile config = Some (stringify registry 2))
    by (reflexivity).
  assert (Hparse : JSON_parse (stringify registry 2) = Some registry)
    by (reflexivity).
  assert (Hmatch : matchingEntry config
                     [("agent:helper:main", JObj [("sessionFile", JStr "/x/helper.jsonl")]);
                      ("agent:main:main", mainEntry)]
                   = Some ("agent:main:main", mainEntry)) by (reflexivity).
  pose proof (discoverSession_chat_identity
                config (allUp 1700000000000) (home 0 None) _ _ _ _ _
                Hfile Hparse eq_refl Hmatch) as (Hdigits & _ & _).
  split; [reflexivity|]. split; [reflexivity|].
  refine (Hdigits "555" eq_refl eq_refl _ eq_refl). discriminate.
Defined.

(** C3, counterexample: the log is a byte order mark followed by one
    assistant turn. No line of the content parses, so no line qualifies;
    yet [parseLastUsage] returns the figures of the turn, because [trim]
    has removed the mark. *)
Lemma parseLastUsage_reads_past_byte_order_mark :
  files bomHome !! "/x/a.jsonl" = Some bomLog /\
  contentLines bomLog = [bomLog] /\
  JSON_parse bomLog = None /\
  LastQualifying (contentLines bomLog) None /\
  parseLastUsage (JStr "/x/a.jsonl") (allUp 1700000000000) bomHome =
    (Ok (Some {| input := num 110100; output := num 405; cacheRead := num 48100 |}),
     bomHome, [EvExists "/x/a.jsonl"; EvRead "/x/a.jsonl"]).
Proof.
  assert (Hlines : contentLines bomLog = [bomLog]) by reflexivity.
  assert (Hparse : JSON_parse bomLog = None) by reflexivity.
  split; [reflexivity|]. split; [exact Hlines|]. split; [exact Hparse|].
  split; [|reflexivity].
  intros l u' Hin (entry & Hentry & _). rewrite Hlines in Hin.
  destruct Hin as [<-|[]]. rewrite Hparse in Hentry. discriminate.
Qed.

(** ** The further properties at concrete inputs *)

(** X2, witness: the session of the scenario, the usage of its log and the
    snapshot with 6.61 left. *)
Lemma formatStatusMessage_throws_only_on_non_numeric_balance_witness :
  primitiveSession session = true /\
  primitiveUsage (usageIn (home 0 None) (sessionFile session)) = true /\
  primitiveLimit (Some snapshot) = true /\
  ((exists html,
      formatStatusMessage session (usageIn (home 0 None) (sessionFile session))
        (Some snapshot) false (allUp 1700000000000) (home 0 None)
      = (Ok html, home 0 None, []))
   <-> (exists x, balanceValue snapshot = JNum x)
       /\ (exists d, usageDaily snapshot = JNum d)).
Proof.
  split; [reflexivity|]. split; [reflexivity|]. split; [reflexivity|].
  exact (formatStatusMessage_throws_only_on_non_numeric_balance
           session (usageIn (home 0 None) (sessionFile session)) (Some snapshot)
           false (allUp 1700000000000) (home 0 None) eq_refl eq_refl eq_refl).
Defined.

(** X10, witness: the latest assistant turn of the log. *)
Lemma parseLastUsage_fills_figures_witness :
  resultOf (parseLastUsage (JStr "/x/a.jsonl") (allUp 1700000000000) (home 0 None))
  = Ok (Some {| input := num 110100; output := num 405; cacheRead := num 48100 |}) /\
  truthyOrZero (num 110100) /\ truthyOrZero (num 405) /\ truthyOrZero (num 48100).
Proof.
  assert (H : resultOf (parseLastUsage (JStr "/x/a.jsonl") (allUp 1700000000000)
                          (home 0 None))
              = Ok (Some {| input := num 110100; output := num 405;
                            cacheRead := num 48100 |})) by reflexivity.
  split; [exact H|].
  destruct (parseLastUsage_fills_figures _ _ _ _ H) as (Hi & Ho & Hc & _).
  split; [exact Hi|]. split; [exact Ho|exact Hc].
Defined.


(** X3, witness: five past nine in the morning. *)
Lemma timePart_is_zero_padded_witness :
  (9 < 24)%nat /\ (5 < 60)%nat /\ timePart 9 5 = "🕐 09:05".
Proof.
  split; [lia|]. split; [lia|].
  exact (timePart_is_zero_padded 9 5 ltac:(lia) ltac:(lia)).
Defined.

(** X4, witness: an installation without a state file. *)
Lemma loadState_tolerates_missing_or_corrupt_file_witness :
  files fresh !! STATE_FILE = None /\
  loadState (allUp 1700000000000) fresh = (Ok JNull, fresh, [EvRead STATE_FILE]) /\
  hasPinFor fresh session = false.
Proof.
  assert (H : files fresh !! STATE_FILE = None) by reflexivity.
  split; [exact H|].
  exact (loadState_tolerates_missing_or_corrupt_file
           (allUp 1700000000000) fresh session (or_introl H)).
Defined.

(** X6, witness: the first pass of an installation; Telegram returns
    message 43. *)
Lemma ensurePin_creates_without_usable_record_witness :
  hasPinFor fresh session = false /\
  calls "editMessageText"
    (traceOf (ensurePin config session html (allUp 1700000000000) fresh)) = 0%nat /\
  sends (traceOf (ensurePin config session html (allUp 1700000000000) fresh)) = 1%nat /\
  resultOf (ensurePin config session html (allUp 1700000000000) fresh) = Ok (num 43) /\
  files (worldOf (ensurePin config session html (allUp 1700000000000) fresh))
    !! STATE_FILE = Some (pinRecordText session (num 43)).
Proof.
  assert (H : hasPinFor fresh session = false) by reflexivity.
  destruct (ensurePin_creates_without_usable_record
              config session html (allUp 1700000000000) fresh H) as (He & Hs & Hc).
  destruct (Hc message43 (num 43) eq_refl eq_refl) as (Hr & Hf).
  split; [exact H|]. split; [exact He|]. split; [exact Hs|].
  split; [exact Hr|exact Hf].
Defined.

(** X7, witness: the bot may send but not pin. *)
Lemma ensurePin_pin_failure_is_tolerated_witness :
  hasPinFor fresh session = false /\
  pinAnswer gone config session (num 43) = Throw err400pin /\
  ensurePin config session html gone fresh =
    (Ok (num 43),
     set_files (<[STATE_FILE := pinRecordText session (num 43)]> (files fresh)) fresh,
     [EvRead STATE_FILE;
      EvFetch (sendRequest config session html);
      EvFetch (pinRequest config session (num 43));
      EvLog LogWarn [TAG; "Pin failed (message still sent):"; err_message err400pin];
      EvWrite STATE_FILE (pinRecordText session (num 43))]).
Proof.
  assert (H : hasPinFor fresh session = false) by reflexivity.
  assert (Hp : pinAnswer gone config session (num 43) = Throw err400pin) by reflexivity.
  split; [exact H|]. split; [exact Hp|].
  exact (ensurePin_pin_failure_is_tolerated
           config session html gone fresh message43 (num 43) err400pin
           H eq_refl eq_refl Hp).
Defined.

(** X8, witness: the network is down for the send. *)
Lemma ensurePin_send_failure_changes_nothing_witness :
  sendAnswer sendDown config session html = Throw (TypeError "fetch failed") /\
  hasPinFor fresh session = false /\
  ensurePin config session html sendDown fresh =
    (Throw (TypeError "fetch failed"), fresh,
     [EvRead STATE_FILE; EvFetch (sendRequest config session html)]).
Proof.
  assert (Hs : sendAnswer sendDown config session html = Throw (TypeError "fetch failed"))
    by reflexivity.
  assert (H : hasPinFor fresh session = false) by reflexivity.
  split; [exact Hs|]. split; [exact H|].
  exact (proj2 (proj2 (proj2 (ensurePin_send_failure_changes_nothing
                                config session html sendDown fresh _ Hs))) H).
Defined.

(** X9, witness: the pass after the first edits message 43. *)
Lemma ensurePin_edits_the_message_it_created_witness :
  hasPinFor fresh session = false /\
  JSON_parse (pinRecordText session (num 43)) = Some (pinRecord session (num 43)) /\
  ensurePin config session html (allUp 1700000005000)
    (worldOf (ensurePin config session html (allUp 1700000000000) fresh)) =
    (Ok (num 43), worldOf (ensurePin config session html (allUp 1700000000000) fresh),
     [EvRead STATE_FILE; EvFetch (editRequest config session (num 43) html)]).
Proof.
  assert (H : hasPinFor fresh session = false) by reflexivity.
  assert (Hparse : JSON_parse (pinRecordText session (num 43))
                   = Some (pinRecord session (num 43))) by reflexivity.
  split; [exact H|]. split; [exact Hparse|].
  exact (ensurePin_edits_the_message_it_created
           config session session html html (allUp 1700000000000) (allUp 1700000005000)
           fresh message43 (num 43) (JBool true)
           H eq_refl eq_refl eq_refl Hparse eq_refl eq_refl).
Defined.

(** X12, witness: the balance service answers with the snapshot. *)
Lemma runUpdate_caches_fresh_balance_witness :
  withinCooldown config 1700000000000 (lastUpdateTime (home 0 None)) = false /\
  balanceAnswer (fetch (allUp 1700000000000) (balanceRequest config)) = Ok snapshot /\
  cachedBalance (worldOf (runUpdate config session (allUp 1700000000000) (home 0 None)))
    = Some snapshot /\
  lastUpdateTime (worldOf (runUpdate config session (allUp 1700000000000) (home 0 None)))
    = 1700000000000.
Proof.
  assert (Hb : balanceAnswer (fetch (allUp 1700000000000) (balanceRequest config))
               = Ok snapshot) by reflexivity.
  split; [reflexivity|]. split; [exact Hb|].
  exact (runUpdate_caches_fresh_balance
           config session (allUp 1700000000000) (home 0 None) snapshot eq_refl Hb).
Defined.

(** X13, witness: the answer of the balance service has no [usage_daily]. *)
Lemma runUpdate_malformed_balance_blocks_publishing_witness :
  balanceAnswer (fetch (dailyMissing 1700000000000) (balanceRequest config)) = Ok noDaily /\
  (forall d, usageDaily noDaily <> JNum d) /\
  (exists e, resultOf (runUpdate config session (dailyMissing 1700000000000) (home 0 None))
             = Throw e) /\
  sends (traceOf (runUpdate config session (dailyMissing 1700000000000) (home 0 None)))
    = 0%nat /\
  cachedBalance (worldOf (runUpdate config session (dailyMissing 1700000000000)
                            (home 0 None)))
    = Some noDaily.
Proof.
  assert (Hb : balanceAnswer (fetch (dailyMissing 1700000000000) (balanceRequest config))
               = Ok noDaily) by reflexivity.
  assert (Hd : forall d, usageDaily noDaily <> JNum d) by (intros d; discriminate).
  destruct (runUpdate_malformed_balance_blocks_publishing
              config session (dailyMissing 1700000000000) (home 0 None) noDaily
              eq_refl Hb (or_intror Hd)) as (Hthrow & Hcalls & _ & Hcache).
  split; [exact Hb|]. split; [exact Hd|]. split; [exact Hthrow|].
  split; [exact (Hcalls "sendMessage")|exact Hcache].
Defined.

(** X16, witness: the pass edits message 42 with the status of the
    moment. *)
Lemma runUpdate_requests_carry_the_formatted_status_witness :
  In (EvFetch (editRequest config session (num 42) status))
     (traceOf (runUpdate config session (allUp 1700000000000) (home 0 None))) /\
  (editRequest config session (num 42) status = balanceRequest config
   \/ exists html stale,
        formatted session (usageIn (home 0 None) (sessionFile session))
          (cachedBalance (worldOf (runUpdate config session (allUp 1700000000000)
                                     (home 0 None)))) stale (allUp 1700000000000)
        = Ok html
        /\ (editRequest config session (num 42) status
              = editRequest config session (storedId (home 0 None)) html
            \/ editRequest config session (num 42) status
               = sendRequest config session html
            \/ exists messageId,
                 editRequest config session (num 42) status
                 = pinRequest config session messageId)).
Proof.
  assert (Ht : traceOf (runUpdate config session (allUp 1700000000000) (home 0 None))
               = [EvExists "/x/a.jsonl"; EvRead "/x/a.jsonl";
                  EvFetch (balanceRequest config); EvRead STATE_FILE;
                  EvFetch (editRequest config session (num 42) status)])
    by reflexivity.
  assert (Hin : In (EvFetch (editRequest config session (num 42) status))
                   (traceOf (runUpdate config session (allUp 1700000000000)
                               (home 0 None)))).
  { rewrite Ht. do 4 right. left. reflexivity. }
  split; [exact Hin|].
  exact (runUpdate_requests_carry_the_formatted_status
           config session (allUp 1700000000000) (home 0 None) _ Hin).
Defined.

(** X14, witness: the cooldown did not parse; the pass runs although the
    last one started in the same millisecond. *)
Lemma runUpdate_without_cooldown_always_runs_witness :
  cooldownMs configNaN = None /\
  lastUpdateTime (worldOf (runUpdate configNaN session (allUp 1700000000000) justRan))
    = 1700000000000 /\
  In (EvFetch (balanceRequest configNaN))
     (traceOf (runUpdate configNaN session (allUp 1700000000000) justRan)).
Proof.
  split; [reflexivity|].
  exact (runUpdate_without_cooldown_always_runs
           configNaN session (allUp 1700000000000) justRan (or_introl eq_refl)).
Defined.

(** X19, witness: the descriptor of the session of the agent [main]. *)
Lemma discoverSession_descriptor_is_usable_witness :
  resultOf (discoverSession config (allUp 1700000000000) (home 0 None)) = Ok newSession /\
  chatId newSession <> "" /\ truthy (sessionFile newSession) = true /\
  truthy (model newSession) = true /\
  (truthy (contextWindow newSession) = true \/ contextWindow newSession = JNull).
Proof.
  assert (H : resultOf (discoverSession config (allUp 1700000000000) (home 0 None))
              = Ok newSession) by reflexivity.
  split; [exact H|].
  exact (discoverSession_descriptor_is_usable
           config (allUp 1700000000000) (home 0 None) newSession H).
Defined.

(** X20, witness: the registry holds a session of another agent only. *)
Lemma discoverSession_fails_without_matching_entry_witness :
  files helperOnly !! sessionsFile config = Some (stringify helperRegistry 2) /\
  JSON_parse (stringify helperRegistry 2) = Some helperRegistry /\
  discoverSession config (allUp 1700000000000) helperOnly =
    (Throw (Error "No session found matching agent:main:*"), helperOnly,
     [EvRead (sessionsFile config)]).
Proof.
  assert (Hfile : files helperOnly !! sessionsFile config
                  = Some (stringify helperRegistry 2)) by reflexivity.
  assert (Hparse : JSON_parse (stringify helperRegistry 2) = Some helperRegistry)
    by reflexivity.
  split; [exact Hfile|]. split; [exact Hparse|].
  exact (discoverSession_fails_without_matching_entry
           config (allUp 1700000000000) helperOnly _ _ _ Hfile Hparse eq_refl eq_refl).
Defined.

(** X21, witness: the model of the session is in the listing; the second
    lookup is answered although the service is unreachable. *)
Lemma fetchContextWindow_serves_listed_models_from_cache_witness :
  Map_has (modelContextCache fresh) (JStr "moonshotai/kimi-k2.5") = false /\
  resultOf (fetchContextWindow "sk-or-v1-0000" (JStr "moonshotai/kimi-k2.5") listing fresh)
    = Ok (num 262144) /\
  fetchContextWindow "sk-or-v1-0000" (JStr "moonshotai/kimi-k2.5") (allUp 1700000005000)
    (worldOf (fetchContextWindow "sk-or-v1-0000" (JStr "moonshotai/kimi-k2.5")
                listing fresh))
  = (Ok (num 262144),
     worldOf (fetchContextWindow "sk-or-v1-0000" (JStr "moonshotai/kimi-k2.5")
                listing fresh), []).
Proof.
  assert (Hmiss : Map_has (modelContextCache fresh) (JStr "moonshotai/kimi-k2.5") = false)
    by reflexivity.
  assert (Hok : resultOf (fetchContextWindow "sk-or-v1-0000"
                            (JStr "moonshotai/kimi-k2.5") listing fresh)
                = Ok (num 262144)) by reflexivity.
  split; [exact Hmiss|]. split; [exact Hok|].
  exact (fetchContextWindow_serves_listed_models_from_cache
           "sk-or-v1-0000" (JStr "moonshotai/kimi-k2.5") listing fresh
           _ _ models (num 262144) kimi "moonshotai/kimi-k2.5"
           Hmiss eq_refl eq_refl eq_refl Hok (or_intror (or_introl eq_refl))
           eq_refl eq_refl "sk-or-v1-0000" (allUp 1700000005000)).
Defined.

(** X23, witness: a new session whose model is in the listing. *)
Lemma resolveContextWindow_always_yields_a_window_witness :
  cacheTruthy (modelContextCache fresh) /\
  num_falsy (num_of_Z DEFAULT_CONTEXT_WINDOW) = false /\
  (exists window,
     resultOf (resolveContextWindow config newSession listing fresh)
       = Ok (with_contextWindow window newSession)
     /\ truthy window = true).
Proof.
  assert (Hc : cacheTruthy (modelContextCache fresh)) by constructor.
  assert (Hd : num_falsy (num_of_Z DEFAULT_CONTEXT_WINDOW) = false) by reflexivity.
  split; [exact Hc|]. split; [exact Hd|].
  exact (proj1 (resolveContextWindow_always_yields_a_window
                  config newSession listing fresh Hc Hd)).
Defined.

(** X24, witness: after the listing, discovery returns the session with
    the window of its model. *)
Lemma discoverSession_takes_the_window_from_the_cache_witness :
  worldOf (fetchContextWindow "sk-or-v1-0000" (JStr "moonshotai/kimi-k2.5") listing fresh)
    = listed /\
  num_falsy (parseInt10 "0") = true /\
  resultOf (discoverSession config (allUp 1700000000000) listed) = Ok session /\
  contextWindow session =
    if Map_has (modelContextCache listed) (model session)
    then Map_get (modelContextCache listed) (model session) else JNull.
Proof.
  assert (Hok : resultOf (discoverSession config (allUp 1700000000000) listed)
                = Ok session) by reflexivity.
  assert (Hc : cacheTruthy (modelContextCache listed)).
  { repeat constructor. }
  split; [reflexivity|]. split; [reflexivity|]. split; [exact Hok|].
  exact (discoverSession_takes_the_window_from_the_cache
           config (allUp 1700000000000) listed session eq_refl eq_refl Hc Hok).
Defined.

(** X27, witness: both credentials are exported; no file exists. *)
Lemma resolveConfig_environment_wins_witness :
  processEnv exported !! "TELEGRAM_BOT_TOKEN"
    = Some "110201543:AAHdqTcvCH1vGWJxfSeofSAs0K5PALDsaw" /\
  processEnv exported !! "OPENROUTER_API_KEY" = Some "sk-or-v1-0000" /\
  exists c,
    resolveConfig "/home/node" JNull (allUp 1700000000000) exported = (Ok c, exported, [])
    /\ r_botToken c = JStr "110201543:AAHdqTcvCH1vGWJxfSeofSAs0K5PALDsaw"
    /\ r_openrouterKey c = JStr "sk-or-v1-0000".
Proof.
  split; [reflexivity|]. split; [reflexivity|].
  refine (resolveConfig_environment_wins
            "/home/node" JNull (allUp 1700000000000) exported _ _ eq_refl _ eq_refl _);
    discriminate.
Defined.

(** X28, witness: nothing is configured anywhere. *)
Lemma resolveConfig_missing_token_is_reported_first_witness :
  truthy (envToken bare) = false /\
  files bare !! configFile "/home/node" bare = None /\
  resultOf (resolveConfig "/home/node" JNull (allUp 1700000000000) bare)
    = Throw tokenError /\
  In (EvRead "/home/node/.openclaw/openclaw.json")
     (traceOf (resolveConfig "/home/node" JNull (allUp 1700000000000) bare)).
Proof.
  split; [reflexivity|]. split; [reflexivity|].
  exact (resolveConfig_missing_token_is_reported_first
           "/home/node" JNull (allUp 1700000000000) bare eq_refl eq_refl eq_refl).
Defined.

(** X29, witness: the token is in [openclaw.json], the key in the auth
    profiles. *)
Lemma resolveConfig_takes_token_from_comment_free_file_witness :
  files installed !! configFile "/home/node" installed = Some (stringify openclawJson 2) /\
  JSString.includes "//" (stringify openclawJson 2) = false /\
  JSString.includes "/*" (stringify openclawJson 2) = false /\
  JSON_parse (stringify openclawJson 2) = Some openclawJson /\
  resolveConfig "/home/node" JNull (allUp 1700000000000) installed =
    (Ok resolved, installed,
     [EvRead "/home/node/.openclaw/openclaw.json";
      EvRead "/home/node/.openclaw/agents/main/agent/auth-profiles.json"]) /\
  r_botToken resolved = prop (prop (prop openclawJson "channels") "telegram") "botToken".
Proof.
  assert (Hrun : resolveConfig "/home/node" JNull (allUp 1700000000000) installed =
                 (Ok resolved, installed,
                  [EvRead "/home/node/.openclaw/openclaw.json";
                   EvRead "/home/node/.openclaw/agents/main/agent/auth-profiles.json"]))
    by reflexivity.
  split; [reflexivity|]. split; [reflexivity|]. split; [reflexivity|].
  split; [reflexivity|]. split; [exact Hrun|].
  exact (resolveConfig_takes_token_from_comment_free_file
           "/home/node" JNull (allUp 1700000000000) installed
           (stringify openclawJson 2) openclawJson resolved
           eq_refl eq_refl eq_refl eq_refl eq_refl eq_refl
           (f_equal resultOf Hrun)).
Defined.

(** X30, witness: of the two profiles, the one of OpenRouter gives the
    key. *)
Lemma resolveConfig_file_key_is_of_an_openrouter_profile_witness :
  truthy (envKey installed) = false /\
  resultOf (resolveConfig "/home/node" JNull (allUp 1700000000000) installed)
    = Ok resolved /\
  exists raw authData profiles p,
    files installed !! authFile "/home/node" installed = Some raw
    /\ JSON_parse raw = Some authData
    /\ Object_values (js_or (prop authData "profiles") authData) = Ok profiles
    /\ In p profiles
    /\ prop p "provider" = JStr "openrouter"
    /\ r_openrouterKey resolved = prop p "key".
Proof.
  assert (Hok : resultOf (resolveConfig "/home/node" JNull (allUp 1700000000000) installed)
                = Ok resolved) by reflexivity.
  split; [reflexivity|]. split; [exact Hok|].
  exact (resolveConfig_file_key_is_of_an_openrouter_profile
           "/home/node" JNull (allUp 1700000000000) installed resolved eq_refl Hok).
Defined.
